(** * Really Nice IRL: the persistence layer (base.py) and the navigation
    shell (rn_irl.py), embedded as functions over explicit database tables.

    A table is the list of its rows in storage order.  A nullable column is
    an [option]; so is a Python attribute that may hold [None].  A function
    that opens a session takes the tables it reads and returns the tables it
    leaves behind after its commit.  The clock ([datetime.now()]) and the
    salt ([bcrypt.gensalt()]) are inputs. *)

From Stdlib Require Import ZArith List String Ascii Bool Lia DecimalString.
From Stdlib Require Import Sorted Permutation.
Import ListNotations.
Open Scope Z_scope.

(** ** Python outcomes *)

Inductive exn : Type :=
| AttributeError   (* attribute access on None *)
| TypeError        (* ordering comparison with None *)
| IntegrityError.  (* primary key already present *)

Inductive outcome (A : Type) : Type :=
| Returns (a : A)
| Raises (e : exn).

Arguments Returns {A} a.
Arguments Raises {A} e.

(** ** Comparisons on nullable values *)

Module Null.

Definition eqb {A} (e : A -> A -> bool) (x y : option A) : bool :=
  match x, y with
  | None, None => true
  | Some a, Some b => e a b
  | _, _ => false
  end.

(** Python [==] on [Optional[int]] and [Optional[str]]; also the ORM's
    [column == value], rendered [IS NULL] when the value is [None]. *)
Definition eq_int : option Z -> option Z -> bool := eqb Z.eqb.
Definition eq_str : option string -> option string -> bool := eqb String.eqb.

(** SQL [=] between two columns: never true on NULL. *)
Definition col_eq_int (x y : option Z) : bool :=
  match x, y with
  | Some a, Some b => a =? b
  | _, _ => false
  end.

(** SQL [column IN (v1, ..., vn)]. *)
Definition in_ (x : option Z) (vs : list (option Z)) : bool :=
  existsb (col_eq_int x) vs.

(** Python [x in xs]. *)
Definition py_in (x : option Z) (xs : list (option Z)) : bool :=
  existsb (eq_int x) xs.

End Null.

(** ** The order on stored dates: ISO text (YYYY-MM-DD) compared as text,
    NULL before every text. *)

Module DateOrder.

Definition leb (x y : option string) : bool :=
  match x, y with
  | None, _ => true
  | Some _, None => false
  | Some a, Some b => String.leb a b
  end.

Definition ltb (x y : option string) : bool := negb (leb y x).

End DateOrder.

(** ** The clock *)

Record datetime : Type := mk_datetime { year : Z; month : Z; day : Z }.

(** ['%d' % z] and ['%02d' % z]. *)
Definition fmt_d (z : Z) : string := NilZero.string_of_int (Z.to_int z).

Definition fmt_02d (z : Z) : string :=
  let s := fmt_d z in
  if (String.length s <? 2)%nat then ("0" ++ s)%string else s.

(** ** Mapped classes: a table row with an integer primary key *)

Class Mapped (R : Type) : Type := {
  pk : R -> option Z;
  set_pk : R -> option Z -> R
}.

(** ** Queries *)

Module Query.

Section Rows.
Context {R : Type}.

(** [query.filter(p).first()] *)
Definition first (p : R -> bool) (table : list R) : option R := find p table.

(** [query.filter(p).delete()]: the number of rows removed and the rows
    that stay. *)
Definition delete (p : R -> bool) (table : list R) : Z * list R :=
  (Z.of_nat (List.length (filter p table)), filter (fun r => negb (p r)) table).

(** [query.filter(p).update(values)] where [values] assigns every column. *)
Definition update_all (p : R -> bool) (values : R) (table : list R) : list R :=
  map (fun r => if p r then values else r) table.

(** The key the database gives a row inserted without one. *)
Definition next_id (keys : list (option Z)) : Z :=
  1 + fold_right (fun k m => match k with Some z => Z.max z m | None => m end)
        0 keys.

(** [session.add(obj); session.commit()] for a new object. *)
Definition add `{Mapped R} (obj : R) (table : list R) : outcome (R * list R) :=
  match pk obj with
  | None =>
      let obj' := set_pk obj (Some (next_id (map pk table))) in
      Returns (obj', table ++ [obj'])
  | Some k =>
      if Null.in_ (Some k) (map pk table) then Raises IntegrityError
      else Returns (obj, table ++ [obj])
  end.

(** [GROUP BY key] with [max(date)]: one row per key, in order of first
    appearance; the row kept is the first one carrying the greatest date. *)
Variable key : R -> option Z.
Variable date : R -> option string.

Fixpoint absorb (r : R) (acc : list R) : list R :=
  match acc with
  | [] => [r]
  | a :: acc' =>
      if Null.eq_int (key a) (key r)
      then (if DateOrder.ltb (date a) (date r) then r else a) :: acc'
      else a :: absorb r acc'
  end.

Definition group_by_max (rows : list R) : list R :=
  fold_left (fun acc r => absorb r acc) rows [].

(** [ORDER BY date], ascending and stable. *)
Fixpoint place (r : R) (sorted : list R) : list R :=
  match sorted with
  | [] => [r]
  | y :: s =>
      if DateOrder.leb (date r) (date y) then r :: y :: s
      else y :: place r s
  end.

Definition order_by (rows : list R) : list R := fold_right place [] rows.

End Rows.

(** [func.sum(column)]: NULLs are skipped; NULL when nothing is left. *)
Fixpoint sum (vs : list (option Z)) : option Z :=
  match vs with
  | [] => None
  | None :: vs' => sum vs'
  | Some v :: vs' =>
      match sum vs' with
      | None => Some v
      | Some s => Some (v + s)
      end
  end.

End Query.

(** ** class IRLAssessment ("IRL Data") *)

Module IRLAssessment.

Record t : Type := mk {
  id : option Z;
  project_no : option Z;
  project_name : option string;
  project_leader_id : option Z;
  project_description : option string;
  assessment_date : option string;
  project_notes : option string;
  crl : option Z;
  trl : option Z;
  brl : option Z;
  iprl : option Z;
  tmrl : option Z;
  frl : option Z;
  crl_notes : option string;
  trl_notes : option string;
  brl_notes : option string;
  iprl_notes : option string;
  tmrl_notes : option string;
  frl_notes : option string;
  crl_target : option Z;
  trl_target : option Z;
  brl_target : option Z;
  iprl_target : option Z;
  tmrl_target : option Z;
  frl_target : option Z;
  crl_target_lead : option string;
  trl_target_lead : option string;
  brl_target_lead : option string;
  iprl_target_lead : option string;
  tmrl_target_lead : option string;
  frl_target_lead : option string;
  crl_target_duedate : option string;
  trl_target_duedate : option string;
  brl_target_duedate : option string;
  iprl_target_duedate : option string;
  tmrl_target_duedate : option string;
  frl_target_duedate : option string;
  plot_targets : option Z;
  active : option Z
}.

Definition set_id (r : t) (v : option Z) : t :=
  mk (v) (project_no r) (project_name r) (project_leader_id r)
     (project_description r) (assessment_date r) (project_notes r) (crl r)
     (trl r) (brl r) (iprl r) (tmrl r) (frl r) (crl_notes r) (trl_notes r)
     (brl_notes r) (iprl_notes r) (tmrl_notes r) (frl_notes r)
     (crl_target r) (trl_target r) (brl_target r) (iprl_target r)
     (tmrl_target r) (frl_target r) (crl_target_lead r) (trl_target_lead r)
     (brl_target_lead r) (iprl_target_lead r) (tmrl_target_lead r)
     (frl_target_lead r) (crl_target_duedate r) (trl_target_duedate r)
     (brl_target_duedate r) (iprl_target_duedate r) (tmrl_target_duedate r)
     (frl_target_duedate r) (plot_targets r) (active r).

Definition set_assessment_date (r : t) (v : option string) : t :=
  mk (id r) (project_no r) (project_name r) (project_leader_id r)
     (project_description r) (v) (project_notes r) (crl r) (trl r) (brl r)
     (iprl r) (tmrl r) (frl r) (crl_notes r) (trl_notes r) (brl_notes r)
     (iprl_notes r) (tmrl_notes r) (frl_notes r) (crl_target r)
     (trl_target r) (brl_target r) (iprl_target r) (tmrl_target r)
     (frl_target r) (crl_target_lead r) (trl_target_lead r)
     (brl_target_lead r) (iprl_target_lead r) (tmrl_target_lead r)
     (frl_target_lead r) (crl_target_duedate r) (trl_target_duedate r)
     (brl_target_duedate r) (iprl_target_duedate r) (tmrl_target_duedate r)
     (frl_target_duedate r) (plot_targets r) (active r).

#[global] Instance mapped : Mapped t := {| pk := id; set_pk := set_id |}.

(** [IRLAssessment._getDate] *)
Definition _getDate (now : datetime) : string :=
  (fmt_d (year now) ++ "-" ++ fmt_02d (month now) ++ "-"
     ++ fmt_02d (day now))%string.

(** [IRLAssessment.insert]: the error, the object afterwards, the table
    afterwards. *)
Definition insert (now : datetime) (self : t) (table : list t)
  : outcome (option string * t * list t) :=
  let self := set_assessment_date self (Some (_getDate now)) in
  let exists_ :=
    match Query.first
            (fun r => Null.eq_int (project_no r) (project_no self)) table with
    | Some _ => true
    | None => false
    end in
  if exists_
  then Returns (Some "Project already exists in the database!"%string,
                self, table)
  else
    match Query.add self table with
    | Returns (self', table') => Returns (None, self', table')
    | Raises e => Raises e
    end.

(** The object built in the else-branch of [update]. *)
Definition new_irl (date : string) (keep_ass_notes : bool) (self : t) : t :=
  let notes (n : option string) : option string :=
    if keep_ass_notes then n else None in
  mk None (project_no self) (project_name self) (project_leader_id self)
     (project_description self) (Some date) (notes (project_notes self))
     (crl self) (trl self) (brl self) (iprl self) (tmrl self) (frl self)
     (notes (crl_notes self)) (notes (trl_notes self))
     (notes (brl_notes self)) (notes (iprl_notes self))
     (notes (tmrl_notes self)) (notes (frl_notes self))
     (crl_target self) (trl_target self) (brl_target self)
     (iprl_target self) (tmrl_target self) (frl_target self)
     (crl_target_lead self) (trl_target_lead self) (brl_target_lead self)
     (iprl_target_lead self) (tmrl_target_lead self) (frl_target_lead self)
     (crl_target_duedate self) (trl_target_duedate self)
     (brl_target_duedate self) (iprl_target_duedate self)
     (tmrl_target_duedate self) (frl_target_duedate self)
     (plot_targets self) (active self).

(** [IRLAssessment.update]: the error and the table afterwards. *)
Definition update (now : datetime) (self : t)
    (overwrite keep_ass_notes : bool) (table : list t)
  : outcome (option string * list t) :=
  let date := _getDate now in
  if overwrite || Null.eq_str (Some date) (assessment_date self)
  then
    Returns (None,
             Query.update_all (fun r => Null.eq_int (id r) (id self))
               self table)
  else
    match Query.add (new_irl date keep_ass_notes self) table with
    | Returns (_, table') => Returns (None, table')
    | Raises _ =>
        Returns (Some "Could not save assessment to the database."%string,
                 table)
    end.

End IRLAssessment.

(** ** class User ("Users") *)

Module User.

Record t : Type := mk {
  user_id : option Z;
  actual_name : option string;
  username : option string;
  password : option string;
  rights : option Z;
  active : option Z;
  org_id : option Z;
  fac_id : option Z;
  dep_id : option Z
}.

Definition set_user_id (u : t) (v : option Z) : t :=
  mk v (actual_name u) (username u) (password u) (rights u) (active u)
     (org_id u) (fac_id u) (dep_id u).

Definition set_password (u : t) (v : option string) : t :=
  mk (user_id u) (actual_name u) (username u) v (rights u) (active u)
     (org_id u) (fac_id u) (dep_id u).

#[global] Instance mapped : Mapped t :=
  {| pk := user_id; set_pk := set_user_id |}.

End User.

(** ** class UserSettings ("User Settings") *)

Module UserSettings.

Record t : Type := mk {
  id : option Z;
  user_id : option Z;
  smooth_irl : option Z;
  filter_on_user : option Z;
  remember_project : option Z;
  last_project_no : option Z;
  ascending_irl : option Z;
  ap_table_view : option Z;
  dark_mode : option Z
}.

Definition set_id (s : t) (v : option Z) : t :=
  mk v (user_id s) (smooth_irl s) (filter_on_user s) (remember_project s)
     (last_project_no s) (ascending_irl s) (ap_table_view s) (dark_mode s).

#[global] Instance mapped : Mapped t := {| pk := id; set_pk := set_id |}.

End UserSettings.

(** ** class ProjectTeam ("Project Teams") *)

Module ProjectTeam.

Record t : Type := mk {
  id : option Z;
  project_id : option Z;
  user_id : option Z;
  project_rights : option Z;
  active : option Z
}.

End ProjectTeam.

(** ** class ActionPoint ("Action Points") *)

Module ActionPoint.

Record t : Type := mk {
  ap_id : option Z;
  assessment_id : option Z;
  irl_type : option string;
  action_point : option string;
  responsible : option Z;
  due_date : option string;
  progress : option Z;
  comment : option string
}.

Definition set_ap_id (ap : t) (v : option Z) : t :=
  mk v (assessment_id ap) (irl_type ap) (action_point ap) (responsible ap)
     (due_date ap) (progress ap) (comment ap).

#[global] Instance mapped : Mapped t := {| pk := ap_id; set_pk := set_ap_id |}.

End ActionPoint.

(** ** Python values, dicts and data frames *)

#[warnings="-register-all"]
Inductive pyval : Type :=
| VNone
| VInt (z : Z)
| VStr (s : string)
| VDict (d : list (string * pyval))
| VUser (u : User.t).

(** A dict keeps its keys in insertion order. *)
Definition dict : Type := list (string * pyval).

Definition of_int (v : option Z) : pyval :=
  match v with Some z => VInt z | None => VNone end.

Definition of_str (v : option string) : pyval :=
  match v with Some s => VStr s | None => VNone end.

(** [d[k] = v] *)
Fixpoint dict_set (k : string) (v : pyval) (d : dict) : dict :=
  match d with
  | [] => [(k, v)]
  | (k', v') :: d' =>
      if String.eqb k' k then (k, v) :: d' else (k', v') :: dict_set k v d'
  end.

(** [d.update(e)] *)
Definition dict_update (d e : dict) : dict :=
  fold_left (fun acc kv => dict_set (fst kv) (snd kv) acc) e d.

Fixpoint dict_get (k : string) (d : dict) : pyval :=
  match d with
  | [] => VNone
  | (k', v) :: d' => if String.eqb k' k then v else dict_get k d'
  end.

Definition keys (d : dict) : list string := map fst d.

(** [SerializerMixin.to_dict]: one entry per table column, in column
    order. *)
Class Serializer (R : Type) : Type := { to_dict : R -> dict }.

#[global] Instance User_serializer : Serializer User.t := {|
  to_dict u :=
    [ ("user_id", of_int (User.user_id u));
      ("actual_name", of_str (User.actual_name u));
      ("username", of_str (User.username u));
      ("password", of_str (User.password u));
      ("rights", of_int (User.rights u));
      ("active", of_int (User.active u));
      ("org_id", of_int (User.org_id u));
      ("fac_id", of_int (User.fac_id u));
      ("dep_id", of_int (User.dep_id u)) ]%string
|}.

#[global] Instance ActionPoint_serializer : Serializer ActionPoint.t := {|
  to_dict ap :=
    [ ("ap_id", of_int (ActionPoint.ap_id ap));
      ("assessment_id", of_int (ActionPoint.assessment_id ap));
      ("irl_type", of_str (ActionPoint.irl_type ap));
      ("action_point", of_str (ActionPoint.action_point ap));
      ("responsible", of_int (ActionPoint.responsible ap));
      ("due_date", of_str (ActionPoint.due_date ap));
      ("progress", of_int (ActionPoint.progress ap));
      ("comment", of_str (ActionPoint.comment ap)) ]%string
|}.

Module DataFrame.

(** A frame: the column labels and, per row, one value per label. *)
Record t : Type := mk { columns : list string; rows : list (list pyval) }.

(** Labels in order of first appearance over the records. *)
Definition union_keys (points : list dict) : list string :=
  fold_left
    (fun cols p =>
       fold_left
         (fun cols k =>
            if existsb (String.eqb k) cols then cols else cols ++ [k])
         (keys p) cols)
    points [].

(** [pd.DataFrame(points)] for a list of dicts. *)
Definition of_records (points : list dict) : t :=
  let cols := union_keys points in
  mk cols (map (fun p => map (fun c => dict_get c p) cols) points).

(** [pd.DataFrame(columns=columns)] *)
Definition empty (cols : list string) : t := mk cols [].

Fixpoint index_of (c : string) (cols : list string) : option nat :=
  match cols with
  | [] => None
  | c' :: cols' =>
      if String.eqb c' c then Some O
      else option_map S (index_of c cols')
  end.

Fixpoint replace_nth (i : nat) (v : pyval) (row : list pyval) : list pyval :=
  match i, row with
  | _, [] => []
  | O, _ :: row' => v :: row'
  | S i', x :: row' => x :: replace_nth i' v row'
  end.

(** [df[c]] *)
Definition get_column (c : string) (df : t) : list pyval :=
  match index_of c (columns df) with
  | Some i => map (fun row => nth i row VNone) (rows df)
  | None => []
  end.

(** [df[c] = values]: an existing column is overwritten where it stands,
    a new one is appended. *)
Definition set_column (c : string) (values : list pyval) (df : t) : t :=
  match index_of c (columns df) with
  | Some i =>
      mk (columns df)
         (map (fun rv => replace_nth i (snd rv) (fst rv))
              (combine (rows df) values))
  | None =>
      mk (columns df ++ [c])
         (map (fun rv => fst rv ++ [snd rv]) (combine (rows df) values))
  end.

End DataFrame.

(** ** rn_irl.py: the page registry and the role menu *)

Inductive page : Type :=
| admin_tools_pg
| intro_pg
| irl_ass_pg
| login_pg
| logout_pg
| port_pg
| project_tools_pg
| reporting_pg
| sys_settings_pg
| user_manual_pg
| user_settings_pg.

Definition title (p : page) : string :=
  match p with
  | admin_tools_pg => "Admin Tools"
  | intro_pg => "Introduction to KTH IRL"
  | irl_ass_pg => "Project Assessment"
  | login_pg => "Login"
  | logout_pg => "Logout"
  | port_pg => "Project Portfolio"
  | project_tools_pg => "Project Tools"
  | reporting_pg => "Reports"
  | sys_settings_pg => "System Settings"
  | user_manual_pg => "User Manual"
  | user_settings_pg => "User Settings"
  end.

(** [get_tools_n_settings]: [Returns None] is Python falling off the end
    of the function. *)
Definition get_tools_n_settings (user : User.t)
  : outcome (option (list page)) :=
  match User.rights user with
  | None => Raises TypeError
  | Some rights =>
      if rights <? 2 then Returns (Some [user_settings_pg])
      else if rights =? 2
      then Returns (Some [project_tools_pg; reporting_pg; user_settings_pg])
      else if rights =? 6 then Returns (Some [user_settings_pg])
      else if rights =? 7 then Returns (Some [user_settings_pg])
      else if rights =? 8
      then Returns (Some [project_tools_pg; reporting_pg; user_settings_pg])
      else if rights =? 9
      then Returns (Some [project_tools_pg; reporting_pg; admin_tools_pg;
                          user_settings_pg; sys_settings_pg])
      else Returns None
  end.

(** ** base.py: module functions *)

Definition get_irl (irl_ass_id : Z) (irl_data : list IRLAssessment.t)
  : option IRLAssessment.t :=
  Query.first
    (fun r => Null.eq_int (IRLAssessment.id r) (Some irl_ass_id)) irl_data.

(** One turn of the loop of [delete_assessments]; the state is
    [irl_ass_ids], the Action Points table and [success]. *)
Definition delete_assessments_step
    (st : list (option Z) * list ActionPoint.t * bool)
    (irl_ass : IRLAssessment.t)
  : list (option Z) * list ActionPoint.t * bool :=
  let '(irl_ass_ids, action_points, success) := st in
  let aps :=
    filter (fun ap => Null.eq_int (ActionPoint.assessment_id ap)
                        (IRLAssessment.id irl_ass)) action_points in
  let ap_ids := map ActionPoint.ap_id aps in
  let '(ap_dc, action_points') :=
    Query.delete (fun ap => Null.in_ (ActionPoint.ap_id ap) ap_ids)
      action_points in
  (irl_ass_ids ++ [IRLAssessment.id irl_ass], action_points',
   if negb (ap_dc =? Z.of_nat (List.length ap_ids)) then false else success).

(** [delete_assessments]: the flag and the two tables after the commit. *)
Definition delete_assessments (irl_asses : list IRLAssessment.t)
    (irl_data : list IRLAssessment.t) (action_points : list ActionPoint.t)
  : bool * list IRLAssessment.t * list ActionPoint.t :=
  let '(irl_ass_ids, action_points', success) :=
    fold_left delete_assessments_step irl_asses ([], action_points, true) in
  let '(irl_ass_dc, irl_data') :=
    Query.delete (fun r => Null.in_ (IRLAssessment.id r) irl_ass_ids)
      irl_data in
  (if negb (irl_ass_dc =? Z.of_nat (List.length irl_ass_ids)) then false
   else success,
   irl_data', action_points').

Definition get_users (active : bool) (org_id : option Z)
    (users : list User.t) : list User.t :=
  let active := Z.b2z active in
  match org_id with
  | None => filter (fun u => Null.eq_int (User.active u) (Some active)) users
  | Some _ =>
      filter (fun u => Null.eq_int (User.active u) (Some active)
                       && Null.eq_int (User.org_id u) org_id) users
  end.

Section Bcrypt.

(** The password-hashing library: [bcrypt.hashpw(password, salt)] and
    [bcrypt.checkpw(password, hashed)], the latter on a password and a
    stored hash it accepts (on a malformed hash the library raises; that
    is left out). *)
Variable hashpw : string -> string -> string.
Variable checkpw : string -> string -> bool.

(** The settings row [add_user] creates for user [uid]. *)
Definition default_settings (uid : option Z) : UserSettings.t :=
  UserSettings.mk None uid (Some 1) (Some 1) (Some 1) None (Some 1) (Some 0)
    (Some 1).

(** [add_user]: the returned user and the Users and User Settings tables
    afterwards; [salt] is the value of [bcrypt.gensalt()]. *)
Definition add_user (salt : string) (new_user : User.t) (password : string)
    (users : list User.t) (settings : list UserSettings.t)
  : outcome (option User.t * list User.t * list UserSettings.t) :=
  let hashed_password := hashpw password salt in
  let by_name (u : User.t) :=
    Null.eq_str (User.username u) (User.username new_user) in
  match Query.first by_name users with
  | Some _ => Returns (None, users, settings)
  | None =>
      let new_user := User.set_password new_user (Some hashed_password) in
      match Query.add new_user users with
      | Raises e => Raises e
      | Returns (_, users') =>
          match Query.first by_name users' with
          | None => Raises AttributeError
          | Some new_user =>
              match Query.add (default_settings (User.user_id new_user))
                      settings with
              | Raises e => Raises e
              | Returns (_, settings') =>
                  Returns (Some new_user, users', settings')
              end
          end
      end
  end.

(** [validate_user]: [user] is the username typed in. *)
Definition validate_user (user password : string) (users : list User.t)
  : outcome (option User.t) :=
  match Query.first
          (fun u => Null.eq_str (User.username u) (Some user)) users with
  | None => Returns None
  | Some db_user =>
      match User.password db_user with
      | None => Raises AttributeError
      | Some hashed =>
          if checkpw password hashed then Returns (Some db_user)
          else Returns None
      end
  end.

End Bcrypt.

(** The first query of [get_projects]: per project_no the row with the
    greatest assessment_date, ordered by that date. *)
Definition latest_per_project (rows : list IRLAssessment.t)
  : list IRLAssessment.t :=
  Query.order_by IRLAssessment.assessment_date
    (Query.group_by_max IRLAssessment.project_no
       IRLAssessment.assessment_date rows).

(** The filter of the second query of [get_projects], on one row of the
    product of "IRL Data" and "Project Teams". *)
Definition team_join (user : User.t) (active : Z)
    (r : IRLAssessment.t) (pt : ProjectTeam.t) : bool :=
  Null.eq_int (ProjectTeam.user_id pt) (User.user_id user)
  && Null.eq_int (ProjectTeam.active pt) (Some 1)
  && Null.col_eq_int (IRLAssessment.project_no r) (ProjectTeam.project_id pt)
  && Null.eq_int (IRLAssessment.active r) (Some active).

Definition leads (user : User.t) (project : IRLAssessment.t) : bool :=
  Null.eq_int (IRLAssessment.project_leader_id project) (User.user_id user).

Definition get_projects (user : User.t) (filt active : bool)
    (irl_table : list IRLAssessment.t) (users : list User.t)
    (teams : list ProjectTeam.t) : outcome (list IRLAssessment.t) :=
  let active := Z.b2z active in
  let irl_data :=
    latest_per_project
      (filter (fun r => Null.eq_int (IRLAssessment.active r) (Some active))
         irl_table) in
  if Null.eq_int (User.rights user) (Some 9) && filt
  then Returns (filter (leads user) irl_data)
  else if Null.eq_int (User.rights user) (Some 8)
  then
    let users := get_users true (User.org_id user) users in
    let user_ids := map User.user_id users in
    Returns
      (filter (fun project =>
                 if filt then leads user project
                 else Null.py_in (IRLAssessment.project_leader_id project)
                        user_ids)
         irl_data)
  else
    match User.rights user with
    | None => Raises TypeError
    | Some rights =>
        if rights <=? 3
        then
          let irl_data :=
            latest_per_project
              (flat_map
                 (fun r =>
                    flat_map
                      (fun pt => if team_join user active r pt then [r]
                                 else [])
                      teams)
                 irl_table) in
          if filt then Returns (filter (leads user) irl_data)
          else Returns irl_data
        else Returns irl_data
    end.

Section Utils.

(** Modelled from the spec: the date helper module (utils) is not under
    src/.  [datetime2dbdate] turns a datetime into the stored date text;
    [dbdate2datetime] is what [dbdates2datetimes] does to each entry of a
    due_date column (the spec: parsed due-dates). *)
Variable datetime2dbdate : datetime -> string.
Variable dbdate2datetime : pyval -> pyval.

(** [ap.user]: the user the foreign key [responsible] points at. *)
Definition ap_user (users : list User.t) (ap : ActionPoint.t)
  : option User.t :=
  Query.first
    (fun u => Null.col_eq_int (User.user_id u) (ActionPoint.responsible ap))
    users.

(** The row [get_action_points] builds for one action point. *)
Definition ap_row (users : list User.t) (ap : ActionPoint.t) : dict :=
  let row :=
    match ap_user users ap with
    | Some u => to_dict u
    | None =>
        [ ("user_id", VNone); ("actual_name", VNone); ("username", VNone);
          ("password", VNone); ("rights", VNone); ("active", VNone);
          ("org_id", VNone); ("fac_id", VNone); ("dep_id", VNone) ]%string
    end in
  dict_update row (to_dict ap).

Definition get_action_points (irl_ass_id : Z) (irl_type : option string)
    (action_points : list ActionPoint.t) (users : list User.t)
  : DataFrame.t :=
  let aps :=
    match irl_type with
    | None =>
        filter (fun ap => Null.eq_int (ActionPoint.assessment_id ap)
                            (Some irl_ass_id)) action_points
    | Some _ =>
        filter (fun ap => Null.eq_int (ActionPoint.assessment_id ap)
                            (Some irl_ass_id)
                          && Null.eq_str (ActionPoint.irl_type ap) irl_type)
          action_points
    end in
  let points := map (ap_row users) aps in
  let user_objs :=
    map (fun ap => match ap_user users ap with
                   | Some u => VUser u
                   | None => VNone
                   end) aps in
  let aps_df := DataFrame.of_records points in
  let aps_df :=
    if (0 <? List.length points)%nat
    then
      let df := DataFrame.set_column "aps" (map VDict points) aps_df in
      let df := DataFrame.set_column "user_obj" user_objs df in
      DataFrame.set_column "due_date"
        (map dbdate2datetime (DataFrame.get_column "due_date" df)) df
    else aps_df in
  if (List.length (DataFrame.rows aps_df) =? 0)%nat
  then
    DataFrame.empty
      [ "user_id"; "actual_name"; "username"; "password"; "rights";
        "active"; "org_id"; "fac_id"; "dep_id"; "id"; "assessment_id";
        "irl_type"; "action_point"; "responsible"; "due_date"; "progress";
        "comment"; "aps"; "user_obj" ]%string
  else aps_df.

Definition ap_completed (now : datetime) (irl_ass_id : Z)
    (irl_data : list IRLAssessment.t) (action_points : list ActionPoint.t)
  : outcome bool :=
  let date := datetime2dbdate now in
  match get_irl irl_ass_id irl_data with
  | None => Raises AttributeError
  | Some irl =>
      let ass_date := IRLAssessment.assessment_date irl in
      if Null.eq_str (Some date) ass_date then Returns true
      else
        let aps :=
          filter (fun ap => Null.eq_int (ActionPoint.assessment_id ap)
                              (Some irl_ass_id)) action_points in
        let completion := Query.sum (map ActionPoint.progress aps) in
        Returns (Null.eq_int (Some (Z.of_nat (List.length aps) * 100))
                   completion
                 || (List.length aps =? 0)%nat)
  end.

End Utils.

(** ** Predicates used to state the properties *)

Module Spec.

Import IRLAssessment.

(** [b] is [a] up to the assessment date. *)
Definition same_but_date (a b : IRLAssessment.t) : Prop :=
  id b = id a /\ project_no b = project_no a
  /\ project_name b = project_name a
  /\ project_leader_id b = project_leader_id a
  /\ project_description b = project_description a
  /\ project_notes b = project_notes a
  /\ (crl b = crl a /\ trl b = trl a /\ brl b = brl a
      /\ iprl b = iprl a /\ tmrl b = tmrl a /\ frl b = frl a)
  /\ (crl_notes b = crl_notes a /\ trl_notes b = trl_notes a
      /\ brl_notes b = brl_notes a /\ iprl_notes b = iprl_notes a
      /\ tmrl_notes b = tmrl_notes a /\ frl_notes b = frl_notes a)
  /\ (crl_target b = crl_target a /\ trl_target b = trl_target a
      /\ brl_target b = brl_target a /\ iprl_target b = iprl_target a
      /\ tmrl_target b = tmrl_target a /\ frl_target b = frl_target a)
  /\ (crl_target_lead b = crl_target_lead a
      /\ trl_target_lead b = trl_target_lead a
      /\ brl_target_lead b = brl_target_lead a
      /\ iprl_target_lead b = iprl_target_lead a
      /\ tmrl_target_lead b = tmrl_target_lead a
      /\ frl_target_lead b = frl_target_lead a)
  /\ (crl_target_duedate b = crl_target_duedate a
      /\ trl_target_duedate b = trl_target_duedate a
      /\ brl_target_duedate b = brl_target_duedate a
      /\ iprl_target_duedate b = iprl_target_duedate a
      /\ tmrl_target_duedate b = tmrl_target_duedate a
      /\ frl_target_duedate b = frl_target_duedate a)
  /\ plot_targets b = plot_targets a /\ active b = active a.

(** The fields a new historical row takes over from the old one. *)
Definition carries_over (a b : IRLAssessment.t) : Prop :=
  project_no b = project_no a
  /\ project_name b = project_name a
  /\ project_leader_id b = project_leader_id a
  /\ project_description b = project_description a
  /\ (crl b = crl a /\ trl b = trl a /\ brl b = brl a
      /\ iprl b = iprl a /\ tmrl b = tmrl a /\ frl b = frl a)
  /\ (crl_target b = crl_target a /\ trl_target b = trl_target a
      /\ brl_target b = brl_target a /\ iprl_target b = iprl_target a
      /\ tmrl_target b = tmrl_target a /\ frl_target b = frl_target a)
  /\ (crl_target_lead b = crl_target_lead a
      /\ trl_target_lead b = trl_target_lead a
      /\ brl_target_lead b = brl_target_lead a
      /\ iprl_target_lead b = iprl_target_lead a
      /\ tmrl_target_lead b = tmrl_target_lead a
      /\ frl_target_lead b = frl_target_lead a)
  /\ (crl_target_duedate b = crl_target_duedate a
      /\ trl_target_duedate b = trl_target_duedate a
      /\ brl_target_duedate b = brl_target_duedate a
      /\ iprl_target_duedate b = iprl_target_duedate a
      /\ tmrl_target_duedate b = tmrl_target_duedate a
      /\ frl_target_duedate b = frl_target_duedate a)
  /\ plot_targets b = plot_targets a /\ active b = active a.

(** The seven note fields of [b] are those of [a]. *)
Definition notes_kept (a b : IRLAssessment.t) : Prop :=
  project_notes b = project_notes a
  /\ crl_notes b = crl_notes a /\ trl_notes b = trl_notes a
  /\ brl_notes b = brl_notes a /\ iprl_notes b = iprl_notes a
  /\ tmrl_notes b = tmrl_notes a /\ frl_notes b = frl_notes a.

(** The seven note fields of [b] are unset. *)
Definition notes_unset (b : IRLAssessment.t) : Prop :=
  project_notes b = None
  /\ crl_notes b = None /\ trl_notes b = None /\ brl_notes b = None
  /\ iprl_notes b = None /\ tmrl_notes b = None /\ frl_notes b = None.

(** Some stored row carries project number [n]. *)
Definition project_stored (n : option Z) (table : list IRLAssessment.t)
  : Prop :=
  exists r, In r table /\ project_no r = n.

(** A key that no row of the table uses (an unset key uses none). *)
Definition key_free {R} `{Mapped R} (k : option Z) (table : list R) : Prop :=
  forall z, k = Some z -> ~ In (Some z) (map pk table).

(** The rows whose active flag is the requested one. *)
Definition active_rows (active : bool) (irl_table : list IRLAssessment.t)
  : list IRLAssessment.t :=
  filter (fun r => Null.eq_int (IRLAssessment.active r)
                     (Some (Z.b2z active))) irl_table.

(** [user] is an active member of the team of the project of [r]. *)
Definition team_member (user : User.t) (teams : list ProjectTeam.t)
    (r : IRLAssessment.t) : bool :=
  existsb
    (fun pt =>
       Null.eq_int (ProjectTeam.user_id pt) (User.user_id user)
       && Null.eq_int (ProjectTeam.active pt) (Some 1)
       && Null.col_eq_int (IRLAssessment.project_no r)
            (ProjectTeam.project_id pt))
    teams.

(** The project of [r] is led by an active user of organisation [org]. *)
Definition led_within (org : option Z) (users : list User.t)
    (r : IRLAssessment.t) : bool :=
  existsb
    (fun u =>
       Null.eq_int (User.active u) (Some 1)
       && Null.eq_int (User.org_id u) org
       && Null.eq_int (IRLAssessment.project_leader_id r) (User.user_id u))
    users.

(** The project of [r] is led by an active user, of whatever
    organisation. *)
Definition led_by_active (users : list User.t) (r : IRLAssessment.t)
  : bool :=
  existsb
    (fun u =>
       Null.eq_int (User.active u) (Some 1)
       && Null.eq_int (IRLAssessment.project_leader_id r) (User.user_id u))
    users.

(** The projects role narrowing keeps for a user with the given rights. *)
Definition keeps (user : User.t) (rights : Z) (filt : bool)
    (users : list User.t) (teams : list ProjectTeam.t)
    (r : IRLAssessment.t) : bool :=
  if (rights =? 9) && filt then leads user r
  else if rights =? 8 then
    if filt then leads user r
    else match User.org_id user with
         | Some _ => led_within (User.org_id user) users r
         | None => led_by_active users r
         end
  else if rights <=? 3 then
    team_member user teams r && (if filt then leads user r else true)
  else true.

(** The action points attached to assessment [irl_ass_id]. *)
Definition points_of (irl_ass_id : Z) (action_points : list ActionPoint.t)
  : list ActionPoint.t :=
  filter (fun ap => Null.eq_int (ActionPoint.assessment_id ap)
                      (Some irl_ass_id)) action_points.

(** The sum of the progress values that are set. *)
Definition total_progress (aps : list ActionPoint.t) : Z :=
  fold_right
    (fun ap s => match ActionPoint.progress ap with
                 | Some p => p + s
                 | None => s
                 end)
    0 aps.

(** Per assessment handed to [delete_assessments], in order: the number of
    action points the delete removed and the number it was expected to
    remove. *)
Fixpoint ap_delete_counts (irl_asses : list IRLAssessment.t)
    (action_points : list ActionPoint.t) : list (Z * Z) :=
  match irl_asses with
  | [] => []
  | irl_ass :: rest =>
      let ap_ids :=
        map ActionPoint.ap_id
          (filter (fun ap => Null.eq_int (ActionPoint.assessment_id ap)
                               (IRLAssessment.id irl_ass)) action_points) in
      let '(ap_dc, action_points') :=
        Query.delete (fun ap => Null.in_ (ActionPoint.ap_id ap) ap_ids)
          action_points in
      (ap_dc, Z.of_nat (List.length ap_ids))
        :: ap_delete_counts rest action_points'
  end.

(** The action points [get_action_points] selects. *)
Definition selected (irl_ass_id : Z) (irl_type : option string)
    (action_points : list ActionPoint.t) : list ActionPoint.t :=
  filter
    (fun ap =>
       Null.eq_int (ActionPoint.assessment_id ap) (Some irl_ass_id)
       && match irl_type with
          | None => true
          | Some _ => Null.eq_str (ActionPoint.irl_type ap) irl_type
          end)
    action_points.

(** The columns of a frame built from at least one action point. *)
Definition filled_columns : list string :=
  [ "user_id"; "actual_name"; "username"; "password"; "rights"; "active";
    "org_id"; "fac_id"; "dep_id"; "ap_id"; "assessment_id"; "irl_type";
    "action_point"; "responsible"; "due_date"; "progress"; "comment";
    "aps"; "user_obj" ]%string.

(** The columns of the frame returned when no action point is selected. *)
Definition empty_columns : list string :=
  [ "user_id"; "actual_name"; "username"; "password"; "rights"; "active";
    "org_id"; "fac_id"; "dep_id"; "id"; "assessment_id"; "irl_type";
    "action_point"; "responsible"; "due_date"; "progress"; "comment";
    "aps"; "user_obj" ]%string.

(** What is known of the groups [acc] of a GROUP BY after the rows [seen]
    have been read: one group per key, each holding a row that was read and
    that carries the greatest date of its key. *)
Record grouped {R : Type} (key : R -> option Z) (date : R -> option string)
    (seen acc : list R) : Prop := {
  grouped_keys : NoDup (map key acc);
  grouped_in : forall a, In a acc -> In a seen;
  grouped_max : forall a x, In a acc -> In x seen -> key x = key a ->
                            DateOrder.leb (date x) (date a) = true;
  grouped_all : forall x, In x seen -> exists a, In a acc /\ key a = key x
}.

(** Primary keys are set and pairwise distinct. *)
Definition keys_unique {R} `{Mapped R} (table : list R) : Prop :=
  NoDup (map pk table) /\ Forall (fun r => pk r <> None) table.

End Spec.

(** ** Sample data *)

Module Sample.

Definition some_user (rights : Z) : User.t :=
  User.mk (Some 1) (Some "Ada"%string) (Some "ada"%string) None
    (Some rights) (Some 1) (Some 1) None None.

(** A stored assessment of project [no], dated [date]. *)
Definition assessment (id no leader : option Z) (date : option string)
    (active : option Z) : IRLAssessment.t :=
  IRLAssessment.mk id no (Some "Demo"%string) leader
    (Some "A demo project"%string) date (Some "note"%string)
    (Some 3) (Some 4) (Some 2) (Some 1) (Some 5) (Some 2)
    (Some "c"%string) (Some "t"%string) (Some "b"%string)
    (Some "i"%string) (Some "m"%string) (Some "f"%string)
    (Some 4) (Some 5) (Some 3) (Some 2) (Some 6) (Some 3)
    None None None None None None
    None None None None None None
    (Some 1) active.

Definition a_day : datetime := mk_datetime 2025 3 7.

(** An action point of assessment [ass] with the given progress. *)
Definition point (ap_id : Z) (ass : Z) (progress : option Z)
  : ActionPoint.t :=
  ActionPoint.mk (Some ap_id) (Some ass) (Some "CRL"%string)
    (Some "Talk to customers"%string) None (Some "2025-06-01"%string)
    progress None.

(** A superuser without an organisation, and a project leader of
    organisation 5. *)
Definition superuser : User.t :=
  User.mk (Some 1) (Some "Sue"%string) (Some "sue"%string) None (Some 8)
    (Some 1) None None None.

Definition leader : User.t :=
  User.mk (Some 2) (Some "Lee"%string) (Some "lee"%string) None (Some 2)
    (Some 1) (Some 5) None None.

Definition membership (project user : Z) (active : Z) : ProjectTeam.t :=
  ProjectTeam.mk (Some 1) (Some project) (Some user) (Some 1) (Some active).

End Sample.



(** ** base.py: the remaining lookups and updates *)

(** What [xs[-1]] gives: the last item, or IndexError on an empty list. *)
Inductive indexed (A : Type) : Type :=
| Item (a : A)
| IndexError.

Arguments Item {A} a.
Arguments IndexError {A}.

(** Attribute assignments on rows. *)
Module Setters.

Definition irl_active (r : IRLAssessment.t) (v : option Z)
  : IRLAssessment.t :=
  let p := r in
  IRLAssessment.mk (IRLAssessment.id p) (IRLAssessment.project_no p)
    (IRLAssessment.project_name p) (IRLAssessment.project_leader_id p)
    (IRLAssessment.project_description p) (IRLAssessment.assessment_date p)
    (IRLAssessment.project_notes p)
    (IRLAssessment.crl p) (IRLAssessment.trl p) (IRLAssessment.brl p)
    (IRLAssessment.iprl p) (IRLAssessment.tmrl p) (IRLAssessment.frl p)
    (IRLAssessment.crl_notes p) (IRLAssessment.trl_notes p)
    (IRLAssessment.brl_notes p) (IRLAssessment.iprl_notes p)
    (IRLAssessment.tmrl_notes p) (IRLAssessment.frl_notes p)
    (IRLAssessment.crl_target p) (IRLAssessment.trl_target p)
    (IRLAssessment.brl_target p) (IRLAssessment.iprl_target p)
    (IRLAssessment.tmrl_target p) (IRLAssessment.frl_target p)
    (IRLAssessment.crl_target_lead p) (IRLAssessment.trl_target_lead p)
    (IRLAssessment.brl_target_lead p) (IRLAssessment.iprl_target_lead p)
    (IRLAssessment.tmrl_target_lead p) (IRLAssessment.frl_target_lead p)
    (IRLAssessment.crl_target_duedate p)
    (IRLAssessment.trl_target_duedate p)
    (IRLAssessment.brl_target_duedate p)
    (IRLAssessment.iprl_target_duedate p)
    (IRLAssessment.tmrl_target_duedate p)
    (IRLAssessment.frl_target_duedate p)
    (IRLAssessment.plot_targets p) v.

Definition user_rights (u : User.t) (v : option Z) : User.t :=
  User.mk (User.user_id u) (User.actual_name u) (User.username u)
    (User.password u) v (User.active u) (User.org_id u) (User.fac_id u)
    (User.dep_id u).

Definition user_active (u : User.t) (v : option Z) : User.t :=
  User.mk (User.user_id u) (User.actual_name u) (User.username u)
    (User.password u) (User.rights u) v (User.org_id u) (User.fac_id u)
    (User.dep_id u).

Definition team_id (pt : ProjectTeam.t) (v : option Z) : ProjectTeam.t :=
  ProjectTeam.mk v (ProjectTeam.project_id pt) (ProjectTeam.user_id pt)
    (ProjectTeam.project_rights pt) (ProjectTeam.active pt).

End Setters.

#[global] Instance ProjectTeam_mapped : Mapped ProjectTeam.t :=
  {| pk := ProjectTeam.id; set_pk := Setters.team_id |}.

(** *** Assessments and projects *)

Definition is_project (project_no : option Z)
    (irl_data : list IRLAssessment.t) : bool :=
  match Query.first
          (fun r => Null.eq_int (IRLAssessment.project_no r) project_no)
          irl_data with
  | Some _ => true
  | None => false
  end.

Definition get_project_history (project_id : Z)
    (irl_data : list IRLAssessment.t) : list IRLAssessment.t :=
  Query.order_by IRLAssessment.assessment_date
    (filter (fun r => Null.eq_int (IRLAssessment.project_no r)
                        (Some project_id)) irl_data).

Definition get_irl_ass_id (project_id : Z) (irl_data : list IRLAssessment.t)
  : indexed (option Z) :=
  match rev (Query.order_by IRLAssessment.assessment_date
               (filter (fun r => Null.eq_int (IRLAssessment.project_no r)
                                   (Some project_id)) irl_data)) with
  | [] => IndexError
  | irl_ass :: _ => Item (IRLAssessment.id irl_ass)
  end.

(** [irl_ass_changed]: the stored row is [get_irl(irl_ass.id)]; the loop
    over the seven attributes returns at the first that differs. *)
Definition irl_ass_changed (irl_ass : IRLAssessment.t)
    (irl_data : list IRLAssessment.t) : outcome bool :=
  match Query.first
          (fun r => Null.eq_int (IRLAssessment.id r)
                      (IRLAssessment.id irl_ass)) irl_data with
  | None => Raises AttributeError
  | Some db_irl_ass =>
      Returns
        (negb (Null.eq_int (IRLAssessment.crl db_irl_ass)
                 (IRLAssessment.crl irl_ass))
         || negb (Null.eq_int (IRLAssessment.trl db_irl_ass)
                    (IRLAssessment.trl irl_ass))
         || negb (Null.eq_int (IRLAssessment.brl db_irl_ass)
                    (IRLAssessment.brl irl_ass))
         || negb (Null.eq_int (IRLAssessment.iprl db_irl_ass)
                    (IRLAssessment.iprl irl_ass))
         || negb (Null.eq_int (IRLAssessment.tmrl db_irl_ass)
                    (IRLAssessment.tmrl irl_ass))
         || negb (Null.eq_int (IRLAssessment.frl db_irl_ass)
                    (IRLAssessment.frl irl_ass))
         || negb (Null.eq_str (IRLAssessment.project_description db_irl_ass)
                    (IRLAssessment.project_description irl_ass)))
  end.

(** [change_project_status]: the flag and the table afterwards. *)
Definition change_project_status (projects : list IRLAssessment.t)
    (active : bool) (irl_data : list IRLAssessment.t)
  : bool * list IRLAssessment.t :=
  let active := Z.b2z active in
  let project_nos := map IRLAssessment.project_no projects in
  (true,
   map (fun r =>
          if Null.in_ (IRLAssessment.project_no r) project_nos
          then Setters.irl_active r (Some active) else r)
     irl_data).

(** *** Users *)

Definition get_user_id (username : string) (users : list User.t)
  : option Z :=
  match Query.first
          (fun u => Null.eq_str (User.username u) (Some username)) users with
  | Some db_user => User.user_id db_user
  | None => None
  end.

Definition has_password (username : string) (users : list User.t)
  : outcome bool :=
  match Query.first
          (fun u => Null.eq_str (User.username u) (Some username)) users with
  | None => Raises AttributeError
  | Some user =>
      Returns (match User.password user with Some _ => true | None => false
               end)
  end.

Definition is_user (username : string) (users : list User.t) : bool :=
  match Query.first
          (fun u => Null.eq_str (User.username u) (Some username)) users with
  | Some _ => true
  | None => false
  end.

(** [get_user]: the argument is a str ([inl]) or an int ([inr]). *)
Definition get_user (name_or_id : string + Z) (users : list User.t)
  : option User.t :=
  match name_or_id with
  | inl name =>
      Query.first (fun u => Null.eq_str (User.username u) (Some name)) users
  | inr uid =>
      Query.first (fun u => Null.eq_int (User.user_id u) (Some uid)) users
  end.

Definition get_user_settings (user_id : option Z)
    (settings : list UserSettings.t) : option UserSettings.t :=
  Query.first (fun s => Null.eq_int (UserSettings.user_id s) user_id)
    settings.

Section Passwords.

Variable hashpw : string -> string -> string.

(** [change_user_password]: the flag and the Users table afterwards;
    [salt] is the value of [bcrypt.gensalt()]. *)
Definition change_user_password (salt : string) (user : User.t)
    (password : string) (users : list User.t) : bool * list User.t :=
  let hashed_password := hashpw password salt in
  (true,
   map (fun u =>
          if Null.eq_int (User.user_id u) (User.user_id user)
          then User.set_password u (Some hashed_password) else u)
     users).

End Passwords.

Definition change_user_rights (user : User.t) (rights : Z)
    (users : list User.t) : bool * list User.t :=
  (true,
   map (fun u =>
          if Null.eq_int (User.user_id u) (User.user_id user)
          then Setters.user_rights u (Some rights) else u)
     users).

(** [change_user_status]: [names] is the list of usernames. *)
Definition change_user_status (names : list string) (active : bool)
    (users : list User.t) : bool * list User.t :=
  let active := Z.b2z active in
  (true,
   map (fun u =>
          if match User.username u with
             | Some n => existsb (String.eqb n) names
             | None => false
             end
          then Setters.user_active u (Some active) else u)
     users).

(** *** Project teams *)

Definition get_project_rights (project_id user_id : option Z)
    (teams : list ProjectTeam.t) : option Z :=
  match Query.first
          (fun pt => Null.eq_int (ProjectTeam.project_id pt) project_id
                     && Null.eq_int (ProjectTeam.user_id pt) user_id)
          teams with
  | None => Some 1
  | Some rights => ProjectTeam.project_rights rights
  end.

(** [add_project_team]: the error and the table afterwards. *)
Definition add_project_team (project_no : option Z) (team : list User.t)
    (teams : list ProjectTeam.t) : option string * list ProjectTeam.t :=
  let added :=
    fold_left
      (fun acc user =>
         match acc with
         | Raises e => Raises e
         | Returns table =>
             let team_member :=
               ProjectTeam.mk None project_no (User.user_id user)
                 (User.rights user) (Some 1) in
             match Query.add team_member table with
             | Returns (_, table') => Returns table'
             | Raises e => Raises e
             end
         end)
      team (Returns teams) in
  match added with
  | Returns teams' => (None, teams')
  | Raises _ => (Some "Error adding new team members!"%string, teams)
  end.

Module ProjectTeamMethods.

(** [ProjectTeam.update]: the error and the table afterwards. *)
Definition update (self : ProjectTeam.t) (teams : list ProjectTeam.t)
  : option string * list ProjectTeam.t :=
  (None,
   map (fun pt =>
          if Null.eq_int (ProjectTeam.id pt) (ProjectTeam.id self)
          then ProjectTeam.mk (ProjectTeam.id pt) (ProjectTeam.project_id pt)
                 (ProjectTeam.user_id pt) (ProjectTeam.project_rights self)
                 (ProjectTeam.active self)
          else pt)
     teams).

End ProjectTeamMethods.

(** *** Action points *)

Module ActionPointMethods.

(** [ActionPoint.insert]: the Action Points table afterwards. *)
Definition insert (self : ActionPoint.t) (table : list ActionPoint.t)
  : outcome (list ActionPoint.t) :=
  match Query.add self table with
  | Returns (_, table') => Returns table'
  | Raises e => Raises e
  end.

(** [ActionPoint.copy] *)
Definition copy (self : ActionPoint.t) (ass_id : Z)
    (table : list ActionPoint.t) : outcome (list ActionPoint.t) :=
  let new_self :=
    ActionPoint.mk None (Some ass_id) (ActionPoint.irl_type self)
      (ActionPoint.action_point self) (ActionPoint.responsible self)
      (ActionPoint.due_date self) (ActionPoint.progress self)
      (ActionPoint.comment self) in
  insert new_self table.

(** [ActionPoint.update] *)
Definition update (self : ActionPoint.t) (table : list ActionPoint.t)
  : list ActionPoint.t :=
  map (fun ap =>
         if Null.eq_int (ActionPoint.ap_id ap) (ActionPoint.ap_id self)
         then ActionPoint.mk (ActionPoint.ap_id ap)
                (ActionPoint.assessment_id ap) (ActionPoint.irl_type ap)
                (ActionPoint.action_point self) (ActionPoint.responsible self)
                (ActionPoint.due_date self) (ActionPoint.progress self)
                (ActionPoint.comment self)
         else ap)
    table.

End ActionPointMethods.

Definition get_ap (ap_id : Z) (action_points : list ActionPoint.t)
  : option ActionPoint.t :=
  Query.first (fun ap => Null.eq_int (ActionPoint.ap_id ap) (Some ap_id))
    action_points.

Definition copy_aps (old_ass_id new_ass_id : Z)
    (action_points : list ActionPoint.t) : outcome (list ActionPoint.t) :=
  let old_aps :=
    filter (fun ap => Null.eq_int (ActionPoint.assessment_id ap)
                        (Some old_ass_id)) action_points in
  fold_left
    (fun acc old_ap =>
       match acc with
       | Raises e => Raises e
       | Returns table => ActionPointMethods.copy old_ap new_ass_id table
       end)
    old_aps (Returns action_points).

(** ** class IRL ("IRL"): the level matrix and the valuations *)

Module IRL.

Record t : Type := mk {
  Level : option Z;
  IRLType : option string;
  Description : option string;
  Aspects : option string;
  StartupValue : option Z;
  LicenseValue : option Z
}.

Definition set_LicenseValue (r : t) (v : option Z) : t :=
  mk (Level r) (IRLType r) (Description r) (Aspects r) (StartupValue r) v.

End IRL.

Module Valuation.

(** The filter shared by the four [calc_*] methods: the row is the level
    of one of the six scales. *)
Definition at_levels (crl trl brl iprl tmrl frl : option Z) (row : IRL.t)
  : bool :=
  (Null.eq_str (IRL.IRLType row) (Some "CRL"%string)
   && Null.eq_int (IRL.Level row) crl)
  || (Null.eq_str (IRL.IRLType row) (Some "TRL"%string)
      && Null.eq_int (IRL.Level row) trl)
  || (Null.eq_str (IRL.IRLType row) (Some "BRL"%string)
      && Null.eq_int (IRL.Level row) brl)
  || (Null.eq_str (IRL.IRLType row) (Some "IPRL"%string)
      && Null.eq_int (IRL.Level row) iprl)
  || (Null.eq_str (IRL.IRLType row) (Some "TMRL"%string)
      && Null.eq_int (IRL.Level row) tmrl)
  || (Null.eq_str (IRL.IRLType row) (Some "FRL"%string)
      && Null.eq_int (IRL.Level row) frl).

Definition calc_license_value (self : IRLAssessment.t) (irl : list IRL.t)
  : option Z :=
  Query.sum
    (map IRL.LicenseValue
       (filter
          (at_levels (IRLAssessment.crl self) (IRLAssessment.trl self)
             (IRLAssessment.brl self) (IRLAssessment.iprl self)
             (IRLAssessment.tmrl self) (IRLAssessment.frl self))
          irl)).

Definition calc_license_target_value (self : IRLAssessment.t)
    (irl : list IRL.t) : option Z :=
  Query.sum
    (map IRL.LicenseValue
       (filter
          (at_levels (IRLAssessment.crl_target self)
             (IRLAssessment.trl_target self) (IRLAssessment.brl_target self)
             (IRLAssessment.iprl_target self)
             (IRLAssessment.tmrl_target self)
             (IRLAssessment.frl_target self))
          irl)).

Definition calc_startup_value (self : IRLAssessment.t) (irl : list IRL.t)
  : option Z :=
  Query.sum
    (map IRL.StartupValue
       (filter
          (at_levels (IRLAssessment.crl self) (IRLAssessment.trl self)
             (IRLAssessment.brl self) (IRLAssessment.iprl self)
             (IRLAssessment.tmrl self) (IRLAssessment.frl self))
          irl)).

Definition calc_startup_target_value (self : IRLAssessment.t)
    (irl : list IRL.t) : option Z :=
  Query.sum
    (map IRL.StartupValue
       (filter
          (at_levels (IRLAssessment.crl_target self)
             (IRLAssessment.trl_target self) (IRLAssessment.brl_target self)
             (IRLAssessment.iprl_target self)
             (IRLAssessment.tmrl_target self)
             (IRLAssessment.frl_target self))
          irl)).

(** The sum of a value column over the rows of one scale at one level. *)
Definition scale_sum (value : IRL.t -> option Z) (irl_type : string)
    (level : option Z) (irl : list IRL.t) : option Z :=
  Query.sum
    (map value
       (filter (fun row => Null.eq_str (IRL.IRLType row) (Some irl_type)
                           && Null.eq_int (IRL.Level row) level) irl)).

(** Adding two sums that may be NULL. *)
Definition plus (a b : option Z) : option Z :=
  match a, b with
  | None, _ => b
  | _, None => a
  | Some x, Some y => Some (x + y)
  end.

End Valuation.

(** [update_license_values]: [edited_rows] maps a row index of the value
    matrix to the edited cells of that row, each a scale name with its new
    value. *)
Definition update_license_values (edited_rows : list (Z * list (string * Z)))
    (irl : list IRL.t) : list IRL.t :=
  fold_left
    (fun table row_edits =>
       fold_left
         (fun table cell =>
            map (fun r =>
                   if Null.eq_int (IRL.Level r) (Some (fst row_edits + 1))
                      && Null.eq_str (IRL.IRLType r) (Some (fst cell))
                   then IRL.set_LicenseValue r (Some (snd cell)) else r)
              table)
         (snd row_edits) table)
    edited_rows irl.

(** ** class Organisation ("Organisations") *)

Module Organisation.

Record t : Type := mk {
  org_id : option Z;
  org_name : option string;
  active : option Z
}.

Definition set_org_id (o : t) (v : option Z) : t :=
  mk v (org_name o) (active o).

#[global] Instance mapped : Mapped t :=
  {| pk := org_id; set_pk := set_org_id |}.

End Organisation.

(** [add_org]: the returned id and the table afterwards; [active = True]
    is stored as 1. *)
Definition add_org (org_name : string) (orgs : list Organisation.t)
  : outcome (option Z * list Organisation.t) :=
  let new_org := Organisation.mk None (Some org_name) (Some 1) in
  match Query.add new_org orgs with
  | Raises e => Raises e
  | Returns (_, orgs') =>
      match Query.first
              (fun o => Null.eq_str (Organisation.org_name o)
                          (Some org_name)) orgs' with
      | None => Raises AttributeError
      | Some new_org => Returns (Organisation.org_id new_org, orgs')
      end
  end.

(** ** More sample data *)

Module MoreSample.

(** A toy hash that [checkpw] recognises. *)
Definition hashpw (password salt : string) : string :=
  (salt ++ "$" ++ password)%string.

Definition checkpw (password hashed : string) : bool :=
  String.eqb (String.substring (String.length hashed - String.length password)
                (String.length password) hashed) password
  && (String.length password <=? String.length hashed)%nat.

Definition ada : User.t :=
  User.mk (Some 1) (Some "Ada"%string) (Some "ada"%string)
    (Some (hashpw "secret" "s1")) (Some 9) (Some 1) (Some 1) None None.

Definition bob : User.t :=
  User.mk (Some 2) (Some "Bob"%string) (Some "bob"%string)
    None (Some 2) (Some 1) (Some 1) None None.

Definition newcomer : User.t :=
  User.mk None (Some "Cy"%string) (Some "cy"%string)
    None (Some 1) (Some 1) (Some 1) None None.

End MoreSample.

Module MatrixSample.

Definition cell (irl_type : string) (level startup license : Z) : IRL.t :=
  IRL.mk (Some level) (Some irl_type) None None (Some startup)
    (Some license).

Definition matrix : list IRL.t :=
  [cell "CRL" 3 10 1; cell "CRL" 4 20 2; cell "TRL" 4 30 3;
   cell "BRL" 2 40 4; cell "IPRL" 1 50 5; cell "TMRL" 5 60 6;
   cell "FRL" 2 70 7; cell "FRL" 3 80 8].

End MatrixSample.

(** * Properties *)

(** ** Nullable comparisons *)

Module NullFacts.

Lemma eq_int_spec x y : Null.eq_int x y = true <-> x = y.
Proof.
  destruct x as [a|], y as [b|]; simpl; split; intro H;
    try discriminate; try reflexivity.
  - apply Z.eqb_eq in H. now subst.
  - injection H as ->. apply Z.eqb_refl.
Qed.

Lemma eq_str_spec x y : Null.eq_str x y = true <-> x = y.
Proof.
  destruct x as [a|], y as [b|]; simpl; split; intro H;
    try discriminate; try reflexivity.
  - apply String.eqb_eq in H. now subst.
  - injection H as ->. apply String.eqb_refl.
Qed.

Lemma eq_int_refl x : Null.eq_int x x = true.
Proof. now apply eq_int_spec. Qed.

Lemma eq_str_refl x : Null.eq_str x x = true.
Proof. now apply eq_str_spec. Qed.

Lemma eq_int_false x y : Null.eq_int x y = false <-> x <> y.
Proof.
  split.
  - intros H E. apply eq_int_spec in E. congruence.
  - intro H. destruct (Null.eq_int x y) eqn:E; [|reflexivity].
    apply eq_int_spec in E. contradiction.
Qed.

Lemma eq_str_false x y : Null.eq_str x y = false <-> x <> y.
Proof.
  split.
  - intros H E. apply eq_str_spec in E. congruence.
  - intro H. destruct (Null.eq_str x y) eqn:E; [|reflexivity].
    apply eq_str_spec in E. contradiction.
Qed.

Lemma eq_int_sym x y : Null.eq_int x y = Null.eq_int y x.
Proof.
  destruct (Null.eq_int y x) eqn:E.
  - apply eq_int_spec in E. subst. apply eq_int_refl.
  - apply eq_int_false in E. apply eq_int_false. congruence.
Qed.

Lemma col_eq_int_spec x y :
  Null.col_eq_int x y = true <-> exists a, x = Some a /\ y = Some a.
Proof.
  destruct x as [a|], y as [b|]; simpl; split; intro H;
    try discriminate; try (destruct H as (c & H1 & H2); discriminate).
  - apply Z.eqb_eq in H. subst. now exists b.
  - destruct H as (c & H1 & H2). injection H1 as ->. injection H2 as ->.
    apply Z.eqb_refl.
Qed.

Lemma py_in_spec x xs : Null.py_in x xs = true <-> In x xs.
Proof.
  unfold Null.py_in. rewrite existsb_exists. split.
  - intros (y & Hy & E). apply eq_int_spec in E. now subst.
  - intro H. exists x. split; [assumption | apply eq_int_refl].
Qed.

Lemma in_spec x vs :
  Null.in_ x vs = true <-> exists a, x = Some a /\ In (Some a) vs.
Proof.
  unfold Null.in_. rewrite existsb_exists. split.
  - intros (y & Hy & E). apply col_eq_int_spec in E.
    destruct E as (a & -> & ->). now exists a.
  - intros (a & -> & Ha). exists (Some a). split; [assumption|].
    simpl. apply Z.eqb_refl.
Qed.

Lemma in_none vs : Null.in_ None vs = false.
Proof. induction vs as [|v vs IH]; simpl; [reflexivity | assumption]. Qed.

End NullFacts.

(** ** Queries *)

Module QueryFacts.

Lemma first_none {R} (p : R -> bool) table :
  Query.first p table = None <-> forall r, In r table -> p r = false.
Proof.
  unfold Query.first. split.
  - apply find_none.
  - induction table as [|a table IH]; simpl; intro H; [reflexivity|].
    rewrite (H a (or_introl eq_refl)). apply IH. intros r Hr.
    apply H. now right.
Qed.

Lemma first_some {R} (p : R -> bool) table r :
  Query.first p table = Some r -> In r table /\ p r = true.
Proof. apply find_some. Qed.

Lemma first_app_last {R} (p : R -> bool) table r :
  Query.first p table = None -> p r = true ->
  Query.first p (table ++ [r]) = Some r.
Proof.
  unfold Query.first.
  induction table as [|a table IH]; simpl; intros Hn Hr.
  - now rewrite Hr.
  - destruct (p a); [discriminate | now apply IH].
Qed.

Lemma next_id_above keys z :
  In (Some z) keys -> z < Query.next_id keys.
Proof.
  unfold Query.next_id.
  induction keys as [|k keys IH]; cbn [fold_right In]; intro H;
    [contradiction|].
  destruct H as [-> | H].
  - lia.
  - specialize (IH H). destruct k; lia.
Qed.

Lemma next_id_fresh keys : ~ In (Some (Query.next_id keys)) keys.
Proof. intro H. apply next_id_above in H. lia. Qed.

(** What [session.add] does when the key is free: the stored row is the
    object, under a key that was not in the table. *)
Lemma add_key_free {R} `{Mapped R} (obj : R) table :
  (forall o z, pk o = Some z -> set_pk o (Some z) = o) ->
  Spec.key_free (pk obj) table ->
  exists z,
    ~ In (Some z) (map pk table)
    /\ Query.add obj table
       = Returns (set_pk obj (Some z), table ++ [set_pk obj (Some z)]).
Proof.
  intros Heta Hfree. unfold Query.add.
  destruct (pk obj) as [k|] eqn:Hk.
  - exists k. split; [now apply Hfree|].
    destruct (Null.in_ (Some k) (map pk table)) eqn:E.
    + apply NullFacts.in_spec in E. destruct E as (a & Ha & Hin).
      injection Ha as <-. exfalso. now apply (Hfree k).
    + now rewrite (Heta obj k Hk).
  - exists (Query.next_id (map pk table)). split; [apply next_id_fresh|].
    reflexivity.
Qed.

Lemma sum_none vs :
  Query.sum vs = None -> forall v, In v vs -> v = None.
Proof.
  induction vs as [|[a|] vs IH]; simpl; intros H v Hv.
  - contradiction.
  - destruct (Query.sum vs); discriminate.
  - destruct Hv as [<- | Hv]; [reflexivity | now apply IH].
Qed.

End QueryFacts.

(** ** The order on stored dates *)

Module DateOrderFacts.

Lemma ascii_compare_refl c : Ascii.compare c c = Eq.
Proof. unfold Ascii.compare. apply N.compare_refl. Qed.

Lemma compare_refl s : String.compare s s = Eq.
Proof.
  induction s as [|c s IH]; simpl; [reflexivity|].
  now rewrite ascii_compare_refl.
Qed.

Lemma ascii_compare_lt_trans c d e :
  Ascii.compare c d = Lt -> Ascii.compare d e = Lt -> Ascii.compare c e = Lt.
Proof.
  unfold Ascii.compare. rewrite !N.compare_lt_iff. apply N.lt_trans.
Qed.

Lemma compare_lt_trans s : forall t u,
  String.compare s t = Lt -> String.compare t u = Lt ->
  String.compare s u = Lt.
Proof.
  induction s as [|c s IH]; intros [|d t] [|e u]; simpl;
    try discriminate; try reflexivity.
  destruct (Ascii.compare c d) eqn:Hcd; try discriminate;
    destruct (Ascii.compare d e) eqn:Hde; try discriminate; intros H1 H2.
  - apply Ascii.compare_eq_iff in Hcd, Hde. subst.
    rewrite ascii_compare_refl. eauto.
  - apply Ascii.compare_eq_iff in Hcd. subst. now rewrite Hde.
  - apply Ascii.compare_eq_iff in Hde. subst. now rewrite Hcd.
  - now rewrite (ascii_compare_lt_trans _ _ _ Hcd Hde).
Qed.

Lemma string_leb_trans s t u :
  String.leb s t = true -> String.leb t u = true -> String.leb s u = true.
Proof.
  unfold String.leb.
  destruct (String.compare s t) eqn:Hst; try discriminate;
    destruct (String.compare t u) eqn:Htu; try discriminate; intros _ _.
  - apply String.compare_eq_iff in Hst, Htu. subst.
    now rewrite compare_refl.
  - apply String.compare_eq_iff in Hst. subst. now rewrite Htu.
  - apply String.compare_eq_iff in Htu. subst. now rewrite Hst.
  - now rewrite (compare_lt_trans _ _ _ Hst Htu).
Qed.

Lemma leb_refl x : DateOrder.leb x x = true.
Proof.
  destruct x as [a|]; simpl; [|reflexivity].
  unfold String.leb. now rewrite compare_refl.
Qed.

Lemma leb_total x y : DateOrder.leb x y = true \/ DateOrder.leb y x = true.
Proof.
  destruct x as [a|], y as [b|]; simpl; auto. apply String.leb_total.
Qed.

Lemma leb_trans x y z :
  DateOrder.leb x y = true -> DateOrder.leb y z = true ->
  DateOrder.leb x z = true.
Proof.
  destruct x as [a|], y as [b|], z as [c|]; simpl; try discriminate; auto.
  apply string_leb_trans.
Qed.

Lemma ltb_irrefl x : DateOrder.ltb x x = false.
Proof. unfold DateOrder.ltb. now rewrite leb_refl. Qed.

Lemma ltb_leb x y : DateOrder.ltb x y = true -> DateOrder.leb x y = true.
Proof.
  unfold DateOrder.ltb. intro H. apply negb_true_iff in H.
  destruct (leb_total x y) as [E|E]; [assumption | congruence].
Qed.

Lemma nltb_leb x y : DateOrder.ltb x y = false -> DateOrder.leb y x = true.
Proof. unfold DateOrder.ltb. intro H. now apply negb_false_iff in H. Qed.

Lemma nleb_leb x y : DateOrder.leb x y = false -> DateOrder.leb y x = true.
Proof. intro H. destruct (leb_total x y); congruence. Qed.

End DateOrderFacts.

(** ** GROUP BY and ORDER BY *)

Module AggregateFacts.

Section Rows.
Context {R : Type}.
Variable key : R -> option Z.
Variable date : R -> option string.

Local Abbreviation absorb := (Query.absorb key date).
Local Abbreviation group_by_max := (Query.group_by_max key date).
Local Abbreviation grouped := (Spec.grouped key date).

(** *** Grouping *)

Lemma absorb_idem r acc : absorb r (absorb r acc) = absorb r acc.
Proof.
  induction acc as [|a acc IH]; cbn [Query.absorb].
  - now rewrite NullFacts.eq_int_refl, DateOrderFacts.ltb_irrefl.
  - destruct (Null.eq_int (key a) (key r)) eqn:E.
    + destruct (DateOrder.ltb (date a) (date r)) eqn:L;
        cbn [Query.absorb].
      * now rewrite NullFacts.eq_int_refl, DateOrderFacts.ltb_irrefl.
      * now rewrite E, L.
    + cbn [Query.absorb]. now rewrite E, IH.
Qed.

(** [absorb] either appends a row with a new key or settles the contest
    with the one row that has its key. *)
Lemma absorb_cases r acc :
  ((forall a, In a acc -> key a <> key r) /\ absorb r acc = acc ++ [r])
  \/ exists l1 a l2,
       acc = l1 ++ a :: l2 /\ key a = key r
       /\ (forall b, In b l1 -> key b <> key r)
       /\ absorb r acc
          = l1 ++ (if DateOrder.ltb (date a) (date r) then r else a) :: l2.
Proof.
  induction acc as [|a acc IH]; cbn [Query.absorb].
  - left. split; [intros a []| reflexivity].
  - destruct (Null.eq_int (key a) (key r)) eqn:E.
    + right. exists [], a, acc. apply NullFacts.eq_int_spec in E.
      repeat split; try assumption. intros b [].
    + apply NullFacts.eq_int_false in E.
      destruct IH as [(Hno & ->) | (l1 & b & l2 & -> & Hk & Hl1 & ->)].
      * left. split; [|reflexivity]. intros x [<- | Hx]; auto.
      * right. exists (a :: l1), b, l2. repeat split; try assumption.
        intros x [<- | Hx]; auto.
Qed.

Lemma grouped_absorb seen acc r :
  grouped seen acc -> grouped (seen ++ [r]) (absorb r acc).
Proof.
  intros [Hk Hin Hmax Hall].
  destruct (absorb_cases r acc)
    as [(Hno & ->) | (l1 & a & l2 & -> & Hka & Hl1 & ->)].
  - split.
    + rewrite map_app. cbn [map].
      apply NoDup_app; [assumption | repeat constructor; intros [] |].
      intros k Hin1 [<- | []]. apply in_map_iff in Hin1.
      destruct Hin1 as (a & Ha & Hina). now apply (Hno a).
    + intros a Ha. apply in_app_iff in Ha. apply in_app_iff.
      destruct Ha as [Ha | [<- | []]]; [left; auto | right; now left].
    + intros a x Ha Hx E. apply in_app_iff in Ha, Hx.
      destruct Ha as [Ha | [<- | []]], Hx as [Hx | [<- | []]].
      * now apply Hmax.
      * exfalso. now apply (Hno a).
      * destruct (Hall x Hx) as (b & Hb & Eb). exfalso.
        apply (Hno b Hb). congruence.
      * apply DateOrderFacts.leb_refl.
    + intros x Hx. apply in_app_iff in Hx.
      destruct Hx as [Hx | [<- | []]].
      * destruct (Hall x Hx) as (a & Ha & E). exists a. split; [|exact E].
        apply in_app_iff. now left.
      * exists r. split; [|reflexivity]. apply in_app_iff. right. now left.
  - set (w := if DateOrder.ltb (date a) (date r) then r else a).
    assert (Hkw : key w = key a) by (unfold w; now destruct DateOrder.ltb).
    assert (Ha : In a (l1 ++ a :: l2))
      by (apply in_app_iff; right; now left).
    assert (Hother : forall b, In b (l1 ++ l2) -> key b <> key a).
    { intros b Hb E. rewrite map_app in Hk. cbn [map] in Hk.
      apply NoDup_remove_2 in Hk. apply Hk. rewrite <- map_app, <- E.
      now apply in_map. }
    assert (Hwr : DateOrder.leb (date r) (date w) = true).
    { unfold w. destruct (DateOrder.ltb (date a) (date r)) eqn:L.
      - apply DateOrderFacts.leb_refl.
      - now apply DateOrderFacts.nltb_leb. }
    assert (Hwa : DateOrder.leb (date a) (date w) = true).
    { unfold w. destruct (DateOrder.ltb (date a) (date r)) eqn:L.
      - now apply DateOrderFacts.ltb_leb.
      - apply DateOrderFacts.leb_refl. }
    split.
    + rewrite map_app in *. cbn [map] in *. now rewrite Hkw.
    + intros b Hb. apply in_app_iff. apply in_app_iff in Hb.
      destruct Hb as [Hb | [<- | Hb]].
      * left. apply Hin. apply in_app_iff. now left.
      * unfold w. destruct DateOrder.ltb; [right; now left | left; auto].
      * left. apply Hin. apply in_app_iff. right. now right.
    + intros b x Hb Hx E.
      assert (Hb' : b = w \/ In b (l1 ++ l2)).
      { apply in_app_iff in Hb. rewrite in_app_iff.
        destruct Hb as [Hb | [<- | Hb]]; auto. }
      apply in_app_iff in Hx.
      destruct Hb' as [-> | Hb'].
      * destruct Hx as [Hx | [<- | []]]; [|exact Hwr].
        apply (DateOrderFacts.leb_trans _ (date a)); [|exact Hwa].
        apply Hmax; [exact Ha | exact Hx | congruence].
      * destruct Hx as [Hx | [<- | []]].
        -- apply Hmax; [|exact Hx | exact E].
           apply in_app_iff. apply in_app_iff in Hb'.
           destruct Hb'; [now left | right; now right].
        -- exfalso. apply (Hother b Hb'). congruence.
    + intros x Hx. apply in_app_iff in Hx.
      assert (Hw : In w (l1 ++ w :: l2))
        by (apply in_app_iff; right; now left).
      destruct Hx as [Hx | [<- | []]].
      * destruct (Hall x Hx) as (b & Hb & E).
        apply in_app_iff in Hb. destruct Hb as [Hb | [<- | Hb]].
        -- exists b. split; [|exact E]. apply in_app_iff. now left.
        -- exists w. split; [exact Hw | congruence].
        -- exists b. split; [|exact E]. apply in_app_iff. right. now right.
      * exists w. split; [exact Hw | congruence].
Qed.

Lemma grouped_fold rows : forall seen acc,
  grouped seen acc ->
  grouped (seen ++ rows) (fold_left (fun acc r => absorb r acc) rows acc).
Proof.
  induction rows as [|r rows IH]; intros seen acc H; cbn [fold_left].
  - now rewrite app_nil_r.
  - replace (seen ++ r :: rows) with ((seen ++ [r]) ++ rows)
      by (now rewrite <- app_assoc).
    apply IH. now apply grouped_absorb.
Qed.

Lemma group_by_max_grouped rows : grouped rows (group_by_max rows).
Proof.
  apply (grouped_fold rows [] []).
  split; [constructor | intros a [] | intros a x [] | intros x []].
Qed.

(** *** Restricting to rows chosen by their key *)

Section ByKey.
Variable p : R -> bool.
Hypothesis p_key :
  forall a b, Null.eq_int (key a) (key b) = true -> p a = p b.

Lemma filter_absorb r acc :
  filter p (absorb r acc)
  = if p r then absorb r (filter p acc) else filter p acc.
Proof.
  induction acc as [|a acc IH]; cbn [Query.absorb filter].
  - now destruct (p r).
  - destruct (Null.eq_int (key a) (key r)) eqn:E.
    + rewrite (p_key a r E).
      assert (Hw : p (if DateOrder.ltb (date a) (date r) then r else a)
                   = p r).
      { destruct DateOrder.ltb; [reflexivity | now apply p_key]. }
      cbn [filter]. rewrite Hw.
      destruct (p r); cbn [Query.absorb]; [now rewrite E | reflexivity].
    + cbn [filter]. rewrite IH.
      destruct (p a), (p r); cbn [Query.absorb]; try reflexivity.
      now rewrite E.
Qed.

Lemma filter_group_fold rows : forall acc,
  fold_left (fun acc r => absorb r acc) (filter p rows) (filter p acc)
  = filter p (fold_left (fun acc r => absorb r acc) rows acc).
Proof.
  induction rows as [|r rows IH]; intro acc; cbn [filter fold_left];
    [reflexivity|].
  rewrite <- IH, filter_absorb. now destruct (p r).
Qed.

Lemma group_by_max_filter rows :
  group_by_max (filter p rows) = filter p (group_by_max rows).
Proof. apply (filter_group_fold rows []). Qed.

End ByKey.

(** *** Rows that come several times in a row *)

Lemma absorb_copies (r : R) (copies : list R) : forall acc,
  (forall x, In x copies -> x = r) ->
  fold_left (fun acc r => absorb r acc) copies (absorb r acc) = absorb r acc.
Proof.
  induction copies as [|c copies IH]; intros acc H; cbn [fold_left];
    [reflexivity|].
  rewrite (H c (or_introl eq_refl)), absorb_idem.
  apply IH. intros x Hx. apply H. now right.
Qed.

Lemma group_fold_product {T : Type} (join : R -> T -> bool) (ts : list T)
    (rows : list R) : forall acc,
  fold_left (fun acc r => absorb r acc)
    (flat_map
       (fun r => flat_map (fun t => if join r t then [r] else []) ts) rows)
    acc
  = fold_left (fun acc r => absorb r acc)
      (filter (fun r => existsb (join r) ts) rows) acc.
Proof.
  induction rows as [|r rows IH]; intro acc; cbn [flat_map filter];
    [reflexivity|].
  rewrite fold_left_app.
  assert (H : fold_left (fun acc r => absorb r acc)
                (flat_map (fun t => if join r t then [r] else []) ts) acc
              = if existsb (join r) ts then absorb r acc else acc).
  { clear IH. induction ts as [|t ts IHt]; cbn [flat_map existsb];
      [reflexivity|].
    destruct (join r t); cbn [app orb fold_left]; [|exact IHt].
    apply absorb_copies. intros x Hx. apply in_flat_map in Hx.
    destruct Hx as (t' & _ & Hx). destruct (join r t'); [|destruct Hx].
    destruct Hx as [<- | []]. reflexivity. }
  rewrite H, IH. now destruct (existsb (join r) ts).
Qed.

Lemma group_by_max_product {T : Type} (join : R -> T -> bool) (ts : list T)
    (rows : list R) :
  group_by_max
    (flat_map
       (fun r => flat_map (fun t => if join r t then [r] else []) ts) rows)
  = group_by_max (filter (fun r => existsb (join r) ts) rows).
Proof. apply group_fold_product. Qed.

End Rows.

(** *** Ordering *)

Section Ordering.
Context {R : Type}.
Variable date : R -> option string.

Local Abbreviation place := (Query.place date).
Local Abbreviation order_by := (Query.order_by date).
Local Abbreviation sorted :=
  (StronglySorted (fun a b => DateOrder.leb (date a) (date b) = true)).

Lemma place_perm r s : Permutation (place r s) (r :: s).
Proof.
  induction s as [|y s IH]; cbn [Query.place]; [reflexivity|].
  destruct (DateOrder.leb (date r) (date y)); [reflexivity|].
  rewrite IH. apply perm_swap.
Qed.

Lemma order_by_perm rows : Permutation (order_by rows) rows.
Proof.
  induction rows as [|r rows IH]; cbn [Query.order_by fold_right];
    [reflexivity|].
  fold (order_by rows). rewrite place_perm. now constructor.
Qed.

Lemma place_sorted r s : sorted s -> sorted (place r s).
Proof.
  induction s as [|y s IH]; cbn [Query.place]; intro H.
  - repeat constructor.
  - inversion H as [|? ? Hs Hy]; subst.
    destruct (DateOrder.leb (date r) (date y)) eqn:E.
    + constructor; [assumption|]. constructor; [assumption|].
      rewrite Forall_forall in *. intros x Hx.
      apply (DateOrderFacts.leb_trans _ (date y)); auto.
    + constructor; [now apply IH|].
      rewrite Forall_forall in *. intros x Hx.
      apply (Permutation_in _ (place_perm r s)) in Hx.
      destruct Hx as [<- | Hx]; [|now apply Hy].
      now apply DateOrderFacts.nleb_leb.
Qed.

Lemma order_by_sorted rows : sorted (order_by rows).
Proof.
  induction rows as [|r rows IH]; cbn [Query.order_by fold_right];
    [constructor|].
  now apply place_sorted.
Qed.

Lemma place_first r s :
  (forall x, In x s -> DateOrder.leb (date r) (date x) = true) ->
  place r s = r :: s.
Proof.
  destruct s as [|y s]; cbn [Query.place]; intro H; [reflexivity|].
  now rewrite (H y (or_introl eq_refl)).
Qed.

Lemma filter_place (p : R -> bool) r s :
  sorted s ->
  filter p (place r s) = if p r then place r (filter p s) else filter p s.
Proof.
  induction s as [|y s IH]; cbn [Query.place filter]; intro H.
  - now destruct (p r).
  - inversion H as [|? ? Hs Hy]; subst. rewrite Forall_forall in Hy.
    destruct (DateOrder.leb (date r) (date y)) eqn:E.
    + cbn [filter]. destruct (p r); [|reflexivity].
      symmetry. apply place_first. intros x Hx.
      assert (Hx' : In x (y :: s)).
      { destruct (p y); [destruct Hx as [<- | Hx]; [now left|]|];
          right; apply filter_In in Hx; tauto. }
      destruct Hx' as [<- | Hx']; [assumption|].
      apply (DateOrderFacts.leb_trans _ (date y)); auto.
    + cbn [filter]. rewrite (IH Hs).
      destruct (p y), (p r); cbn [Query.place]; try reflexivity.
      now rewrite E.
Qed.

Lemma order_by_filter (p : R -> bool) rows :
  order_by (filter p rows) = filter p (order_by rows).
Proof.
  induction rows as [|r rows IH]; cbn [Query.order_by fold_right filter];
    [reflexivity|].
  fold (order_by rows). rewrite filter_place by apply order_by_sorted.
  destruct (p r); [|exact IH].
  cbn [Query.order_by fold_right]. fold (order_by (filter p rows)).
  now rewrite IH.
Qed.

End Ordering.

End AggregateFacts.

(** ** The navigation shell *)

(** C8. [get_tools_n_settings] follows the role table: User Settings alone
    for rights below 2 and for 6 and 7; Project Tools, Reports and User
    Settings for 2 and 8; the five pages for 9; and no page list for 3, 4
    and 5. *)
Theorem get_tools_n_settings_role_table (user : User.t) (r : Z) :
  User.rights user = Some r ->
  (r < 2 \/ r = 6 \/ r = 7 ->
   get_tools_n_settings user = Returns (Some [user_settings_pg]))
  /\ (r = 2 \/ r = 8 ->
      get_tools_n_settings user
      = Returns (Some [project_tools_pg; reporting_pg; user_settings_pg]))
  /\ (r = 9 ->
      get_tools_n_settings user
      = Returns (Some [project_tools_pg; reporting_pg; admin_tools_pg;
                       user_settings_pg; sys_settings_pg]))
  /\ (r = 3 \/ r = 4 \/ r = 5 -> get_tools_n_settings user = Returns None).
Proof.
  intro Hr. unfold get_tools_n_settings. rewrite Hr.
  repeat split; intro H.
  - destruct H as [H | [-> | ->]]; [|reflexivity..].
    apply Z.ltb_lt in H. now rewrite H.
  - now destruct H as [-> | ->].
  - now subst.
  - now destruct H as [-> | [-> | ->]].
Qed.

Lemma get_tools_n_settings_role_table_witness :
  map title
    (match get_tools_n_settings (Sample.some_user 2) with
     | Returns (Some pages) => pages
     | _ => []
     end)
  = ["Project Tools"; "Reports"; "User Settings"]%string
  /\ get_tools_n_settings (Sample.some_user 4) = Returns None.
Proof.
  destruct (get_tools_n_settings_role_table (Sample.some_user 2) 2 eq_refl)
    as (_ & H2 & _).
  destruct (get_tools_n_settings_role_table (Sample.some_user 4) 4 eq_refl)
    as (_ & _ & _ & H4).
  split.
  - rewrite (H2 (or_introl eq_refl)). reflexivity.
  - apply H4. right. left. reflexivity.
Defined.

(** Rights above 9 fall off the end as well. *)
Lemma get_tools_n_settings_above_9 (user : User.t) (r : Z) :
  User.rights user = Some r -> 9 < r ->
  get_tools_n_settings user = Returns None.
Proof.
  intros Hr H. unfold get_tools_n_settings. rewrite Hr.
  destruct (Z.ltb_spec r 2); [lia|].
  repeat (match goal with
          | |- context [?a =? ?b] =>
              destruct (Z.eqb_spec a b); [lia|]
          end).
  reflexivity.
Qed.

(** ** The date stamp *)

Example getDate_pads_month_and_day :
  IRLAssessment._getDate (mk_datetime 2025 3 7) = "2025-03-07"%string.
Proof. reflexivity. Qed.

Example getDate_keeps_two_digits :
  IRLAssessment._getDate (mk_datetime 2024 12 31) = "2024-12-31"%string.
Proof. reflexivity. Qed.

(** ** IRLAssessment.insert *)

Lemma set_id_eta (o : IRLAssessment.t) z :
  IRLAssessment.id o = Some z -> IRLAssessment.set_id o (Some z) = o.
Proof. destruct o; simpl; intros ->; reflexivity. Qed.

Lemma project_stored_first n table :
  Spec.project_stored n table <->
  exists r, Query.first
              (fun r => Null.eq_int (IRLAssessment.project_no r) n) table
            = Some r.
Proof.
  split.
  - intros (r & Hin & Hr).
    destruct (Query.first
                (fun r => Null.eq_int (IRLAssessment.project_no r) n) table)
      as [r'|] eqn:E; [now exists r'|].
    rewrite QueryFacts.first_none in E. specialize (E r Hin).
    cbv beta in E. rewrite Hr, NullFacts.eq_int_refl in E. discriminate.
  - intros (r & Hr). apply QueryFacts.first_some in Hr.
    destruct Hr as (Hin & Hr). apply NullFacts.eq_int_spec in Hr.
    now exists r.
Qed.

(** C3. [insert] answers "Project already exists" and leaves the table as
    it is when some stored row, active or not, carries the project number;
    otherwise it stores exactly one new row, the object stamped with
    today's date under a key no row had, and returns no error. *)
Theorem insert_once_per_project (now : datetime) (self : IRLAssessment.t)
    (table : list IRLAssessment.t) :
  (Spec.project_stored (IRLAssessment.project_no self) table ->
   exists self',
     IRLAssessment.insert now self table
     = Returns (Some "Project already exists in the database!"%string,
                self', table))
  /\ (~ Spec.project_stored (IRLAssessment.project_no self) table ->
      Spec.key_free (IRLAssessment.id self) table ->
      exists z,
        ~ In (Some z) (map IRLAssessment.id table)
        /\ let row :=
             IRLAssessment.set_id
               (IRLAssessment.set_assessment_date self
                  (Some (IRLAssessment._getDate now)))
               (Some z) in
           IRLAssessment.insert now self table
           = Returns (None, row, table ++ [row])).
Proof.
  split.
  - intro H. apply project_stored_first in H. destruct H as (r & Hr).
    unfold IRLAssessment.insert. cbn [IRLAssessment.project_no
      IRLAssessment.set_assessment_date]. rewrite Hr. eauto.
  - intros Hno Hfree.
    assert (E : Query.first
                  (fun r => Null.eq_int (IRLAssessment.project_no r)
                              (IRLAssessment.project_no self)) table = None).
    { destruct (Query.first _ table) as [r|] eqn:E; [|reflexivity].
      exfalso. apply Hno. apply project_stored_first. now exists r. }
    unfold IRLAssessment.insert. cbn [IRLAssessment.project_no
      IRLAssessment.set_assessment_date]. rewrite E.
    destruct (QueryFacts.add_key_free
                (IRLAssessment.set_assessment_date self
                   (Some (IRLAssessment._getDate now))) table)
      as (z & Hz & Hadd).
    + intros o k. apply set_id_eta.
    + exact Hfree.
    + exists z. split; [exact Hz|]. cbv zeta.
      unfold IRLAssessment.set_assessment_date in *. now rewrite Hadd.
Qed.

Lemma insert_once_per_project_witness :
  let stored :=
    Sample.assessment (Some 1) (Some 7) (Some 1) (Some "2024-01-31"%string)
      (Some 0) in
  (exists self',
     IRLAssessment.insert Sample.a_day
       (Sample.assessment None (Some 7) (Some 2) None (Some 1)) [stored]
     = Returns (Some "Project already exists in the database!"%string,
                self', [stored]))
  /\ (exists z row,
        IRLAssessment.insert Sample.a_day
          (Sample.assessment None (Some 8) (Some 2) None (Some 1)) [stored]
        = Returns (None, row, [stored; row])
        /\ IRLAssessment.id row = Some z /\ z <> 1
        /\ IRLAssessment.assessment_date row = Some "2025-03-07"%string).
Proof.
  intro stored. split.
  - apply (proj1 (insert_once_per_project Sample.a_day
                    (Sample.assessment None (Some 7) (Some 2) None (Some 1))
                    [stored])).
    exists stored. split; [now left | reflexivity].
  - destruct (proj2 (insert_once_per_project Sample.a_day
                       (Sample.assessment None (Some 8) (Some 2) None
                          (Some 1)) [stored])) as (z & Hz & H).
    + intros (r & [<- | []] & Hr). discriminate.
    + intros z Hz. discriminate.
    + exists z. eexists. split; [exact H|].
      repeat split. intros ->. apply Hz. now left.
Defined.

(** C10. When the project number is already stored, the failing [insert]
    still leaves the object with today's date in assessment_date, and with
    every other field as it was. *)
Theorem insert_duplicate_stamps_date (now : datetime)
    (self : IRLAssessment.t) (table : list IRLAssessment.t) :
  Spec.project_stored (IRLAssessment.project_no self) table ->
  exists self',
    IRLAssessment.insert now self table
    = Returns (Some "Project already exists in the database!"%string,
               self', table)
    /\ IRLAssessment.assessment_date self'
       = Some (IRLAssessment._getDate now)
    /\ Spec.same_but_date self self'.
Proof.
  intro H. apply project_stored_first in H. destruct H as (r & Hr).
  unfold IRLAssessment.insert. cbn [IRLAssessment.project_no
    IRLAssessment.set_assessment_date]. rewrite Hr.
  eexists. split; [reflexivity|]. split; [reflexivity|].
  unfold Spec.same_but_date. cbn. repeat split.
Qed.

Lemma insert_duplicate_stamps_date_witness :
  let stored :=
    Sample.assessment (Some 1) (Some 7) (Some 1) (Some "2024-01-31"%string)
      (Some 1) in
  let self :=
    Sample.assessment None (Some 7) (Some 2) (Some "2020-02-02"%string)
      (Some 1) in
  exists self',
    IRLAssessment.insert Sample.a_day self [stored]
    = Returns (Some "Project already exists in the database!"%string,
               self', [stored])
    /\ IRLAssessment.assessment_date self' = Some "2025-03-07"%string
    /\ Spec.same_but_date self self'.
Proof.
  intros stored self.
  apply (insert_duplicate_stamps_date Sample.a_day self [stored]).
  exists stored. split; [now left | reflexivity].
Defined.

(** ** IRLAssessment.update *)

Lemma update_all_keys (self : IRLAssessment.t) table :
  map IRLAssessment.id
    (Query.update_all
       (fun r => Null.eq_int (IRLAssessment.id r) (IRLAssessment.id self))
       self table)
  = map IRLAssessment.id table.
Proof.
  unfold Query.update_all. rewrite map_map. apply map_ext. intro r.
  destruct (Null.eq_int (IRLAssessment.id r) (IRLAssessment.id self)) eqn:E;
    [|reflexivity].
  apply NullFacts.eq_int_spec in E. now symmetry.
Qed.

(** C2. With [overwrite] set, or when the object's assessment_date is
    today, [update] rewrites the row with the object's id where it stands:
    same keys, same number of rows.  Otherwise it appends one row under a
    new id, dated today, that takes over the project fields, the levels and
    everything about the targets, and the notes only when [keep_ass_notes]
    is set. *)
Theorem update_in_place_or_new_row (now : datetime) (self : IRLAssessment.t)
    (overwrite keep_ass_notes : bool) (table : list IRLAssessment.t) :
  (overwrite = true
   \/ IRLAssessment.assessment_date self = Some (IRLAssessment._getDate now)
   ->
   exists table',
     IRLAssessment.update now self overwrite keep_ass_notes table
     = Returns (None, table')
     /\ List.length table' = List.length table
     /\ map IRLAssessment.id table' = map IRLAssessment.id table
     /\ forall i r,
          nth_error table i = Some r ->
          nth_error table' i
          = Some (if Null.eq_int (IRLAssessment.id r) (IRLAssessment.id self)
                  then self else r))
  /\ (overwrite = false ->
      IRLAssessment.assessment_date self
      <> Some (IRLAssessment._getDate now) ->
      exists z row,
        IRLAssessment.update now self overwrite keep_ass_notes table
        = Returns (None, table ++ [row])
        /\ IRLAssessment.id row = Some z
        /\ ~ In (Some z) (map IRLAssessment.id table)
        /\ IRLAssessment.assessment_date row
           = Some (IRLAssessment._getDate now)
        /\ Spec.carries_over self row
        /\ (keep_ass_notes = true -> Spec.notes_kept self row)
        /\ (keep_ass_notes = false -> Spec.notes_unset row)).
Proof.
  split.
  - intro H.
    assert (E : overwrite
                || Null.eq_str (Some (IRLAssessment._getDate now))
                     (IRLAssessment.assessment_date self) = true).
    { destruct H as [-> | H]; [reflexivity|].
      rewrite H, NullFacts.eq_str_refl. apply orb_true_r. }
    unfold IRLAssessment.update. rewrite E.
    eexists. split; [reflexivity|]. split; [|split].
    + unfold Query.update_all. apply length_map.
    + apply update_all_keys.
    + intros i r Hi. unfold Query.update_all.
      rewrite nth_error_map, Hi. reflexivity.
  - intros -> Hdate.
    assert (E : Null.eq_str (Some (IRLAssessment._getDate now))
                  (IRLAssessment.assessment_date self) = false).
    { apply NullFacts.eq_str_false. congruence. }
    unfold IRLAssessment.update. rewrite E. cbn [orb].
    exists (Query.next_id (map IRLAssessment.id table)).
    eexists. split; [reflexivity|].
    split; [reflexivity|]. split; [apply QueryFacts.next_id_fresh|].
    split; [reflexivity|].
    split; [unfold Spec.carries_over; cbn; repeat split|].
    split; intros ->; [unfold Spec.notes_kept | unfold Spec.notes_unset];
      cbn; repeat split.
Qed.

Lemma update_in_place_or_new_row_witness :
  let old :=
    Sample.assessment (Some 1) (Some 7) (Some 1) (Some "2024-01-31"%string)
      (Some 1) in
  let today :=
    Sample.assessment (Some 2) (Some 8) (Some 1) (Some "2025-03-07"%string)
      (Some 1) in
  (exists table',
     IRLAssessment.update Sample.a_day today false false [old; today]
     = Returns (None, table')
     /\ List.length table' = 2%nat)
  /\ (exists z row,
        IRLAssessment.update Sample.a_day old false false [old; today]
        = Returns (None, [old; today; row])
        /\ IRLAssessment.id row = Some z
        /\ IRLAssessment.project_no row = Some 7
        /\ IRLAssessment.crl_target row = Some 4
        /\ IRLAssessment.project_notes row = None).
Proof.
  intros old today. split.
  - destruct (proj1 (update_in_place_or_new_row Sample.a_day today false
                       false [old; today])) as (t' & H & Hlen & _).
    + right. reflexivity.
    + exists t'. split; assumption.
  - destruct (proj2 (update_in_place_or_new_row Sample.a_day old false
                       false [old; today]))
      as (z & row & H & Hid & _ & _ & Hc & _ & Hn).
    + reflexivity.
    + discriminate.
    + exists z, row. split; [exact H|]. split; [exact Hid|].
      destruct Hc as (Hno & _ & _ & _ & _ & (Hct & _) & _).
      destruct (Hn eq_refl) as (Hpn & _).
      repeat split; assumption.
Defined.

(** ** ap_completed *)

Lemma sum_total_progress (aps : list ActionPoint.t) :
  match Query.sum (map ActionPoint.progress aps) with
  | Some s => Spec.total_progress aps = s
  | None => Spec.total_progress aps = 0
  end.
Proof.
  induction aps as [|ap aps IH]; cbn [map Query.sum Spec.total_progress
    fold_right]; [reflexivity|].
  fold (Spec.total_progress aps).
  destruct (ActionPoint.progress ap) as [p|];
    destruct (Query.sum (map ActionPoint.progress aps)); rewrite IH;
    try reflexivity.
  now rewrite Z.add_0_r.
Qed.

(** C4. For a stored assessment, [ap_completed] is true exactly when the
    assessment is dated today, or it has no action points, or their
    progress adds up to 100 times their number. *)
Theorem ap_completed_iff (datetime2dbdate : datetime -> string)
    (now : datetime) (irl_ass_id : Z) (irl_data : list IRLAssessment.t)
    (action_points : list ActionPoint.t) (irl : IRLAssessment.t) :
  get_irl irl_ass_id irl_data = Some irl ->
  exists b,
    ap_completed datetime2dbdate now irl_ass_id irl_data action_points
    = Returns b
    /\ (b = true <->
        IRLAssessment.assessment_date irl = Some (datetime2dbdate now)
        \/ Spec.points_of irl_ass_id action_points = []
        \/ Spec.total_progress (Spec.points_of irl_ass_id action_points)
           = 100 * Z.of_nat
                     (List.length (Spec.points_of irl_ass_id action_points))).
Proof.
  intro Hirl. unfold ap_completed. rewrite Hirl.
  fold (Spec.points_of irl_ass_id action_points).
  set (aps := Spec.points_of irl_ass_id action_points).
  destruct (Null.eq_str (Some (datetime2dbdate now))
              (IRLAssessment.assessment_date irl)) eqn:Hd.
  - exists true. split; [reflexivity|]. split; [|reflexivity].
    intros _. left. apply NullFacts.eq_str_spec in Hd. now symmetry.
  - apply NullFacts.eq_str_false in Hd.
    eexists. split; [reflexivity|].
    pose proof (sum_total_progress aps) as Hs.
    rewrite orb_true_iff, Nat.eqb_eq, NullFacts.eq_int_spec, length_zero_iff_nil.
    split.
    + intros [H | H]; [|now right; left].
      right. right. rewrite <- H in Hs. lia.
    + intros [H | [H | H]]; [congruence | now right |].
      destruct (Query.sum (map ActionPoint.progress aps)) as [s|].
      * left. f_equal. lia.
      * right. apply length_zero_iff_nil. lia.
Qed.

Lemma ap_completed_iff_witness :
  let irl :=
    Sample.assessment (Some 1) (Some 7) (Some 1) (Some "2024-01-31"%string)
      (Some 1) in
  let aps :=
    [Sample.point 1 1 (Some 100); Sample.point 2 1 (Some 100);
     Sample.point 3 1 (Some 50); Sample.point 4 2 (Some 100)] in
  ap_completed IRLAssessment._getDate Sample.a_day 1 [irl] aps
  = Returns false.
Proof.
  intros irl aps.
  destruct (ap_completed_iff IRLAssessment._getDate Sample.a_day 1 [irl]
              aps irl eq_refl) as (b & H & Hb).
  rewrite H. destruct b; [|reflexivity].
  exfalso. destruct (proj1 Hb eq_refl) as [E | [E | E]]; discriminate.
Defined.

(** ** delete_assessments *)

Lemma keys_injective {R} `{Mapped R} (table : list R) x y :
  NoDup (map pk table) -> In x table -> In y table -> pk x = pk y -> x = y.
Proof.
  induction table as [|a table IH]; cbn [map In]; intros Hnd Hx Hy E;
    [contradiction|].
  inversion Hnd as [|? ? Hnotin Hnd']; subst.
  destruct Hx as [-> | Hx], Hy as [-> | Hy].
  - reflexivity.
  - exfalso. apply Hnotin. rewrite E. now apply in_map.
  - exfalso. apply Hnotin. rewrite <- E. now apply in_map.
  - now apply IH.
Qed.

Lemma keys_unique_filter {R} `{Mapped R} (p : R -> bool) (table : list R) :
  Spec.keys_unique table -> Spec.keys_unique (filter p table).
Proof.
  intros (Hnd & Hall). split.
  - clear Hall. induction table as [|a table IH]; cbn [filter map];
      [constructor|].
    inversion Hnd as [|? ? Hnotin Hnd']; subst.
    destruct (p a); cbn [map]; [|now apply IH].
    constructor; [|now apply IH].
    intro Hin. apply Hnotin. apply in_map_iff in Hin.
    destruct Hin as (x & Hx & Hin). apply filter_In in Hin.
    apply in_map_iff. exists x. tauto.
  - rewrite Forall_forall in *. intros r Hr. apply filter_In in Hr.
    now apply Hall.
Qed.

(** With unique keys, deleting the action points found for an assessment
    by their keys removes exactly the points of that assessment. *)
Lemma delete_by_key_is_delete_by_assessment (k : option Z)
    (action_points : list ActionPoint.t) :
  Spec.keys_unique action_points ->
  forall ap, In ap action_points ->
    Null.in_ (ActionPoint.ap_id ap)
      (map ActionPoint.ap_id
         (filter (fun ap => Null.eq_int (ActionPoint.assessment_id ap) k)
            action_points))
    = Null.eq_int (ActionPoint.assessment_id ap) k.
Proof.
  intros (Hnd & Hall) ap Hap.
  destruct (Null.eq_int (ActionPoint.assessment_id ap) k) eqn:E.
  - apply NullFacts.in_spec.
    rewrite Forall_forall in Hall. specialize (Hall ap Hap). cbn in Hall.
    destruct (ActionPoint.ap_id ap) as [a|] eqn:Ha; [|contradiction].
    exists a. split; [reflexivity|]. rewrite <- Ha.
    apply in_map. apply filter_In. now split.
  - destruct (Null.in_ _ _) eqn:F; [|reflexivity].
    apply NullFacts.in_spec in F. destruct F as (a & Ha & Hin).
    apply in_map_iff in Hin. destruct Hin as (ap' & Hid & Hin).
    apply filter_In in Hin. destruct Hin as (Hin & Hk).
    assert (ap' = ap).
    { apply (keys_injective action_points); try assumption.
      cbn. congruence. }
    subst. congruence.
Qed.

Lemma filter_filter {A} (p q : A -> bool) l :
  filter q (filter p l) = filter (fun x => p x && q x) l.
Proof.
  induction l as [|a l IH]; cbn [filter]; [reflexivity|].
  destruct (p a); cbn [filter andb]; [|assumption].
  destruct (q a); now rewrite IH.
Qed.

Lemma delete_assessments_loop (irl_asses : list IRLAssessment.t) :
  forall ids action_points success,
    Spec.keys_unique action_points ->
    fold_left delete_assessments_step irl_asses
      (ids, action_points, success)
    = (ids ++ map IRLAssessment.id irl_asses,
       filter (fun ap => negb (Null.py_in (ActionPoint.assessment_id ap)
                                 (map IRLAssessment.id irl_asses)))
         action_points,
       success
       && forallb (fun c => fst c =? snd c)
            (Spec.ap_delete_counts irl_asses action_points)).
Proof.
  induction irl_asses as [|a rest IH]; intros ids action_points success Hu.
  - cbn. rewrite app_nil_r, andb_true_r. f_equal. f_equal.
    symmetry. apply forallb_filter_id. now apply forallb_forall.
  - cbn [fold_left delete_assessments_step Spec.ap_delete_counts
      Query.delete map].
    set (ap_ids := map ActionPoint.ap_id
                     (filter (fun ap => Null.eq_int
                                          (ActionPoint.assessment_id ap)
                                          (IRLAssessment.id a))
                        action_points)).
    set (kept := filter (fun r => negb (Null.in_ (ActionPoint.ap_id r)
                                          ap_ids)) action_points).
    assert (Hkept : kept
                    = filter (fun ap => negb (Null.eq_int
                                                (ActionPoint.assessment_id ap)
                                                (IRLAssessment.id a)))
                        action_points).
    { apply filter_ext_in. intros ap Hap. f_equal.
      now apply delete_by_key_is_delete_by_assessment. }
    rewrite IH by (rewrite Hkept; now apply keys_unique_filter).
    cbn [forallb fst snd]. rewrite <- app_assoc. cbn [app].
    f_equal; [f_equal|].
    + rewrite Hkept, filter_filter. apply filter_ext. intro ap.
      cbn [Null.py_in existsb]. now rewrite negb_orb.
    + destruct (Z.of_nat (List.length (filter _ action_points))
                =? Z.of_nat (List.length ap_ids)); cbn [negb andb];
        [reflexivity|].
      now rewrite andb_false_r.
Qed.



(** ** add_user and validate_user *)

Lemma set_user_id_eta (o : User.t) z :
  User.user_id o = Some z -> User.set_user_id o (Some z) = o.
Proof. destruct o; simpl; intros ->; reflexivity. Qed.

Lemma set_settings_id_eta (o : UserSettings.t) z :
  UserSettings.id o = Some z -> UserSettings.set_id o (Some z) = o.
Proof. destruct o; simpl; intros ->; reflexivity. Qed.

(** C6. When the username is taken, [add_user] returns no user and leaves
    both tables as they are.  Otherwise it stores the user with the hash of
    the password and one settings row for that user with smooth_irl,
    filter_on_user, remember_project, ascending_irl and dark_mode at 1 and
    ap_table_view at 0, and returns the stored user. *)
Theorem add_user_effect (hashpw : string -> string -> string)
    (salt : string) (new_user : User.t) (password : string)
    (users : list User.t) (settings : list UserSettings.t) :
  ((exists u, In u users /\ User.username u = User.username new_user) ->
   add_user hashpw salt new_user password users settings
   = Returns (None, users, settings))
  /\ ((forall u, In u users -> User.username u <> User.username new_user) ->
      Spec.key_free (User.user_id new_user) users ->
      exists uid sid,
        ~ In (Some uid) (map User.user_id users)
        /\ ~ In (Some sid) (map UserSettings.id settings)
        /\ let stored :=
             User.set_user_id
               (User.set_password new_user (Some (hashpw password salt)))
               (Some uid) in
           add_user hashpw salt new_user password users settings
           = Returns
               (Some stored, users ++ [stored],
                settings
                ++ [UserSettings.mk (Some sid) (Some uid) (Some 1) (Some 1)
                      (Some 1) None (Some 1) (Some 0) (Some 1)])).
Proof.
  split.
  - intros (u & Hin & Hu). unfold add_user.
    destruct (Query.first _ users) as [u'|] eqn:E; [reflexivity|].
    rewrite QueryFacts.first_none in E. specialize (E u Hin). cbv beta in E.
    rewrite Hu, NullFacts.eq_str_refl in E. discriminate.
  - intros Hnew Hfree. unfold add_user.
    set (by_name := fun u : User.t =>
                      Null.eq_str (User.username u) (User.username new_user)).
    assert (E : Query.first by_name users = None).
    { apply QueryFacts.first_none. intros u Hu. unfold by_name.
      apply NullFacts.eq_str_false. now apply Hnew. }
    rewrite E.
    destruct (QueryFacts.add_key_free
                (User.set_password new_user (Some (hashpw password salt)))
                users) as (uid & Huid & Hadd).
    { intros o k. apply set_user_id_eta. }
    { exact Hfree. }
    rewrite Hadd.
    set (stored := set_pk (User.set_password new_user
                             (Some (hashpw password salt))) (Some uid)).
    rewrite (QueryFacts.first_app_last by_name users stored E)
      by (unfold by_name; apply NullFacts.eq_str_refl).
    exists uid, (Query.next_id (map UserSettings.id settings)).
    split; [exact Huid|]. split; [apply QueryFacts.next_id_fresh|].
    reflexivity.
Qed.

Lemma add_user_effect_witness :
  let hashpw := fun pw salt : string => (salt ++ pw)%string in
  let ada := Sample.some_user 9 in
  let bob :=
    User.mk None (Some "Bob"%string) (Some "bob"%string) None (Some 2)
      (Some 1) (Some 1) None None in
  add_user hashpw "$2b$" (User.set_user_id ada None) "pw" [ada] []
  = Returns (None, [ada], [])
  /\ exists uid sid,
       let stored :=
         User.set_user_id (User.set_password bob (Some "$2b$pw"%string))
           (Some uid) in
       add_user hashpw "$2b$" bob "pw" [ada] []
       = Returns
           (Some stored, [ada; stored],
            [UserSettings.mk (Some sid) (Some uid) (Some 1) (Some 1)
               (Some 1) None (Some 1) (Some 0) (Some 1)]).
Proof.
  intros hashpw ada bob. split.
  - apply (proj1 (add_user_effect hashpw "$2b$" (User.set_user_id ada None)
                    "pw" [ada] [])).
    exists ada. split; [now left | reflexivity].
  - destruct (proj2 (add_user_effect hashpw "$2b$" bob "pw" [ada] []))
      as (uid & sid & _ & _ & H).
    + intros u [<- | []]. discriminate.
    + intros z Hz. discriminate.
    + exists uid, sid. exact H.
Defined.

(** [validate_user] case by case: no user for an unknown username; for a
    stored user with a password, the user when the library verifies the
    password and no user when it does not; an AttributeError for a stored
    user whose password is unset. *)
Theorem validate_user_outcome (checkpw : string -> string -> bool)
    (user password : string) (users : list User.t) :
  ((forall u, In u users -> User.username u <> Some user) ->
   validate_user checkpw user password users = Returns None)
  /\ (forall db_user,
        Query.first
          (fun u => Null.eq_str (User.username u) (Some user)) users
        = Some db_user ->
        (forall hashed,
           User.password db_user = Some hashed ->
           validate_user checkpw user password users
           = Returns (if checkpw password hashed then Some db_user
                      else None))
        /\ (User.password db_user = None ->
            validate_user checkpw user password users
            = Raises AttributeError)).
Proof.
  split.
  - intro H. unfold validate_user.
    destruct (Query.first _ users) as [u|] eqn:E; [|reflexivity].
    apply QueryFacts.first_some in E. destruct E as (Hin & E).
    apply NullFacts.eq_str_spec in E. now apply H in Hin.
  - intros db_user E. unfold validate_user. rewrite E. split.
    + intros hashed ->. now destruct (checkpw password hashed).
    + now intros ->.
Qed.

Lemma validate_user_outcome_witness :
  let ada := User.set_password (Sample.some_user 9) (Some "secret"%string) in
  validate_user String.eqb "bob" "secret" [ada] = Returns None
  /\ validate_user String.eqb "ada" "secret" [ada] = Returns (Some ada)
  /\ validate_user String.eqb "ada" "guess" [ada] = Returns None
  /\ validate_user String.eqb "ada" "secret" [Sample.some_user 9]
     = Raises AttributeError.
Proof.
  intro ada.
  split; [|split; [|split]].
  - apply (proj1 (validate_user_outcome String.eqb "bob" "secret" [ada])).
    intros u [<- | []]. discriminate.
  - apply (proj1 (proj2 (validate_user_outcome String.eqb "ada" "secret"
                           [ada]) ada eq_refl) "secret"%string eq_refl).
  - apply (proj1 (proj2 (validate_user_outcome String.eqb "ada" "guess"
                           [ada]) ada eq_refl) "secret"%string eq_refl).
  - apply (proj2 (proj2 (validate_user_outcome String.eqb "ada" "secret"
                           [Sample.some_user 9]) (Sample.some_user 9)
                    eq_refl) eq_refl).
Defined.

(** So it is not the case that [validate_user] returns no value for every
    stored user without a password. *)
Lemma validate_user_unset_password_raises :
  ~ (forall (checkpw : string -> string -> bool) (user password : string)
       (users : list User.t) (db_user : User.t),
       Query.first (fun u => Null.eq_str (User.username u) (Some user)) users
       = Some db_user ->
       User.password db_user = None ->
       validate_user checkpw user password users = Returns None).
Proof.
  intro H.
  specialize (H String.eqb "ada"%string "secret"%string
                [Sample.some_user 9] (Sample.some_user 9) eq_refl eq_refl).
  discriminate H.
Qed.

(** C7, at the code.  For a stored user whose password is unset,
    [validate_user] is to return no value; yet with the Users table holding
    only such a user, the call raises AttributeError whatever password is
    tried and however the library verifies, and so does not return. *)
Theorem validate_user_unset_password_crashes :
  let ada := Sample.some_user 9 in
  User.username ada = Some "ada"%string
  /\ User.password ada = None
  /\ (forall (checkpw : string -> string -> bool) (password : string),
        validate_user checkpw "ada" password [ada] = Raises AttributeError)
  /\ (forall (checkpw : string -> string -> bool) (password : string),
        validate_user checkpw "ada" password [ada] <> Returns None).
Proof.
  intro ada. split; [reflexivity|]. split; [reflexivity|].
  split; intros checkpw password; [reflexivity | discriminate].
Qed.

(** ** get_action_points *)

Lemma selected_is_query (irl_ass_id : Z) (irl_type : option string)
    (action_points : list ActionPoint.t) :
  match irl_type with
  | None =>
      filter (fun ap => Null.eq_int (ActionPoint.assessment_id ap)
                          (Some irl_ass_id)) action_points
  | Some _ =>
      filter (fun ap => Null.eq_int (ActionPoint.assessment_id ap)
                          (Some irl_ass_id)
                        && Null.eq_str (ActionPoint.irl_type ap) irl_type)
        action_points
  end
  = Spec.selected irl_ass_id irl_type action_points.
Proof.
  unfold Spec.selected. destruct irl_type; [reflexivity|].
  apply filter_ext. intro ap. now rewrite andb_true_r.
Qed.

Lemma ap_row_keys (users : list User.t) (ap : ActionPoint.t) :
  keys (ap_row users ap)
  = [ "user_id"; "actual_name"; "username"; "password"; "rights"; "active";
      "org_id"; "fac_id"; "dep_id"; "ap_id"; "assessment_id"; "irl_type";
      "action_point"; "responsible"; "due_date"; "progress"; "comment"
    ]%string.
Proof. unfold ap_row. destruct (ap_user users ap); reflexivity. Qed.

Lemma union_keys_same (users : list User.t) (aps : list ActionPoint.t) :
  aps <> [] ->
  DataFrame.union_keys (map (ap_row users) aps)
  = keys (ap_row users (hd (ActionPoint.mk None None None None None None
                              None None) aps)).
Proof.
  destruct aps as [|a aps]; [congruence|]. intros _.
  unfold DataFrame.union_keys. cbn [map fold_left hd].
  rewrite !ap_row_keys. cbn [fold_left existsb String.eqb Ascii.eqb
    Bool.eqb app orb].
  induction aps as [|b aps IH]; [reflexivity|].
  cbn [map fold_left]. rewrite ap_row_keys. exact IH.
Qed.

Lemma set_column_columns (c : string) (values : list pyval)
    (df : DataFrame.t) :
  DataFrame.columns (DataFrame.set_column c values df)
  = match DataFrame.index_of c (DataFrame.columns df) with
    | Some _ => DataFrame.columns df
    | None => DataFrame.columns df ++ [c]
    end.
Proof.
  unfold DataFrame.set_column.
  now destruct (DataFrame.index_of c (DataFrame.columns df)).
Qed.

Lemma set_column_rows (c : string) (values : list pyval) (df : DataFrame.t) :
  List.length (DataFrame.rows (DataFrame.set_column c values df))
  = Nat.min (List.length (DataFrame.rows df)) (List.length values).
Proof.
  unfold DataFrame.set_column.
  destruct (DataFrame.index_of c (DataFrame.columns df));
    cbn [DataFrame.rows]; now rewrite length_map, length_combine.
Qed.

Lemma get_column_length (c : string) (df : DataFrame.t) :
  DataFrame.index_of c (DataFrame.columns df) <> None ->
  List.length (DataFrame.get_column c df) = List.length (DataFrame.rows df).
Proof.
  unfold DataFrame.get_column.
  destruct (DataFrame.index_of c (DataFrame.columns df));
    [intros _; apply length_map | congruence].
Qed.

(** The frame for no selected action point carries [Spec.empty_columns]. *)
Lemma get_action_points_none_selected (dbdate2datetime : pyval -> pyval)
    (irl_ass_id : Z) (irl_type : option string)
    (action_points : list ActionPoint.t) (users : list User.t) :
  Spec.selected irl_ass_id irl_type action_points = [] ->
  get_action_points dbdate2datetime irl_ass_id irl_type action_points users
  = DataFrame.empty Spec.empty_columns.
Proof.
  intro H. unfold get_action_points.
  rewrite selected_is_query, H. reflexivity.
Qed.

(** The frame for at least one selected action point carries
    [Spec.filled_columns] and one row per action point. *)
Lemma get_action_points_some_selected (dbdate2datetime : pyval -> pyval)
    (irl_ass_id : Z) (irl_type : option string)
    (action_points : list ActionPoint.t) (users : list User.t) :
  Spec.selected irl_ass_id irl_type action_points <> [] ->
  let df :=
    get_action_points dbdate2datetime irl_ass_id irl_type action_points
      users in
  DataFrame.columns df = Spec.filled_columns
  /\ List.length (DataFrame.rows df)
     = List.length (Spec.selected irl_ass_id irl_type action_points).
Proof.
  intro H. unfold get_action_points. rewrite selected_is_query.
  set (aps := Spec.selected irl_ass_id irl_type action_points) in *.
  set (points := map (ap_row users) aps).
  set (user_objs := map _ aps).
  assert (Hn : List.length aps <> 0%nat)
    by (now rewrite length_zero_iff_nil).
  assert (Hp : List.length points = List.length aps) by apply length_map.
  assert (Hp' : @List.length (list (string * pyval)) points
                = List.length aps) by apply length_map.
  assert (Hu : List.length user_objs = List.length aps) by apply length_map.
  assert (Hpos : (0 <? List.length points)%nat = true)
    by (apply Nat.ltb_lt; rewrite Hp; now apply Nat.neq_0_lt_0).
  rewrite Hpos.
  set (df0 := DataFrame.of_records points).
  assert (Hc0 : DataFrame.columns df0
                = [ "user_id"; "actual_name"; "username"; "password";
                    "rights"; "active"; "org_id"; "fac_id"; "dep_id";
                    "ap_id"; "assessment_id"; "irl_type"; "action_point";
                    "responsible"; "due_date"; "progress"; "comment"
                  ]%string).
  { unfold df0, DataFrame.of_records, points. cbn [DataFrame.columns].
    rewrite (union_keys_same users aps H). apply ap_row_keys. }
  assert (Hr0 : List.length (DataFrame.rows df0) = List.length aps).
  { unfold df0, DataFrame.of_records. cbn [DataFrame.rows].
    now rewrite length_map. }
  set (df1 := DataFrame.set_column "aps" (map VDict points) df0).
  assert (Hc1 : DataFrame.columns df1
                = DataFrame.columns df0 ++ ["aps"%string]).
  { unfold df1. rewrite set_column_columns, Hc0. reflexivity. }
  assert (Hr1 : List.length (DataFrame.rows df1) = List.length aps).
  { unfold df1. rewrite set_column_rows, length_map, Hr0, Hp'.
    apply Nat.min_id. }
  set (df2 := DataFrame.set_column "user_obj" user_objs df1).
  assert (Hc2 : DataFrame.columns df2 = Spec.filled_columns).
  { unfold df2. rewrite set_column_columns, Hc1, Hc0. reflexivity. }
  assert (Hr2 : List.length (DataFrame.rows df2) = List.length aps).
  { unfold df2. rewrite set_column_rows, Hr1, Hu. apply Nat.min_id. }
  set (df3 := DataFrame.set_column "due_date" _ df2).
  assert (Hc3 : DataFrame.columns df3 = Spec.filled_columns).
  { unfold df3. rewrite set_column_columns, Hc2. reflexivity. }
  assert (Hr3 : List.length (DataFrame.rows df3) = List.length aps).
  { unfold df3. rewrite set_column_rows, length_map, get_column_length.
    - rewrite Hr2. apply Nat.min_id.
    - rewrite Hc2. discriminate. }
  assert (Hz : (List.length (DataFrame.rows df3) =? 0)%nat = false)
    by (apply Nat.eqb_neq; now rewrite Hr3).
  cbv zeta. rewrite Hz. split; assumption.
Qed.

(** C9, at the code.  The frame returned when no action point is selected
    does not have the columns of a frame with action points: it has a
    column "id" where the other has "ap_id". *)
Theorem get_action_points_empty_columns_differ
    (dbdate2datetime : pyval -> pyval) (irl_ass_id : Z)
    (irl_type : option string) (none some : list ActionPoint.t)
    (users : list User.t) :
  Spec.selected irl_ass_id irl_type none = [] ->
  Spec.selected irl_ass_id irl_type some <> [] ->
  let empty_df :=
    get_action_points dbdate2datetime irl_ass_id irl_type none users in
  let filled_df :=
    get_action_points dbdate2datetime irl_ass_id irl_type some users in
  DataFrame.rows empty_df = []
  /\ DataFrame.columns empty_df <> DataFrame.columns filled_df
  /\ In "id"%string (DataFrame.columns empty_df)
  /\ ~ In "ap_id"%string (DataFrame.columns empty_df)
  /\ In "ap_id"%string (DataFrame.columns filled_df)
  /\ ~ In "id"%string (DataFrame.columns filled_df).
Proof.
  intros Hnone Hsome. cbv zeta.
  rewrite (get_action_points_none_selected dbdate2datetime irl_ass_id
             irl_type none users Hnone).
  destruct (get_action_points_some_selected dbdate2datetime irl_ass_id
              irl_type some users Hsome) as (Hc & _).
  rewrite Hc. cbn [DataFrame.empty DataFrame.rows DataFrame.columns].
  split; [reflexivity|]. split; [discriminate|].
  unfold Spec.empty_columns, Spec.filled_columns. cbn [In].
  repeat split; try tauto; intro H;
    repeat (destruct H as [H | H]; [discriminate H|]); exact H.
Qed.

Lemma get_action_points_empty_columns_differ_witness :
  let df1 :=
    get_action_points (fun v => v) 1 None [] [Sample.some_user 2] in
  let df2 :=
    get_action_points (fun v => v) 1 None [Sample.point 1 1 (Some 50)]
      [Sample.some_user 2] in
  DataFrame.rows df1 = []
  /\ DataFrame.columns df1 <> DataFrame.columns df2
  /\ In "id"%string (DataFrame.columns df1)
  /\ ~ In "ap_id"%string (DataFrame.columns df1)
  /\ In "ap_id"%string (DataFrame.columns df2)
  /\ ~ In "id"%string (DataFrame.columns df2).
Proof.
  apply (get_action_points_empty_columns_differ (fun v => v) 1 None []
           [Sample.point 1 1 (Some 50)] [Sample.some_user 2]).
  - reflexivity.
  - discriminate.
Defined.

(** ** get_projects *)

Lemma filter_true {A} (l : list A) : filter (fun _ => true) l = l.
Proof. induction l as [|a l IH]; cbn; [reflexivity | now rewrite IH]. Qed.

Lemma existsb_and_const {A} (f : A -> bool) (c : bool) (l : list A) :
  existsb (fun x => f x && c) l = existsb f l && c.
Proof.
  induction l as [|a l IH]; cbn [existsb]; [reflexivity|].
  rewrite IH. destruct (f a), c, (existsb f l); reflexivity.
Qed.

Lemma py_in_map_filter {A} (f : A -> option Z) (p : A -> bool) x l :
  Null.py_in x (map f (filter p l))
  = existsb (fun u => p u && Null.eq_int x (f u)) l.
Proof.
  unfold Null.py_in.
  induction l as [|a l IH]; cbn [filter map existsb]; [reflexivity|].
  destruct (p a); cbn [map existsb andb]; now rewrite IH.
Qed.

Lemma team_member_by_project (user : User.t) (teams : list ProjectTeam.t)
    (a b : IRLAssessment.t) :
  Null.eq_int (IRLAssessment.project_no a) (IRLAssessment.project_no b)
  = true ->
  Spec.team_member user teams a = Spec.team_member user teams b.
Proof.
  intro E. apply NullFacts.eq_int_spec in E. unfold Spec.team_member.
  now rewrite E.
Qed.

(** The second query of [get_projects] returns the rows of the first that
    belong to projects with the user on the team. *)
Lemma team_query_is_filter (user : User.t) (active : bool)
    (irl_table : list IRLAssessment.t) (teams : list ProjectTeam.t) :
  latest_per_project
    (flat_map
       (fun r =>
          flat_map
            (fun pt => if team_join user (Z.b2z active) r pt then [r]
                       else [])
            teams)
       irl_table)
  = filter (Spec.team_member user teams)
      (latest_per_project (Spec.active_rows active irl_table)).
Proof.
  unfold latest_per_project.
  rewrite (AggregateFacts.group_by_max_product IRLAssessment.project_no
             IRLAssessment.assessment_date
             (team_join user (Z.b2z active)) teams irl_table).
  rewrite <- AggregateFacts.order_by_filter.
  rewrite <- (AggregateFacts.group_by_max_filter IRLAssessment.project_no
                IRLAssessment.assessment_date (Spec.team_member user teams)
                (team_member_by_project user teams)).
  unfold Spec.active_rows. rewrite filter_filter.
  do 2 f_equal. apply filter_ext. intro r.
  unfold team_join, Spec.team_member. rewrite existsb_and_const.
  apply andb_comm.
Qed.

(** [get_projects] in general.  It returns, of the rows the first query
    fetches (per project_no the one row with the greatest assessment_date
    among the rows with the requested active flag), those that [Spec.keeps]
    keeps for the user's rights; the second query of the team branch is a
    filter of the first.  For rights 8 without [filt] these are the
    projects led by an active user of the user's organisation, and by any
    active user when the user has no organisation. *)
Theorem get_projects_narrows (user : User.t) (rights : Z)
    (filt active : bool) (irl_table : list IRLAssessment.t)
    (users : list User.t) (teams : list ProjectTeam.t) :
  User.rights user = Some rights ->
  let rows := Spec.active_rows active irl_table in
  let fetched := latest_per_project rows in
  get_projects user filt active irl_table users teams
  = Returns (filter (Spec.keeps user rights filt users teams) fetched)
  /\ NoDup (map IRLAssessment.project_no fetched)
  /\ (forall r, In r fetched ->
        In r rows
        /\ forall x, In x rows ->
             IRLAssessment.project_no x = IRLAssessment.project_no r ->
             DateOrder.leb (IRLAssessment.assessment_date x)
               (IRLAssessment.assessment_date r) = true)
  /\ (forall x, In x rows ->
        exists r, In r fetched
                  /\ IRLAssessment.project_no r = IRLAssessment.project_no x).
Proof.
  intros Hr rows fetched. split.
  - unfold get_projects. rewrite Hr.
    fold (Spec.active_rows active irl_table). fold rows. fold fetched.
    unfold Spec.keeps. cbn [Null.eq_int Null.eqb].
    destruct ((rights =? 9) && filt) eqn:E9; [reflexivity|].
    destruct (rights =? 8) eqn:E8.
    + f_equal. apply filter_ext. intro r.
      destruct filt; [reflexivity|].
      unfold get_users. cbn [Z.b2z].
      destruct (User.org_id user) as [org|] eqn:Eo;
        rewrite py_in_map_filter; reflexivity.
    + destruct (rights <=? 3) eqn:E3.
      * unfold rows, fetched. rewrite team_query_is_filter.
        destruct filt.
        -- rewrite filter_filter. reflexivity.
        -- f_equal. apply filter_ext. intro r. now rewrite andb_true_r.
      * now rewrite filter_true.
  - pose proof (AggregateFacts.group_by_max_grouped
                  IRLAssessment.project_no IRLAssessment.assessment_date
                  rows) as [Hk Hin Hmax Hall].
    pose proof (AggregateFacts.order_by_perm IRLAssessment.assessment_date
                  (Query.group_by_max IRLAssessment.project_no
                     IRLAssessment.assessment_date rows)) as Hp.
    fold (latest_per_project rows) in Hp. fold fetched in Hp.
    split; [|split].
    + apply (Permutation_NoDup (l := map IRLAssessment.project_no
                                       (Query.group_by_max
                                          IRLAssessment.project_no
                                          IRLAssessment.assessment_date
                                          rows))); [|assumption].
      apply Permutation_map. now symmetry.
    + intros r Hrf. apply (Permutation_in _ Hp) in Hrf. split; [auto|].
      intros x Hx E. now apply Hmax.
    + intros x Hx. destruct (Hall x Hx) as (a & Ha & E).
      exists a. split; [|exact E].
      apply (Permutation_in _ (Permutation_sym Hp)). exact Ha.
Qed.

Lemma get_projects_narrows_witness :
  let old :=
    Sample.assessment (Some 1) (Some 7) (Some 1) (Some "2024-01-31"%string)
      (Some 1) in
  let new :=
    Sample.assessment (Some 2) (Some 7) (Some 1) (Some "2024-06-30"%string)
      (Some 1) in
  let other :=
    Sample.assessment (Some 3) (Some 8) (Some 2) (Some "2024-03-01"%string)
      (Some 1) in
  get_projects Sample.leader false true [old; new; other]
    [Sample.superuser; Sample.leader] [Sample.membership 7 2 1]
  = Returns [new]
  /\ get_projects Sample.leader true true [old; new; other]
       [Sample.superuser; Sample.leader] [Sample.membership 7 2 1]
     = Returns []
  /\ get_projects (Sample.some_user 9) false true [old; new; other]
       [Sample.superuser; Sample.leader] [Sample.membership 7 2 1]
     = Returns [other; new].
Proof.
  intros old new other.
  destruct (get_projects_narrows Sample.leader 2 false true
              [old; new; other] [Sample.superuser; Sample.leader]
              [Sample.membership 7 2 1] eq_refl) as (H1 & _).
  destruct (get_projects_narrows Sample.leader 2 true true
              [old; new; other] [Sample.superuser; Sample.leader]
              [Sample.membership 7 2 1] eq_refl) as (H2 & _).
  destruct (get_projects_narrows (Sample.some_user 9) 9 false true
              [old; new; other] [Sample.superuser; Sample.leader]
              [Sample.membership 7 2 1] eq_refl) as (H3 & _).
  rewrite H1, H2, H3. repeat split.
Defined.

(** C1, at the code.  For rights 8 without [filt] only projects led by an
    active user of the user's organisation are to be kept; yet a user with
    rights 8 and no organisation is given a project whose leader belongs to
    organisation 5. *)
Theorem get_projects_superuser_without_organisation :
  let project :=
    Sample.assessment (Some 1) (Some 7) (Some 2) (Some "2024-01-31"%string)
      (Some 1) in
  let users := [Sample.superuser; Sample.leader] in
  get_projects Sample.superuser false true [project] users []
  = Returns [project]
  /\ ~ exists u,
         In u users
         /\ User.active u = Some 1
         /\ User.org_id u = User.org_id Sample.superuser
         /\ User.user_id u = IRLAssessment.project_leader_id project.
Proof.
  intros project users. split; [reflexivity|].
  intros (u & [<- | [<- | []]] & _ & Ho & Hl); discriminate.
Qed.

(** * More properties of base.py and rn_irl.py *)

(** ** Helpers on queries *)

Module MoreQueryFacts.

Lemma first_map {R} (p : R -> bool) (f : R -> R) (table : list R) :
  (forall r, p (f r) = p r) ->
  Query.first p (map f table) = option_map f (Query.first p table).
Proof.
  intro H. unfold Query.first.
  induction table as [|a table IH]; cbn [map find option_map];
    [reflexivity|].
  rewrite H. destruct (p a); [reflexivity | exact IH].
Qed.

Lemma first_app_old {R} (p : R -> bool) (table more : list R) r :
  Query.first p table = Some r -> Query.first p (table ++ more) = Some r.
Proof.
  unfold Query.first.
  induction table as [|a table IH]; cbn [app find]; [discriminate|].
  destruct (p a); [trivial | exact IH].
Qed.

Lemma first_app_new {R} (p : R -> bool) (table more : list R) :
  Query.first p table = None ->
  Query.first p (table ++ more) = Query.first p more.
Proof.
  unfold Query.first.
  induction table as [|a table IH]; cbn [app find]; [reflexivity|].
  destruct (p a); [discriminate | exact IH].
Qed.

(** [session.add] of an object without a key stores it under a new one. *)
Lemma add_unkeyed {R} `{Mapped R} (obj : R) (table : list R) :
  pk obj = None ->
  Query.add obj table
  = Returns (set_pk obj (Some (Query.next_id (map pk table))),
             table ++ [set_pk obj (Some (Query.next_id (map pk table)))]).
Proof. intro E. unfold Query.add. now rewrite E. Qed.

End MoreQueryFacts.

(** ** Users: lookups, passwords, rights and status *)

Lemma by_name_none (name : string) (users : list User.t) :
  (forall u, In u users -> User.username u <> Some name) ->
  Query.first (fun u => Null.eq_str (User.username u) (Some name)) users
  = None.
Proof.
  intro H. apply QueryFacts.first_none. intros u Hu.
  apply NullFacts.eq_str_false. now apply H.
Qed.

(** X1. For a username no stored user has, [is_user] answers False,
    [get_user_id] and [get_user] return None, and [has_password] raises
    instead of answering False. *)
Theorem unknown_username_lookups (name : string) (users : list User.t) :
  (forall u, In u users -> User.username u <> Some name) ->
  is_user name users = false
  /\ get_user_id name users = None
  /\ get_user (inl name) users = None
  /\ has_password name users = Raises AttributeError.
Proof.
  intro H. apply by_name_none in H.
  unfold is_user, get_user_id, get_user, has_password. rewrite H.
  repeat split.
Qed.

Lemma unknown_username_lookups_witness :
  is_user "eve" [MoreSample.ada; MoreSample.bob] = false
  /\ get_user_id "eve" [MoreSample.ada; MoreSample.bob] = None
  /\ get_user (inl "eve"%string) [MoreSample.ada; MoreSample.bob] = None
  /\ has_password "eve" [MoreSample.ada; MoreSample.bob]
     = Raises AttributeError.
Proof.
  apply (unknown_username_lookups "eve" [MoreSample.ada; MoreSample.bob]).
  intros u [<- | [<- | []]]; discriminate.
Defined.

(** X2. [has_password] tells how [validate_user] fares on the same
    username, whatever the password and however the library verifies: when
    [has_password] answers False, [validate_user] raises AttributeError;
    when [has_password] itself raises (nobody has the name),
    [validate_user] returns no user; and whenever [validate_user] returns a
    user, [has_password] answers True and the user is a stored user with
    that name whose stored hash the library verified. *)
Theorem has_password_guards_validate_user (name : string)
    (users : list User.t) :
  (has_password name users = Returns false ->
   forall (checkpw : string -> string -> bool) (password : string),
     validate_user checkpw name password users = Raises AttributeError)
  /\ (has_password name users = Raises AttributeError ->
      forall (checkpw : string -> string -> bool) (password : string),
        validate_user checkpw name password users = Returns None)
  /\ (forall (checkpw : string -> string -> bool) (password : string) u,
        validate_user checkpw name password users = Returns (Some u) ->
        has_password name users = Returns true
        /\ In u users /\ User.username u = Some name
        /\ exists hashed, User.password u = Some hashed
                          /\ checkpw password hashed = true).
Proof.
  unfold validate_user, has_password.
  destruct (Query.first _ users) as [db_user|] eqn:E.
  - apply QueryFacts.first_some in E. destruct E as (Hin & Hn).
    apply NullFacts.eq_str_spec in Hn.
    destruct (User.password db_user) as [hashed|] eqn:Hp.
    + split; [discriminate|]. split; [discriminate|].
      intros checkpw password u.
      destruct (checkpw password hashed) eqn:Hc; [|discriminate].
      intro Hu. injection Hu as <-. split; [reflexivity|].
      repeat split; try assumption. now exists hashed.
    + split; [reflexivity|]. split; discriminate.
  - split; [discriminate|]. split; [reflexivity | discriminate].
Qed.

(** The successful path of [add_user]. *)
Lemma add_user_new (hashpw : string -> string -> string) (salt : string)
    (new_user : User.t) (password : string) (users : list User.t)
    (settings : list UserSettings.t) :
  (forall u, In u users -> User.username u <> User.username new_user) ->
  Spec.key_free (User.user_id new_user) users ->
  exists uid sid,
    ~ In (Some uid) (map User.user_id users)
    /\ ~ In (Some sid) (map UserSettings.id settings)
    /\ add_user hashpw salt new_user password users settings
       = Returns
           (Some (User.set_user_id
                    (User.set_password new_user
                       (Some (hashpw password salt))) (Some uid)),
            users
            ++ [User.set_user_id
                  (User.set_password new_user (Some (hashpw password salt)))
                  (Some uid)],
            settings
            ++ [UserSettings.set_id (default_settings (Some uid))
                  (Some sid)]).
Proof.
  intros Hnew Hfree. unfold add_user.
  set (by_name := fun u : User.t =>
                    Null.eq_str (User.username u) (User.username new_user)).
  assert (E : Query.first by_name users = None).
  { apply QueryFacts.first_none. intros u Hu. unfold by_name.
    apply NullFacts.eq_str_false. now apply Hnew. }
  rewrite E.
  destruct (QueryFacts.add_key_free
              (User.set_password new_user (Some (hashpw password salt)))
              users) as (uid & Huid & Hadd).
  { intros o k. apply set_user_id_eta. }
  { exact Hfree. }
  rewrite Hadd.
  set (stored := set_pk (User.set_password new_user
                           (Some (hashpw password salt))) (Some uid)).
  rewrite (QueryFacts.first_app_last by_name users stored E)
    by (unfold by_name; apply NullFacts.eq_str_refl).
  exists uid, (Query.next_id (map UserSettings.id settings)).
  split; [exact Huid|]. split; [apply QueryFacts.next_id_fresh|].
  reflexivity.
Qed.

(** X3. A user added with [add_user] can log in: with a hash the library
    verifies, [validate_user] on the new table returns the stored user for
    the same password, and [is_user], [has_password] and [get_user_id]
    find the user. *)
Theorem add_user_then_validate (hashpw : string -> string -> string)
    (checkpw : string -> string -> bool) (salt : string)
    (new_user : User.t) (name password : string) (users : list User.t)
    (settings : list UserSettings.t) :
  checkpw password (hashpw password salt) = true ->
  User.username new_user = Some name ->
  (forall u, In u users -> User.username u <> Some name) ->
  Spec.key_free (User.user_id new_user) users ->
  exists stored users' settings',
    add_user hashpw salt new_user password users settings
    = Returns (Some stored, users', settings')
    /\ validate_user checkpw name password users' = Returns (Some stored)
    /\ is_user name users' = true
    /\ has_password name users' = Returns true
    /\ get_user_id name users' = User.user_id stored
    /\ get_user (inl name) users' = Some stored.
Proof.
  intros Hc Hname Hnew Hfree.
  destruct (add_user_new hashpw salt new_user password users settings)
    as (uid & sid & _ & _ & H).
  { rewrite Hname. exact Hnew. }
  { exact Hfree. }
  eexists. eexists. eexists. split; [exact H|].
  set (stored := User.set_user_id _ _).
  assert (F : Query.first
                (fun u => Null.eq_str (User.username u) (Some name))
                (users ++ [stored]) = Some stored).
  { apply QueryFacts.first_app_last; [now apply by_name_none|].
    cbn. rewrite Hname. apply NullFacts.eq_str_refl. }
  unfold validate_user, is_user, has_password, get_user_id, get_user.
  rewrite F. cbn [User.password stored User.set_user_id User.set_password].
  rewrite Hc. repeat split.
Qed.

Lemma add_user_then_validate_witness :
  exists stored users' settings',
    add_user MoreSample.hashpw "s2" MoreSample.newcomer "pw"
      [MoreSample.ada; MoreSample.bob] []
    = Returns (Some stored, users', settings')
    /\ validate_user MoreSample.checkpw "cy" "pw" users'
       = Returns (Some stored)
    /\ is_user "cy" users' = true
    /\ has_password "cy" users' = Returns true
    /\ get_user_id "cy" users' = User.user_id stored
    /\ get_user (inl "cy"%string) users' = Some stored.
Proof.
  apply (add_user_then_validate MoreSample.hashpw MoreSample.checkpw "s2"
           MoreSample.newcomer "cy" "pw" [MoreSample.ada; MoreSample.bob]
           []).
  - reflexivity.
  - reflexivity.
  - intros u [<- | [<- | []]]; discriminate.
  - intros z Hz. discriminate.
Defined.

(** X4. [add_user] pairs the new user with the default settings:
    when no settings row is left over for an unknown user id,
    [get_user_settings] for the new user returns the row with smooth_irl,
    filter_on_user, remember_project, ascending_irl and dark_mode at 1,
    ap_table_view at 0 and no last project. *)
Theorem add_user_then_settings (hashpw : string -> string -> string)
    (salt : string) (new_user : User.t) (password : string)
    (users : list User.t) (settings : list UserSettings.t) :
  (forall u, In u users -> User.username u <> User.username new_user) ->
  Spec.key_free (User.user_id new_user) users ->
  (forall s, In s settings ->
             In (UserSettings.user_id s) (map User.user_id users)) ->
  exists stored users' settings' sid,
    add_user hashpw salt new_user password users settings
    = Returns (Some stored, users', settings')
    /\ get_user_settings (User.user_id stored) settings'
       = Some (UserSettings.mk (Some sid) (User.user_id stored) (Some 1)
                 (Some 1) (Some 1) None (Some 1) (Some 0) (Some 1)).
Proof.
  intros Hnew Hfree Horphan.
  destruct (add_user_new hashpw salt new_user password users settings
              Hnew Hfree) as (uid & sid & Huid & _ & H).
  eexists. eexists. eexists. exists sid. split; [exact H|].
  cbn [User.user_id User.set_user_id]. unfold get_user_settings.
  apply QueryFacts.first_app_last; [|apply NullFacts.eq_int_refl].
  apply QueryFacts.first_none. intros s Hs.
  apply NullFacts.eq_int_false. intro E. apply Huid. rewrite <- E.
  now apply Horphan.
Qed.

Lemma add_user_then_settings_witness :
  exists stored users' settings' sid,
    add_user MoreSample.hashpw "s2" MoreSample.newcomer "pw"
      [MoreSample.ada; MoreSample.bob]
      [UserSettings.mk (Some 1) (Some 1) (Some 0) (Some 0) (Some 0) None
         (Some 0) (Some 1) (Some 0)]
    = Returns (Some stored, users', settings')
    /\ get_user_settings (User.user_id stored) settings'
       = Some (UserSettings.mk (Some sid) (User.user_id stored) (Some 1)
                 (Some 1) (Some 1) None (Some 1) (Some 0) (Some 1)).
Proof.
  apply (add_user_then_settings MoreSample.hashpw "s2" MoreSample.newcomer
           "pw" [MoreSample.ada; MoreSample.bob]).
  - intros u [<- | [<- | []]]; discriminate.
  - intros z Hz. discriminate.
  - intros s [<- | []]. now left.
Defined.

(** X5. After [change_user_password] the user logs in with the new
    password: for the stored user [user] found under [name], and a hash the
    library verifies, [validate_user] on the new table returns that user
    with the new hash.  No row is added or removed, no username changes,
    and users with another id keep their password. *)
Theorem change_user_password_then_validate
    (hashpw : string -> string -> string)
    (checkpw : string -> string -> bool) (salt name password : string)
    (user : User.t) (users : list User.t) :
  checkpw password (hashpw password salt) = true ->
  get_user (inl name) users = Some user ->
  exists users',
    change_user_password hashpw salt user password users = (true, users')
    /\ validate_user checkpw name password users'
       = Returns (Some (User.set_password user
                          (Some (hashpw password salt))))
    /\ map User.username users' = map User.username users
    /\ map User.user_id users' = map User.user_id users
    /\ (forall u, In u users -> User.user_id u <> User.user_id user ->
                  In u users').
Proof.
  intros Hc Hget. unfold change_user_password.
  set (f := fun u : User.t =>
              if Null.eq_int (User.user_id u) (User.user_id user)
              then User.set_password u (Some (hashpw password salt))
              else u).
  exists (map f users). split; [reflexivity|].
  assert (Hname : forall u, User.username (f u) = User.username u).
  { intro u. unfold f. now destruct Null.eq_int. }
  assert (Hid : forall u, User.user_id (f u) = User.user_id u).
  { intro u. unfold f. now destruct Null.eq_int. }
  split; [|split; [|split]].
  - unfold validate_user. cbn [get_user] in Hget.
    rewrite (MoreQueryFacts.first_map
               (fun u => Null.eq_str (User.username u) (Some name)) f users)
      by (intro u; now rewrite Hname).
    rewrite Hget. cbn [option_map]. unfold f.
    rewrite NullFacts.eq_int_refl. cbn [User.password User.set_password].
    now rewrite Hc.
  - rewrite map_map. apply map_ext. exact Hname.
  - rewrite map_map. apply map_ext. exact Hid.
  - intros u Hu Hne. apply in_map_iff. exists u. split; [|exact Hu].
    unfold f. apply NullFacts.eq_int_false in Hne. now rewrite Hne.
Qed.

Lemma change_user_password_then_validate_witness :
  exists users',
    change_user_password MoreSample.hashpw "s9" MoreSample.bob "first"
      [MoreSample.ada; MoreSample.bob]
    = (true, users')
    /\ validate_user MoreSample.checkpw "bob" "first" users'
       = Returns (Some (User.set_password MoreSample.bob
                          (Some (MoreSample.hashpw "first" "s9"))))
    /\ In MoreSample.ada users'.
Proof.
  destruct (change_user_password_then_validate MoreSample.hashpw
              MoreSample.checkpw "s9" "bob" "first" MoreSample.bob
              [MoreSample.ada; MoreSample.bob] eq_refl eq_refl)
    as (users' & H & Hv & _ & _ & Hkeep).
  exists users'. split; [exact H|]. split; [exact Hv|].
  apply Hkeep; [now left | discriminate].
Defined.

(** X6. [change_user_rights] rewrites the rights of the user with the
    given id and nothing else: [get_user] by that id then returns the
    stored user with the new rights, every other column of every row is as
    before, and users with another id are untouched. *)
Theorem change_user_rights_then_get_user (user stored : User.t) (uid : Z)
    (rights : Z) (users : list User.t) :
  User.user_id user = Some uid ->
  get_user (inr uid) users = Some stored ->
  exists users',
    change_user_rights user rights users = (true, users')
    /\ get_user (inr uid) users'
       = Some (Setters.user_rights stored (Some rights))
    /\ map (fun u => (User.user_id u, User.actual_name u, User.username u,
                      User.password u, User.active u, User.org_id u,
                      User.fac_id u, User.dep_id u)) users'
       = map (fun u => (User.user_id u, User.actual_name u, User.username u,
                        User.password u, User.active u, User.org_id u,
                        User.fac_id u, User.dep_id u)) users
    /\ (forall u, In u users -> User.user_id u <> Some uid -> In u users').
Proof.
  intros Huid Hget. unfold change_user_rights. rewrite Huid.
  set (f := fun u : User.t =>
              if Null.eq_int (User.user_id u) (Some uid)
              then Setters.user_rights u (Some rights) else u).
  exists (map f users). split; [reflexivity|].
  split; [|split].
  - cbn [get_user] in *.
    rewrite (MoreQueryFacts.first_map
               (fun u => Null.eq_int (User.user_id u) (Some uid)) f users).
    + rewrite Hget. cbn [option_map]. unfold f.
      apply QueryFacts.first_some in Hget. destruct Hget as (_ & E).
      now rewrite E.
    + intro u. unfold f.
      destruct (Null.eq_int (User.user_id u) (Some uid)) eqn:E;
        cbn [User.user_id Setters.user_rights]; now rewrite ?E.
  - rewrite map_map. apply map_ext. intro u. unfold f.
    now destruct (Null.eq_int (User.user_id u) _).
  - intros u Hu Hne. apply in_map_iff. exists u. split; [|exact Hu].
    unfold f. apply NullFacts.eq_int_false in Hne. now rewrite Hne.
Qed.

Lemma change_user_rights_then_get_user_witness :
  exists users',
    change_user_rights MoreSample.bob 8 [MoreSample.ada; MoreSample.bob]
    = (true, users')
    /\ option_map User.rights (get_user (inr 2) users') = Some (Some 8)
    /\ In MoreSample.ada users'.
Proof.
  destruct (change_user_rights_then_get_user MoreSample.bob MoreSample.bob
              2 8 [MoreSample.ada; MoreSample.bob] eq_refl eq_refl)
    as (users' & H & Hg & _ & Hkeep).
  exists users'. split; [exact H|]. split.
  - now rewrite Hg.
  - apply Hkeep; [now left | discriminate].
Defined.

(** X7. [change_user_status] deletes nobody and flags exactly the named
    users: the user ids stay as they were, every stored user whose username
    is in the list is afterwards returned by [get_users] for the new status
    and by no [get_users] for the other status, and users not in the list
    are untouched. *)
Theorem change_user_status_flags_named (names : list string) (active : bool)
    (users : list User.t) :
  exists users',
    change_user_status names active users = (true, users')
    /\ map User.user_id users' = map User.user_id users
    /\ (forall u n, In u users -> User.username u = Some n -> In n names ->
          In (Setters.user_active u (Some (Z.b2z active)))
            (get_users active None users'))
    /\ (forall u n org, In u (get_users (negb active) org users') ->
          User.username u = Some n -> ~ In n names)
    /\ (forall u, In u users ->
          (forall n, User.username u = Some n -> ~ In n names) ->
          In u users').
Proof.
  unfold change_user_status.
  set (named := fun u : User.t =>
                  match User.username u with
                  | Some n => existsb (String.eqb n) names
                  | None => false
                  end).
  set (f := fun u : User.t =>
              if named u then Setters.user_active u (Some (Z.b2z active))
              else u).
  assert (Hnamed : forall u n, User.username u = Some n ->
                               (named u = true <-> In n names)).
  { intros u n E. unfold named. rewrite E, existsb_exists. split.
    - intros (x & Hx & Ex). apply String.eqb_eq in Ex. now subst.
    - intro Hn. exists n. split; [exact Hn | apply String.eqb_refl]. }
  exists (map f users). split; [reflexivity|].
  split; [|split; [|split]].
  - rewrite map_map. apply map_ext. intro u. unfold f.
    now destruct (named u).
  - intros u n Hu En Hn. unfold get_users. apply filter_In. split.
    + apply in_map_iff. exists u. split; [|exact Hu]. unfold f.
      now rewrite (proj2 (Hnamed u n En) Hn).
    + cbn. apply Z.eqb_refl.
  - intros u n org Hu En Hn.
    assert (Hflag : In u (map f users)
                    /\ User.active u = Some (Z.b2z (negb active))).
    { unfold get_users in Hu. destruct org; apply filter_In in Hu;
        destruct Hu as (Hin & Hb); split; try assumption.
      - apply andb_true_iff in Hb. destruct Hb as (Hb & _).
        now apply NullFacts.eq_int_spec in Hb.
      - now apply NullFacts.eq_int_spec in Hb. }
    destruct Hflag as (Hin & Hflag). apply in_map_iff in Hin.
    destruct Hin as (u0 & <- & Hu0). unfold f in *.
    destruct (named u0) eqn:Hn0.
    + cbn in Hflag. destruct active; discriminate.
    + apply (Hnamed u0 n En) in Hn. congruence.
  - intros u Hu Hnot. apply in_map_iff. exists u. split; [|exact Hu].
    unfold f. destruct (named u) eqn:Hn; [|reflexivity].
    exfalso. destruct (User.username u) as [n|] eqn:En.
    + apply (Hnot n eq_refl). now apply (Hnamed u n En).
    + unfold named in Hn. rewrite En in Hn. discriminate.
Qed.

(** ** Assessments and projects *)

Lemma is_project_stored (n : option Z) (table : list IRLAssessment.t) :
  is_project n table = true <-> Spec.project_stored n table.
Proof.
  rewrite project_stored_first. unfold is_project.
  destruct (Query.first _ table) as [r|]; split.
  - intros _. now exists r.
  - reflexivity.
  - discriminate.
  - intros (r & Hr). discriminate.
Qed.

(** X8. Whenever [insert] returns, it returned the error exactly if
    [is_project] was already True for the project number; afterwards
    [is_project] is True, and after the error-free case [get_irl] finds
    the stored object under its new id. *)
Theorem insert_then_lookup (now : datetime) (self self' : IRLAssessment.t)
    (table table' : list IRLAssessment.t) (error : option string) :
  IRLAssessment.insert now self table = Returns (error, self', table') ->
  (error <> None
   <-> is_project (IRLAssessment.project_no self) table = true)
  /\ is_project (IRLAssessment.project_no self) table' = true
  /\ (error = None ->
      exists z, IRLAssessment.id self' = Some z
                /\ ~ In (Some z) (map IRLAssessment.id table)
                /\ get_irl z table' = Some self'
                /\ table' = table ++ [self']).
Proof.
  unfold IRLAssessment.insert, is_project.
  set (stamped := IRLAssessment.set_assessment_date self _).
  change (IRLAssessment.project_no stamped)
    with (IRLAssessment.project_no self).
  destruct (Query.first _ table) as [r|] eqn:E.
  - intro H. injection H as <- <- <-.
    split; [split; [reflexivity | discriminate]|].
    split; [now rewrite E | discriminate].
  - unfold Query.add. cbn [pk IRLAssessment.mapped].
    assert (Hlast : forall row : IRLAssessment.t,
               IRLAssessment.project_no row = IRLAssessment.project_no self ->
               Query.first
                 (fun r => Null.eq_int (IRLAssessment.project_no r)
                             (IRLAssessment.project_no self))
                 (table ++ [row]) = Some row).
    { intros row Hrow. apply QueryFacts.first_app_last; [exact E|].
      rewrite Hrow. apply NullFacts.eq_int_refl. }
    assert (Hget : forall (row : IRLAssessment.t) z,
               IRLAssessment.id row = Some z ->
               ~ In (Some z) (map IRLAssessment.id table) ->
               get_irl z (table ++ [row]) = Some row).
    { intros row z Hid Hz. unfold get_irl.
      apply QueryFacts.first_app_last.
      - apply QueryFacts.first_none. intros r Hr.
        apply NullFacts.eq_int_false. intro Er. apply Hz. rewrite <- Er.
        now apply in_map.
      - rewrite Hid. apply NullFacts.eq_int_refl. }
    destruct (IRLAssessment.id stamped) as [k|] eqn:Hk.
    + destruct (Null.in_ (Some k) (map IRLAssessment.id table)) eqn:Hin;
        [discriminate|].
      intro H. injection H as <- <- <-.
      split; [split; [congruence | discriminate]|].
      split; [now rewrite Hlast|]. intros _. exists k.
      assert (Hfree : ~ In (Some k) (map IRLAssessment.id table)).
      { intro Hc. assert (Null.in_ (Some k) (map IRLAssessment.id table)
                          = true); [|congruence].
        apply NullFacts.in_spec. now exists k. }
      repeat split; try assumption. now apply Hget.
    + intro H. injection H as <- <- <-.
      split; [split; [congruence | discriminate]|].
      split; [now rewrite Hlast|]. intros _.
      exists (Query.next_id (map IRLAssessment.id table)).
      split; [reflexivity|].
      split; [apply QueryFacts.next_id_fresh|].
      split; [|reflexivity].
      apply Hget; [reflexivity | apply QueryFacts.next_id_fresh].
Qed.

Lemma insert_then_lookup_witness :
  let stored :=
    Sample.assessment (Some 1) (Some 7) (Some 1) (Some "2024-01-31"%string)
      (Some 0) in
  let self := Sample.assessment None (Some 8) (Some 2) None (Some 1) in
  let row :=
    IRLAssessment.set_id
      (IRLAssessment.set_assessment_date self (Some "2025-03-07"%string))
      (Some 2) in
  IRLAssessment.insert Sample.a_day self [stored]
  = Returns (None, row, [stored; row])
  /\ is_project (Some 8) [stored] = false
  /\ is_project (Some 8) [stored; row] = true
  /\ get_irl 2 [stored; row] = Some row.
Proof.
  intros stored self row.
  destruct (insert_then_lookup Sample.a_day self row [stored] [stored; row]
              None eq_refl) as (Herr & Hafter & Hget).
  split; [reflexivity|]. split; [reflexivity|]. split; [exact Hafter|].
  destruct (Hget eq_refl) as (z & Hz & _ & Hg & _).
  injection Hz as <-. exact Hg.
Defined.

(** X9. [irl_ass_changed] compares the six levels and the project
    description with the stored row and nothing else: for an object whose
    id is stored it answers False exactly when these seven fields agree
    with the first row under that id, so a change of notes, targets or any
    other column alone goes unreported; when no row has the id it raises. *)
Theorem irl_ass_changed_iff (irl_ass : IRLAssessment.t)
    (irl_data : list IRLAssessment.t) :
  (forall z db_irl_ass,
     IRLAssessment.id irl_ass = Some z ->
     get_irl z irl_data = Some db_irl_ass ->
     exists b,
       irl_ass_changed irl_ass irl_data = Returns b
       /\ (b = false <->
           IRLAssessment.crl db_irl_ass = IRLAssessment.crl irl_ass
           /\ IRLAssessment.trl db_irl_ass = IRLAssessment.trl irl_ass
           /\ IRLAssessment.brl db_irl_ass = IRLAssessment.brl irl_ass
           /\ IRLAssessment.iprl db_irl_ass = IRLAssessment.iprl irl_ass
           /\ IRLAssessment.tmrl db_irl_ass = IRLAssessment.tmrl irl_ass
           /\ IRLAssessment.frl db_irl_ass = IRLAssessment.frl irl_ass
           /\ IRLAssessment.project_description db_irl_ass
              = IRLAssessment.project_description irl_ass))
  /\ ((forall r, In r irl_data ->
                 IRLAssessment.id r <> IRLAssessment.id irl_ass) ->
      irl_ass_changed irl_ass irl_data = Raises AttributeError).
Proof.
  split.
  - intros z db Hid Hget. unfold irl_ass_changed. rewrite Hid.
    unfold get_irl in Hget. rewrite Hget.
    eexists. split; [reflexivity|].
    rewrite !orb_false_iff, !negb_false_iff, !NullFacts.eq_int_spec,
      NullFacts.eq_str_spec.
    tauto.
  - intro H. unfold irl_ass_changed.
    assert (E : Query.first
                  (fun r => Null.eq_int (IRLAssessment.id r)
                              (IRLAssessment.id irl_ass)) irl_data = None).
    { apply QueryFacts.first_none. intros r Hr.
      apply NullFacts.eq_int_false. now apply H. }
    now rewrite E.
Qed.

Lemma irl_ass_changed_iff_witness :
  let stored :=
    Sample.assessment (Some 1) (Some 7) (Some 1) (Some "2024-01-31"%string)
      (Some 1) in
  let redated :=
    IRLAssessment.set_assessment_date stored (Some "2030-01-01"%string) in
  irl_ass_changed redated [stored] = Returns false
  /\ irl_ass_changed (IRLAssessment.set_id stored (Some 5)) [stored]
     = Raises AttributeError.
Proof.
  intros stored edited. split.
  - destruct (proj1 (irl_ass_changed_iff edited [stored]) 1 stored eq_refl
                eq_refl) as (b & H & Hb).
    rewrite H. f_equal. apply Hb. repeat split.
  - apply (proj2 (irl_ass_changed_iff (IRLAssessment.set_id stored (Some 5))
                    [stored])).
    intros r [<- | []]. discriminate.
Defined.

(** X10. Saving clears the change flag: after [update] with [overwrite]
    set (or on the day of the assessment) for an object whose id is stored,
    [irl_ass_changed] on the new table answers False. *)
Theorem update_then_unchanged (now : datetime) (self : IRLAssessment.t)
    (overwrite keep_ass_notes : bool) (table : list IRLAssessment.t) :
  (exists r, In r table /\ IRLAssessment.id r = IRLAssessment.id self) ->
  overwrite = true
  \/ IRLAssessment.assessment_date self = Some (IRLAssessment._getDate now) ->
  exists table',
    IRLAssessment.update now self overwrite keep_ass_notes table
    = Returns (None, table')
    /\ irl_ass_changed self table' = Returns false.
Proof.
  intros (r & Hin & Hid) H.
  assert (E : overwrite
              || Null.eq_str (Some (IRLAssessment._getDate now))
                   (IRLAssessment.assessment_date self) = true).
  { destruct H as [-> | H]; [reflexivity|].
    rewrite H, NullFacts.eq_str_refl. apply orb_true_r. }
  unfold IRLAssessment.update. rewrite E.
  eexists. split; [reflexivity|].
  unfold irl_ass_changed, Query.update_all.
  set (p := fun r => Null.eq_int (IRLAssessment.id r)
                       (IRLAssessment.id self)).
  rewrite (MoreQueryFacts.first_map p (fun r => if p r then self else r)).
  - destruct (Query.first p table) as [r0|] eqn:F.
    + apply QueryFacts.first_some in F. destruct F as (_ & F).
      cbn [option_map]. rewrite F.
      now rewrite !NullFacts.eq_int_refl, NullFacts.eq_str_refl.
    + rewrite QueryFacts.first_none in F. specialize (F r Hin).
      unfold p in F. rewrite Hid, NullFacts.eq_int_refl in F. discriminate.
  - intro r0. destruct (p r0) eqn:F; [|exact F].
    unfold p. apply NullFacts.eq_int_refl.
Qed.

Lemma update_then_unchanged_witness :
  let stored :=
    Sample.assessment (Some 1) (Some 7) (Some 1) (Some "2024-01-31"%string)
      (Some 1) in
  let edited :=
    IRLAssessment.mk (Some 1) (Some 7) (Some "Demo"%string) (Some 1)
      (Some "Rewritten"%string) (Some "2024-01-31"%string) None
      (Some 9) (Some 9) (Some 9) (Some 9) (Some 9) (Some 9)
      None None None None None None None None None None None None
      None None None None None None None None None None None None
      (Some 0) (Some 1) in
  irl_ass_changed edited [stored] = Returns true
  /\ exists table',
       IRLAssessment.update Sample.a_day edited true false [stored]
       = Returns (None, table')
       /\ irl_ass_changed edited table' = Returns false.
Proof.
  intros stored edited. split; [reflexivity|].
  apply (update_then_unchanged Sample.a_day edited true false [stored]).
  - exists stored. split; [now left | reflexivity].
  - now left.
Defined.

(** *** The history of a project *)

Module HistoryFacts.

Section Ordering.
Context {R : Type}.
Variable date : R -> option string.

Lemma place_before_last y s x :
  DateOrder.leb (date y) (date x) = true ->
  Query.place date y (s ++ [x]) = Query.place date y s ++ [x].
Proof.
  intro H. induction s as [|a s IH]; cbn [app Query.place].
  - now rewrite H.
  - destruct (DateOrder.leb (date y) (date a)); [reflexivity|].
    now rewrite IH.
Qed.

Lemma order_by_latest_last l x :
  (forall y, In y l -> DateOrder.leb (date y) (date x) = true) ->
  Query.order_by date (l ++ [x]) = Query.order_by date l ++ [x].
Proof.
  unfold Query.order_by. induction l as [|a l IH]; intro H;
    cbn [app fold_right]; [reflexivity|].
  rewrite IH by (intros y Hy; apply H; now right).
  apply place_before_last. apply H. now left.
Qed.

Lemma sorted_last_greatest s r :
  StronglySorted (fun a b => DateOrder.leb (date a) (date b) = true)
    (s ++ [r]) ->
  forall x, In x (s ++ [r]) -> DateOrder.leb (date x) (date r) = true.
Proof.
  induction s as [|a s IH]; cbn [app]; intros H x Hx.
  - destruct Hx as [<- | []]. apply DateOrderFacts.leb_refl.
  - inversion H as [|? ? Hs Ha]; subst. destruct Hx as [<- | Hx].
    + rewrite Forall_forall in Ha. apply Ha. apply in_app_iff.
      right. now left.
    + now apply IH.
Qed.

End Ordering.

End HistoryFacts.

Lemma history_rows (n : Z) (irl_data : list IRLAssessment.t) r :
  In r (get_project_history n irl_data)
  <-> In r irl_data /\ IRLAssessment.project_no r = Some n.
Proof.
  unfold get_project_history. split.
  - intro H.
    apply (Permutation_in _ (AggregateFacts.order_by_perm _ _)) in H.
    apply filter_In in H. now rewrite NullFacts.eq_int_spec in H.
  - intro H.
    apply (Permutation_in _ (Permutation_sym
                               (AggregateFacts.order_by_perm _ _))).
    apply filter_In. now rewrite NullFacts.eq_int_spec.
Qed.

(** X11. [get_project_history] returns the stored rows of the project,
    each as often as it is stored and no other row, in ascending order of
    assessment date. *)
Theorem get_project_history_chronological (n : Z)
    (irl_data : list IRLAssessment.t) :
  Permutation (get_project_history n irl_data)
    (filter (fun r => Null.eq_int (IRLAssessment.project_no r) (Some n))
       irl_data)
  /\ StronglySorted
       (fun a b => DateOrder.leb (IRLAssessment.assessment_date a)
                     (IRLAssessment.assessment_date b) = true)
       (get_project_history n irl_data)
  /\ (forall r, In r (get_project_history n irl_data)
                <-> In r irl_data /\ IRLAssessment.project_no r = Some n).
Proof.
  split; [apply AggregateFacts.order_by_perm|].
  split; [apply AggregateFacts.order_by_sorted|].
  intro r. apply history_rows.
Qed.

(** X12. [get_irl_ass_id] raises IndexError exactly for a project number
    [is_project] does not know; otherwise it returns the id of a stored row
    of the project whose assessment date no other row of the project
    exceeds. *)
Theorem get_irl_ass_id_latest (n : Z) (irl_data : list IRLAssessment.t) :
  (get_irl_ass_id n irl_data = IndexError
   <-> is_project (Some n) irl_data = false)
  /\ (forall i, get_irl_ass_id n irl_data = Item i ->
        exists r,
          In r irl_data /\ IRLAssessment.project_no r = Some n
          /\ IRLAssessment.id r = i
          /\ forall x, In x irl_data ->
               IRLAssessment.project_no x = Some n ->
               DateOrder.leb (IRLAssessment.assessment_date x)
                 (IRLAssessment.assessment_date r) = true).
Proof.
  unfold get_irl_ass_id. fold (get_project_history n irl_data).
  destruct (rev (get_project_history n irl_data)) as [|r rest] eqn:E.
  - apply (f_equal (@rev _)) in E. rewrite rev_involutive in E. cbn in E.
    split; [|discriminate]. split; [|reflexivity]. intros _.
    destruct (is_project (Some n) irl_data) eqn:F; [|reflexivity].
    apply is_project_stored in F. destruct F as (x & Hx & Hn).
    assert (H : In x (get_project_history n irl_data))
      by (now apply history_rows).
    rewrite E in H. destruct H.
  - apply (f_equal (@rev _)) in E. rewrite rev_involutive in E.
    cbn [rev] in E.
    assert (Hr : In r (get_project_history n irl_data))
      by (rewrite E; apply in_app_iff; right; now left).
    apply history_rows in Hr. destruct Hr as (Hin & Hn).
    split.
    + split; [discriminate|]. intro F. exfalso.
      assert (G : is_project (Some n) irl_data = true)
        by (apply is_project_stored; now exists r).
      congruence.
    + intros i Hi. injection Hi as <-. exists r.
      repeat split; try assumption. intros x Hx Hxn.
      apply (HistoryFacts.sorted_last_greatest
               IRLAssessment.assessment_date (rev rest) r).
      * rewrite <- E. apply AggregateFacts.order_by_sorted.
      * rewrite <- E. now apply history_rows.
Qed.

(** X13. A new assessment row becomes the current one: when [update]
    appends a row for project [n] and every stored row of the project is
    dated before today, [get_irl_ass_id] returns the new row's id and
    [get_project_history] is the old history followed by the new row. *)
Theorem update_new_row_is_latest (now : datetime) (self : IRLAssessment.t)
    (n : Z) (keep_ass_notes : bool) (table : list IRLAssessment.t) :
  IRLAssessment.project_no self = Some n ->
  IRLAssessment.assessment_date self
  <> Some (IRLAssessment._getDate now) ->
  (forall x, In x table -> IRLAssessment.project_no x = Some n ->
             DateOrder.ltb (IRLAssessment.assessment_date x)
               (Some (IRLAssessment._getDate now)) = true) ->
  exists z row,
    IRLAssessment.update now self false keep_ass_notes table
    = Returns (None, table ++ [row])
    /\ IRLAssessment.id row = Some z
    /\ get_irl_ass_id n (table ++ [row]) = Item (Some z)
    /\ get_project_history n (table ++ [row])
       = get_project_history n table ++ [row].
Proof.
  intros Hn Hdate Hold.
  assert (E : Null.eq_str (Some (IRLAssessment._getDate now))
                (IRLAssessment.assessment_date self) = false).
  { apply NullFacts.eq_str_false. congruence. }
  unfold IRLAssessment.update. rewrite E. cbn [orb].
  rewrite MoreQueryFacts.add_unkeyed by reflexivity.
  set (row := set_pk _ _).
  exists (Query.next_id (map pk table)), row.
  split; [reflexivity|]. split; [reflexivity|].
  assert (Hrow : Null.eq_int (IRLAssessment.project_no row) (Some n) = true).
  { cbn. rewrite Hn. apply Z.eqb_refl. }
  assert (Hh : get_project_history n (table ++ [row])
               = get_project_history n table ++ [row]).
  { unfold get_project_history. rewrite filter_app. cbn [filter].
    rewrite Hrow. apply HistoryFacts.order_by_latest_last.
    intros y Hy. apply filter_In in Hy. destruct Hy as (Hy & Hyn).
    apply NullFacts.eq_int_spec in Hyn.
    apply DateOrderFacts.ltb_leb. now apply Hold. }
  split; [|exact Hh].
  unfold get_irl_ass_id. fold (get_project_history n (table ++ [row])).
  rewrite Hh, rev_app_distr. reflexivity.
Qed.

Lemma update_new_row_is_latest_witness :
  let old :=
    Sample.assessment (Some 1) (Some 7) (Some 1) (Some "2024-01-31"%string)
      (Some 1) in
  let other :=
    Sample.assessment (Some 2) (Some 8) (Some 1) (Some "2030-01-01"%string)
      (Some 1) in
  get_irl_ass_id 7 [old; other] = Item (Some 1)
  /\ exists z row,
       IRLAssessment.update Sample.a_day old false true [old; other]
       = Returns (None, [old; other; row])
       /\ IRLAssessment.id row = Some z
       /\ get_irl_ass_id 7 [old; other; row] = Item (Some z)
       /\ get_project_history 7 [old; other; row] = [old; row].
Proof.
  intros old other. split; [reflexivity|].
  apply (update_new_row_is_latest Sample.a_day old 7 true [old; other]).
  - reflexivity.
  - discriminate.
  - intros x [<- | [<- | []]]; [reflexivity | discriminate].
Defined.

(** *** Project status *)

Lemma Forall2_map_pointwise {A} (P : A -> A -> Prop) (f : A -> A)
    (l : list A) :
  (forall x, In x l -> P x (f x)) -> Forall2 P l (map f l).
Proof.
  induction l as [|a l IH]; intro H; cbn [map]; constructor.
  - apply H. now left.
  - apply IH. intros x Hx. apply H. now right.
Qed.

(** X14. [change_project_status] changes only the active flag, and only
    of the listed projects: row by row, every other column is as before, a
    row of a listed project carries the new flag, and a row of no listed
    project is untouched; no row is added or dropped.  Once projects are
    given a status, [get_projects] for the opposite status returns no row
    of any of them, whatever the user's rights: projects set inactive are
    gone from the active list. *)
Theorem change_project_status_hides (projects : list IRLAssessment.t)
    (active : bool) (irl_data : list IRLAssessment.t) (user : User.t)
    (rights : Z) (filt : bool) (users : list User.t)
    (teams : list ProjectTeam.t) :
  User.rights user = Some rights ->
  exists irl_data' shown,
    change_project_status projects active irl_data = (true, irl_data')
    /\ map IRLAssessment.id irl_data' = map IRLAssessment.id irl_data
    /\ map IRLAssessment.project_no irl_data'
       = map IRLAssessment.project_no irl_data
    /\ Forall2
         (fun r r' =>
            r' = Setters.irl_active r (IRLAssessment.active r')
            /\ ((exists p n, In p projects
                             /\ IRLAssessment.project_no p = Some n
                             /\ IRLAssessment.project_no r = Some n) ->
                IRLAssessment.active r' = Some (Z.b2z active))
            /\ ((forall p n, In p projects ->
                             IRLAssessment.project_no p = Some n ->
                             IRLAssessment.project_no r <> Some n) ->
                r' = r))
         irl_data irl_data'
    /\ get_projects user filt (negb active) irl_data' users teams
       = Returns shown
    /\ forall r p n,
         In r shown -> In p projects ->
         IRLAssessment.project_no p = Some n ->
         IRLAssessment.project_no r <> Some n.
Proof.
  intro Hr. unfold change_project_status.
  set (nos := map IRLAssessment.project_no projects).
  set (f := fun r : IRLAssessment.t =>
              if Null.in_ (IRLAssessment.project_no r) nos
              then Setters.irl_active r (Some (Z.b2z active)) else r).
  assert (Hlisted : forall r,
             Null.in_ (IRLAssessment.project_no r) nos = true
             <-> exists p n, In p projects
                             /\ IRLAssessment.project_no p = Some n
                             /\ IRLAssessment.project_no r = Some n).
  { intro r. rewrite NullFacts.in_spec. unfold nos. split.
    - intros (n & Hn & Hin). apply in_map_iff in Hin.
      destruct Hin as (p & Hp & Hin). now exists p, n.
    - intros (p & n & Hin & Hp & Hn). exists n. split; [exact Hn|].
      rewrite <- Hp. now apply in_map. }
  destruct (get_projects_narrows user rights filt (negb active)
              (map f irl_data) users teams Hr) as (Hget & _ & Hrows & _).
  eexists. eexists. split; [reflexivity|].
  split; [|split; [|split; [|split; [exact Hget|]]]].
  - rewrite map_map. apply map_ext. intro r. unfold f.
    now destruct (Null.in_ _ nos).
  - rewrite map_map. apply map_ext. intro r. unfold f.
    now destruct (Null.in_ _ nos).
  - apply Forall2_map_pointwise. intros r _. unfold f.
    destruct (Null.in_ (IRLAssessment.project_no r) nos) eqn:F.
    + split; [reflexivity|]. split; [reflexivity|].
      intro Hnot. apply Hlisted in F. destruct F as (p & n & Hp & Hpn & Hn).
      exfalso. now apply (Hnot p n).
    + split; [now destruct r|]. split; [|reflexivity].
      intro Hl. apply Hlisted in Hl. congruence.
  - intros r p n Hshown Hp Hpn Hrn. apply filter_In in Hshown.
    destruct Hshown as (Hfetched & _).
    destruct (Hrows r Hfetched) as (Hin & _).
    unfold Spec.active_rows in Hin. apply filter_In in Hin.
    destruct Hin as (Hin & Hact). apply in_map_iff in Hin.
    destruct Hin as (r0 & <- & Hr0). unfold f in Hact, Hrn.
    destruct (Null.in_ (IRLAssessment.project_no r0) nos) eqn:F.
    + cbn in Hact. destruct active; discriminate.
    + assert (G : Null.in_ (IRLAssessment.project_no r0) nos = true);
        [|congruence].
      apply Hlisted. now exists p, n.
Qed.

Lemma change_project_status_hides_witness :
  let seven :=
    Sample.assessment (Some 1) (Some 7) (Some 1) (Some "2024-01-31"%string)
      (Some 1) in
  let eight :=
    Sample.assessment (Some 2) (Some 8) (Some 1) (Some "2024-03-01"%string)
      (Some 1) in
  get_projects (Sample.some_user 9) false true [seven; eight] [] []
  = Returns [seven; eight]
  /\ exists irl_data' shown,
       change_project_status [seven] false [seven; eight] = (true, irl_data')
       /\ irl_data' = [Setters.irl_active seven (Some 0); eight]
       /\ get_projects (Sample.some_user 9) false true irl_data' [] []
          = Returns shown
       /\ forall r, In r shown -> IRLAssessment.project_no r <> Some 7.
Proof.
  intros seven eight. split; [reflexivity|].
  destruct (change_project_status_hides [seven] false [seven; eight]
              (Sample.some_user 9) 9 false [] [] eq_refl)
    as (irl_data' & shown & H & _ & _ & Hrows & Hget & Hhide).
  exists irl_data', shown. split; [exact H|].
  split; [now injection H as <-|]. split; [exact Hget|].
  intros r Hr. apply (Hhide r seven 7 Hr); [now left | reflexivity].
Defined.

(** ** Project teams *)

Lemma add_project_team_appends (project_no : option Z) (team : list User.t) :
  forall teams,
    exists added,
      fold_left
        (fun acc user =>
           match acc with
           | Raises e => Raises e
           | Returns table =>
               match Query.add
                       (ProjectTeam.mk None project_no (User.user_id user)
                          (User.rights user) (Some 1)) table with
               | Returns (_, table') => Returns table'
               | Raises e => Raises e
               end
           end)
        team (Returns teams)
      = Returns (teams ++ added)
      /\ List.length added = List.length team
      /\ (forall user, In user team ->
            exists pt, In pt added
                       /\ ProjectTeam.project_id pt = project_no
                       /\ ProjectTeam.user_id pt = User.user_id user
                       /\ ProjectTeam.project_rights pt = User.rights user
                       /\ ProjectTeam.active pt = Some 1)
      /\ (forall pt, In pt added ->
            ProjectTeam.project_id pt = project_no
            /\ ProjectTeam.active pt = Some 1
            /\ exists user, In user team
                            /\ ProjectTeam.user_id pt = User.user_id user
                            /\ ProjectTeam.project_rights pt
                               = User.rights user).
Proof.
  induction team as [|u team IH]; intro teams; cbn [fold_left].
  - exists []. rewrite app_nil_r. split; [reflexivity|].
    split; [reflexivity|]. split; intros ? [].
  - rewrite MoreQueryFacts.add_unkeyed by reflexivity.
    set (pt := set_pk _ _).
    destruct (IH (teams ++ [pt])) as (added & H & Hlen & Hall & Honly).
    exists (pt :: added). rewrite H, <- app_assoc. split; [reflexivity|].
    split; [cbn; now rewrite Hlen|]. split.
    + intros user [<- | Hu].
      * exists pt. repeat split. now left.
      * destruct (Hall user Hu) as (pt' & Hpt' & Hrest).
        exists pt'. split; [now right | exact Hrest].
    + intros pt' [<- | Hpt'].
      * repeat split. exists u. split; [now left|]. split; reflexivity.
      * destruct (Honly pt' Hpt') as (Hp & Ha & user & Hu & Hid).
        repeat split; try assumption. exists user. split; [now right|].
        exact Hid.
Qed.



(** X26. A user newly put on a project team gets the project rights of
    the account: before [add_project_team], [get_project_rights] for a user
    without a membership row falls back to 1; afterwards (the listed users
    having distinct ids) it returns the user's own rights. *)
Theorem add_project_team_then_rights (n : Z) (team : list User.t)
    (teams : list ProjectTeam.t) (user : User.t) :
  In user team ->
  NoDup (map User.user_id team) ->
  (forall pt, In pt teams -> ProjectTeam.project_id pt = Some n ->
              ProjectTeam.user_id pt <> User.user_id user) ->
  get_project_rights (Some n) (User.user_id user) teams = Some 1
  /\ get_project_rights (Some n) (User.user_id user)
       (snd (add_project_team (Some n) team teams))
     = User.rights user.
Proof.
  intros Hteam Hnd Hnone.
  set (p := fun pt => Null.eq_int (ProjectTeam.project_id pt) (Some n)
                      && Null.eq_int (ProjectTeam.user_id pt)
                           (User.user_id user)).
  assert (E : Query.first p teams = None).
  { apply QueryFacts.first_none. intros pt Hpt. unfold p.
    destruct (Null.eq_int (ProjectTeam.project_id pt) (Some n)) eqn:F;
      [|reflexivity].
    apply NullFacts.eq_int_spec in F. cbn [andb].
    apply NullFacts.eq_int_false. now apply Hnone. }
  split.
  - unfold get_project_rights. fold p. now rewrite E.
  - unfold add_project_team.
    destruct (add_project_team_appends (Some n) team teams)
      as (added & H & _ & Hall & Honly).
    rewrite H. cbn [snd]. unfold get_project_rights. fold p.
    rewrite (MoreQueryFacts.first_app_new p teams added E).
    destruct (Query.first p added) as [pt|] eqn:F.
    + apply QueryFacts.first_some in F. destruct F as (Hpt & Hp).
      unfold p in Hp. apply andb_true_iff in Hp. destruct Hp as (_ & Hu).
      apply NullFacts.eq_int_spec in Hu.
      destruct (Honly pt Hpt) as (_ & _ & u & Hin & Hid & Hrights).
      assert (u = user).
      { apply (keys_injective team); try assumption. cbn. congruence. }
      subst. exact Hrights.
    + exfalso. rewrite QueryFacts.first_none in F.
      destruct (Hall user Hteam) as (pt & Hpt & Hp & Hu & _).
      specialize (F pt Hpt). unfold p in F.
      rewrite Hp, Hu, !NullFacts.eq_int_refl in F. discriminate.
Qed.

Lemma add_project_team_then_rights_witness :
  get_project_rights (Some 7) (Some 2) [] = Some 1
  /\ get_project_rights (Some 7) (Some 2)
       (snd (add_project_team (Some 7) [MoreSample.ada; MoreSample.bob] []))
     = Some 2.
Proof.
  apply (add_project_team_then_rights 7 [MoreSample.ada; MoreSample.bob] []
           MoreSample.bob).
  - right. now left.
  - repeat constructor; cbn; intuition discriminate.
  - intros pt [].
Defined.

(** X16. [ProjectTeam.update] writes only the rights and the active flag
    of the row with its id: row by row, a row with that id keeps its id,
    project and user and takes the two values of the object, and a row with
    another id is untouched.  When it sets a user's only membership of a
    project to anything but active, [get_projects] shows that user (rights
    of at most 3) no row of the project any more. *)
Theorem team_update_revokes_access (self : ProjectTeam.t) (n : Z)
    (teams : list ProjectTeam.t) (user : User.t) (rights : Z)
    (filt active : bool) (irl_data : list IRLAssessment.t)
    (users : list User.t) :
  User.rights user = Some rights -> rights <= 3 ->
  ProjectTeam.active self <> Some 1 ->
  (forall pt, In pt teams ->
     ProjectTeam.user_id pt = User.user_id user ->
     ProjectTeam.project_id pt = Some n ->
     ProjectTeam.id pt = ProjectTeam.id self) ->
  exists teams' shown,
    ProjectTeamMethods.update self teams = (None, teams')
    /\ map (fun pt => (ProjectTeam.id pt, ProjectTeam.project_id pt,
                       ProjectTeam.user_id pt)) teams'
       = map (fun pt => (ProjectTeam.id pt, ProjectTeam.project_id pt,
                         ProjectTeam.user_id pt)) teams
    /\ Forall2
         (fun pt pt' =>
            (ProjectTeam.id pt = ProjectTeam.id self ->
             pt' = ProjectTeam.mk (ProjectTeam.id pt)
                     (ProjectTeam.project_id pt) (ProjectTeam.user_id pt)
                     (ProjectTeam.project_rights self)
                     (ProjectTeam.active self))
            /\ (ProjectTeam.id pt <> ProjectTeam.id self -> pt' = pt))
         teams teams'
    /\ get_projects user filt active irl_data users teams' = Returns shown
    /\ forall r, In r shown -> IRLAssessment.project_no r <> Some n.
Proof.
  intros Hr Hle Hoff Honly. unfold ProjectTeamMethods.update.
  set (f := fun pt : ProjectTeam.t =>
              if Null.eq_int (ProjectTeam.id pt) (ProjectTeam.id self)
              then ProjectTeam.mk (ProjectTeam.id pt)
                     (ProjectTeam.project_id pt) (ProjectTeam.user_id pt)
                     (ProjectTeam.project_rights self)
                     (ProjectTeam.active self)
              else pt).
  destruct (get_projects_narrows user rights filt active irl_data users
              (map f teams) Hr) as (Hget & _).
  eexists. eexists. split; [reflexivity|].
  split; [|split; [|split; [exact Hget|]]].
  - rewrite map_map. apply map_ext. intro pt. unfold f.
    now destruct (Null.eq_int _ _).
  - apply Forall2_map_pointwise. intros pt _. unfold f.
    destruct (Null.eq_int (ProjectTeam.id pt) (ProjectTeam.id self)) eqn:E.
    + split; [reflexivity|]. apply NullFacts.eq_int_spec in E.
      intro Hne. contradiction.
    + split; [|reflexivity]. apply NullFacts.eq_int_false in E.
      intro He. contradiction.
  - intros r Hshown Hrn. apply filter_In in Hshown.
    destruct Hshown as (_ & Hkeep). unfold Spec.keeps in Hkeep.
    assert (E9 : (rights =? 9) = false) by (apply Z.eqb_neq; lia).
    assert (E8 : (rights =? 8) = false) by (apply Z.eqb_neq; lia).
    assert (E3 : (rights <=? 3) = true) by (apply Z.leb_le; lia).
    rewrite E9, E8, E3 in Hkeep. cbn [andb] in Hkeep.
    apply andb_true_iff in Hkeep. destruct Hkeep as (Hmember & _).
    unfold Spec.team_member in Hmember. apply existsb_exists in Hmember.
    destruct Hmember as (pt' & Hin & Hc). apply in_map_iff in Hin.
    destruct Hin as (pt & <- & Hpt).
    apply andb_true_iff in Hc. destruct Hc as (Hc & Hproj).
    apply andb_true_iff in Hc. destruct Hc as (Huser & Hact).
    apply NullFacts.eq_int_spec in Huser, Hact.
    apply NullFacts.col_eq_int_spec in Hproj.
    destruct Hproj as (k & Hk & Hproj). rewrite Hrn in Hk.
    injection Hk as <-.
    assert (Hid : ProjectTeam.id pt = ProjectTeam.id self).
    { apply Honly; [exact Hpt | |].
      - rewrite <- Huser. unfold f. now destruct (Null.eq_int _ _).
      - rewrite <- Hproj. unfold f. now destruct (Null.eq_int _ _). }
    unfold f in Hact. rewrite Hid, NullFacts.eq_int_refl in Hact.
    cbn in Hact. contradiction.
Qed.

Lemma team_update_revokes_access_witness :
  let seven :=
    Sample.assessment (Some 1) (Some 7) (Some 1) (Some "2024-01-31"%string)
      (Some 1) in
  let member := Sample.membership 7 2 1 in
  let other := ProjectTeam.mk (Some 2) (Some 8) (Some 2) (Some 1) (Some 1) in
  get_projects MoreSample.bob false true [seven] [] [member; other]
  = Returns [seven]
  /\ exists teams' shown,
       ProjectTeamMethods.update (Sample.membership 7 2 0) [member; other]
       = (None, teams')
       /\ teams' = [Sample.membership 7 2 0; other]
       /\ get_projects MoreSample.bob false true [seven] [] teams'
          = Returns shown
       /\ forall r, In r shown -> IRLAssessment.project_no r <> Some 7.
Proof.
  intros seven member other. split; [reflexivity|].
  destruct (team_update_revokes_access (Sample.membership 7 2 0) 7
              [member; other] MoreSample.bob 2 false true [seven] []) as
    (teams' & shown & H & _ & Hrows & Hget & Hhide).
  - reflexivity.
  - lia.
  - discriminate.
  - intros pt [<- | [<- | []]] _ Hp; [reflexivity | discriminate].
  - exists teams', shown. split; [exact H|].
    split; [now injection H as <-|]. split; assumption.
Defined.

(** ** Action points *)

Lemma keys_unique_add {R} `{Mapped R} (obj : R) (table : list R) z :
  (forall o k, pk (set_pk o (Some k)) = Some k) ->
  Spec.keys_unique table -> ~ In (Some z) (map pk table) ->
  Spec.keys_unique (table ++ [set_pk obj (Some z)]).
Proof.
  intros Hset (Hnd & Hall) Hz. split.
  - rewrite map_app. cbn [map]. rewrite Hset.
    apply NoDup_app; [assumption | repeat constructor; intros [] |].
    intros k Hk [<- | []]. contradiction.
  - apply Forall_app. split; [assumption|]. repeat constructor.
    rewrite Hset. discriminate.
Qed.

Lemma copy_aps_appends (new_ass_id : Z) (old_aps : list ActionPoint.t) :
  forall table,
    Spec.keys_unique table ->
    exists copies,
      fold_left
        (fun acc old_ap =>
           match acc with
           | Raises e => Raises e
           | Returns table =>
               ActionPointMethods.copy old_ap new_ass_id table
           end)
        old_aps (Returns table)
      = Returns (table ++ copies)
      /\ map (fun c => (ActionPoint.assessment_id c, ActionPoint.irl_type c,
                        ActionPoint.action_point c,
                        ActionPoint.responsible c, ActionPoint.due_date c,
                        ActionPoint.progress c, ActionPoint.comment c))
           copies
         = map (fun o => (Some new_ass_id, ActionPoint.irl_type o,
                          ActionPoint.action_point o,
                          ActionPoint.responsible o, ActionPoint.due_date o,
                          ActionPoint.progress o, ActionPoint.comment o))
             old_aps
      /\ Spec.keys_unique (table ++ copies).
Proof.
  induction old_aps as [|o old_aps IH]; intros table Hu; cbn [fold_left].
  - exists []. rewrite app_nil_r.
    split; [reflexivity|]. split; [reflexivity | exact Hu].
  - unfold ActionPointMethods.copy at 2, ActionPointMethods.insert.
    rewrite MoreQueryFacts.add_unkeyed by reflexivity.
    set (c := set_pk _ _).
    destruct (IH (table ++ [c])) as (copies & H & Hmap & Hu').
    { apply keys_unique_add; [reflexivity | exact Hu |].
      apply QueryFacts.next_id_fresh. }
    exists (c :: copies). rewrite <- app_assoc in H, Hu'.
    split; [exact H|]. split; [|exact Hu'].
    cbn [map]. now rewrite Hmap.
Qed.

Lemma total_progress_app (l1 l2 : list ActionPoint.t) :
  Spec.total_progress (l1 ++ l2)
  = Spec.total_progress l1 + Spec.total_progress l2.
Proof.
  unfold Spec.total_progress.
  induction l1 as [|a l1 IH]; cbn [app fold_right]; [reflexivity|].
  rewrite IH. destruct (ActionPoint.progress a); lia.
Qed.

Lemma total_progress_by_progress (l1 l2 : list ActionPoint.t) :
  map ActionPoint.progress l1 = map ActionPoint.progress l2 ->
  Spec.total_progress l1 = Spec.total_progress l2.
Proof.
  unfold Spec.total_progress. revert l2.
  induction l1 as [|a l1 IH]; intros [|b l2]; cbn [map fold_right];
    try discriminate; [reflexivity|].
  intro H. injection H as Hp Hrest. now rewrite Hp, (IH l2 Hrest).
Qed.

(** X17. [copy_aps] copies every action point of the old assessment,
    finished or not, to the new one: each copy has the new assessment id
    and the type, text, responsible, due date, progress and comment of its
    original, under a key of its own.  Nothing stored is changed, the keys
    stay unique, and the new assessment's points gain exactly the count and
    the progress sum of the old one's. *)
Theorem copy_aps_copies_all (old_ass_id new_ass_id : Z)
    (action_points : list ActionPoint.t) :
  Spec.keys_unique action_points ->
  exists copies,
    copy_aps old_ass_id new_ass_id action_points
    = Returns (action_points ++ copies)
    /\ map (fun c => (ActionPoint.assessment_id c, ActionPoint.irl_type c,
                      ActionPoint.action_point c, ActionPoint.responsible c,
                      ActionPoint.due_date c, ActionPoint.progress c,
                      ActionPoint.comment c))
         copies
       = map (fun o => (Some new_ass_id, ActionPoint.irl_type o,
                        ActionPoint.action_point o, ActionPoint.responsible o,
                        ActionPoint.due_date o, ActionPoint.progress o,
                        ActionPoint.comment o))
           (Spec.points_of old_ass_id action_points)
    /\ Spec.keys_unique (action_points ++ copies)
    /\ Spec.points_of new_ass_id (action_points ++ copies)
       = Spec.points_of new_ass_id action_points ++ copies
    /\ Spec.total_progress
         (Spec.points_of new_ass_id (action_points ++ copies))
       = Spec.total_progress (Spec.points_of new_ass_id action_points)
         + Spec.total_progress (Spec.points_of old_ass_id action_points).
Proof.
  intro Hu. unfold copy_aps.
  fold (Spec.points_of old_ass_id action_points).
  destruct (copy_aps_appends new_ass_id
              (Spec.points_of old_ass_id action_points) action_points Hu)
    as (copies & H & Hmap & Hu').
  exists copies. split; [exact H|]. split; [exact Hmap|].
  split; [exact Hu'|].
  assert (Hnew : Spec.points_of new_ass_id (action_points ++ copies)
                 = Spec.points_of new_ass_id action_points ++ copies).
  { unfold Spec.points_of. rewrite filter_app. f_equal.
    apply forallb_filter_id. apply forallb_forall. intros c Hc.
    assert (G : ActionPoint.assessment_id c = Some new_ass_id).
    { apply (in_map (fun c => (ActionPoint.assessment_id c,
                                ActionPoint.irl_type c,
                                ActionPoint.action_point c,
                                ActionPoint.responsible c,
                                ActionPoint.due_date c,
                                ActionPoint.progress c,
                                ActionPoint.comment c))) in Hc.
      rewrite Hmap in Hc. apply in_map_iff in Hc.
      destruct Hc as (o & Ho & _). now injection Ho. }
    rewrite G. apply NullFacts.eq_int_refl. }
  split; [exact Hnew|].
  rewrite Hnew, total_progress_app. f_equal.
  apply total_progress_by_progress.
  apply (f_equal (map (fun t => snd (fst t)))) in Hmap.
  rewrite !map_map in Hmap. exact Hmap.
Qed.

Lemma copy_aps_copies_all_witness :
  let aps :=
    [Sample.point 1 1 (Some 100); Sample.point 2 1 (Some 40);
     Sample.point 3 2 None] in
  exists copies,
    copy_aps 1 5 aps = Returns (aps ++ copies)
    /\ map ActionPoint.progress copies = [Some 100; Some 40]
    /\ Spec.total_progress (Spec.points_of 5 (aps ++ copies)) = 140.
Proof.
  intro aps.
  destruct (copy_aps_copies_all 1 5 aps) as (copies & H & Hmap & _ & _ & Ht).
  - split.
    + repeat constructor; cbn; intuition discriminate.
    + repeat constructor; discriminate.
  - exists copies. split; [exact H|]. split; [|exact Ht].
    apply (f_equal (map (fun t => snd (fst t)))) in Hmap.
    rewrite !map_map in Hmap. exact Hmap.
Defined.

(** X18. [ActionPoint.update] rewrites the text, responsible, due date,
    progress and comment of the action point with its key and nothing
    else: [get_ap] then returns the stored point with these five fields
    replaced, and no action point changes its key, assessment or type, so
    every assessment keeps the points it had. *)
Theorem action_point_update_then_get (self stored : ActionPoint.t) (z : Z)
    (table : list ActionPoint.t) :
  ActionPoint.ap_id self = Some z ->
  get_ap z table = Some stored ->
  get_ap z (ActionPointMethods.update self table)
  = Some (ActionPoint.mk (Some z) (ActionPoint.assessment_id stored)
            (ActionPoint.irl_type stored) (ActionPoint.action_point self)
            (ActionPoint.responsible self) (ActionPoint.due_date self)
            (ActionPoint.progress self) (ActionPoint.comment self))
  /\ map (fun ap => (ActionPoint.ap_id ap, ActionPoint.assessment_id ap,
                     ActionPoint.irl_type ap))
       (ActionPointMethods.update self table)
     = map (fun ap => (ActionPoint.ap_id ap, ActionPoint.assessment_id ap,
                       ActionPoint.irl_type ap)) table
  /\ (forall a,
        map ActionPoint.ap_id
          (Spec.points_of a (ActionPointMethods.update self table))
        = map ActionPoint.ap_id (Spec.points_of a table))
  /\ (forall ap, In ap table -> ActionPoint.ap_id ap <> Some z ->
                 In ap (ActionPointMethods.update self table)).
Proof.
  intros Hz Hget. unfold ActionPointMethods.update. rewrite Hz.
  set (f := fun ap : ActionPoint.t =>
              if Null.eq_int (ActionPoint.ap_id ap) (Some z)
              then ActionPoint.mk (ActionPoint.ap_id ap)
                     (ActionPoint.assessment_id ap) (ActionPoint.irl_type ap)
                     (ActionPoint.action_point self)
                     (ActionPoint.responsible self)
                     (ActionPoint.due_date self) (ActionPoint.progress self)
                     (ActionPoint.comment self)
              else ap).
  assert (Hkeep : forall ap,
             (ActionPoint.ap_id (f ap), ActionPoint.assessment_id (f ap),
              ActionPoint.irl_type (f ap))
             = (ActionPoint.ap_id ap, ActionPoint.assessment_id ap,
                ActionPoint.irl_type ap)).
  { intro ap. unfold f. now destruct (Null.eq_int _ _). }
  split; [|split; [|split]].
  - unfold get_ap in *.
    rewrite (MoreQueryFacts.first_map
               (fun ap => Null.eq_int (ActionPoint.ap_id ap) (Some z)) f).
    + rewrite Hget. cbn [option_map]. unfold f.
      apply QueryFacts.first_some in Hget. destruct Hget as (_ & E).
      rewrite E. apply NullFacts.eq_int_spec in E. now rewrite E.
    + intro ap. specialize (Hkeep ap). now injection Hkeep as -> _ _.
  - rewrite map_map. apply map_ext. exact Hkeep.
  - intro a. unfold Spec.points_of. clear Hget.
    induction table as [|ap table IH]; cbn [map filter]; [reflexivity|].
    pose proof (Hkeep ap) as Hk. injection Hk as Hid Hass _.
    rewrite Hass.
    destruct (Null.eq_int (ActionPoint.assessment_id ap) (Some a));
      cbn [map]; [rewrite Hid; f_equal|]; exact IH.
  - intros ap Hap Hne. apply in_map_iff. exists ap. split; [|exact Hap].
    unfold f. apply NullFacts.eq_int_false in Hne. now rewrite Hne.
Qed.

Lemma action_point_update_then_get_witness :
  let table := [Sample.point 1 1 (Some 40); Sample.point 2 1 (Some 100)] in
  let edited :=
    ActionPoint.mk (Some 1) (Some 9) (Some "FRL"%string)
      (Some "Call them"%string) (Some 2) (Some "2025-07-01"%string)
      (Some 100) (Some "done"%string) in
  get_ap 1 (ActionPointMethods.update edited table)
  = Some (ActionPoint.mk (Some 1) (Some 1) (Some "CRL"%string)
            (Some "Call them"%string) (Some 2) (Some "2025-07-01"%string)
            (Some 100) (Some "done"%string))
  /\ In (Sample.point 2 1 (Some 100))
       (ActionPointMethods.update edited table).
Proof.
  intros table edited.
  destruct (action_point_update_then_get edited (Sample.point 1 1 (Some 40))
              1 table eq_refl eq_refl) as (Hget & _ & _ & Hkeep).
  split; [exact Hget|].
  apply Hkeep; [right; now left | discriminate].
Defined.

(** X19. What [delete_assessments] was given is gone afterwards: with
    unique action point keys, for every listed assessment with an id,
    [get_irl] finds no row, no action point is left for it, and
    [ap_completed] for it raises. *)
Theorem delete_then_lookup (datetime2dbdate : datetime -> string)
    (now : datetime) (irl_asses : list IRLAssessment.t)
    (irl_data : list IRLAssessment.t) (action_points : list ActionPoint.t)
    (a : IRLAssessment.t) (z : Z) :
  Spec.keys_unique action_points ->
  In a irl_asses -> IRLAssessment.id a = Some z ->
  exists success irl_data' action_points',
    delete_assessments irl_asses irl_data action_points
    = (success, irl_data', action_points')
    /\ get_irl z irl_data' = None
    /\ Spec.points_of z action_points' = []
    /\ ap_completed datetime2dbdate now z irl_data' action_points'
       = Raises AttributeError.
Proof.
  intros Hu Ha Hz. unfold delete_assessments.
  rewrite (delete_assessments_loop irl_asses [] action_points true Hu).
  cbn [app Query.delete].
  set (ids := map IRLAssessment.id irl_asses).
  assert (Hin : In (Some z) ids)
    by (unfold ids; rewrite <- Hz; now apply in_map).
  eexists. eexists. eexists. split; [reflexivity|].
  assert (Hgone : get_irl z
                    (filter (fun r => negb (Null.in_ (IRLAssessment.id r)
                                              ids)) irl_data) = None).
  { unfold get_irl. apply QueryFacts.first_none. intros r Hr.
    apply filter_In in Hr. destruct Hr as (_ & Hr).
    apply NullFacts.eq_int_false. intro E. rewrite E in Hr.
    assert (G : Null.in_ (Some z) ids = true)
      by (apply NullFacts.in_spec; now exists z).
    rewrite G in Hr. discriminate. }
  split; [exact Hgone|]. split.
  - unfold Spec.points_of. rewrite filter_filter.
    destruct (filter _ action_points) as [|ap rest] eqn:E; [reflexivity|].
    assert (Hap : In ap (filter
                           (fun x => negb (Null.py_in
                                             (ActionPoint.assessment_id x)
                                             ids)
                                     && Null.eq_int
                                          (ActionPoint.assessment_id x)
                                          (Some z)) action_points))
      by (rewrite E; now left).
    apply filter_In in Hap. destruct Hap as (_ & Hap).
    apply andb_true_iff in Hap. destruct Hap as (Hnot & Hass).
    apply NullFacts.eq_int_spec in Hass. rewrite Hass in Hnot.
    assert (G : Null.py_in (Some z) ids = true)
      by (now apply NullFacts.py_in_spec).
    rewrite G in Hnot. discriminate.
  - unfold ap_completed. now rewrite Hgone.
Qed.

Lemma delete_then_lookup_witness :
  let a :=
    Sample.assessment (Some 1) (Some 7) (Some 1) (Some "2024-01-31"%string)
      (Some 1) in
  let b :=
    Sample.assessment (Some 2) (Some 7) (Some 1) (Some "2024-02-29"%string)
      (Some 1) in
  let aps := [Sample.point 1 1 (Some 100); Sample.point 2 2 (Some 10)] in
  exists success irl_data' action_points',
    delete_assessments [a] [a; b] aps = (success, irl_data', action_points')
    /\ get_irl 1 irl_data' = None
    /\ Spec.points_of 1 action_points' = []
    /\ ap_completed IRLAssessment._getDate Sample.a_day 1 irl_data'
         action_points'
       = Raises AttributeError.
Proof.
  intros a b aps.
  apply (delete_then_lookup IRLAssessment._getDate Sample.a_day [a] [a; b]
           aps a 1).
  - split.
    + repeat constructor; cbn; intuition discriminate.
    + repeat constructor; discriminate.
  - now left.
  - reflexivity.
Defined.

(** ** The navigation shell, again *)

(** X20. Whatever menu [get_tools_n_settings] returns contains User
    Settings; Admin Tools and System Settings are offered to rights 9 only,
    Project Tools and Reports only to rights 2, 8 and 9 and only together;
    and none of the login, project or introduction pages is ever part of
    it. *)
Theorem get_tools_n_settings_access (user : User.t) (pages : list page) :
  get_tools_n_settings user = Returns (Some pages) ->
  In user_settings_pg pages
  /\ (In admin_tools_pg pages \/ In sys_settings_pg pages ->
      User.rights user = Some 9)
  /\ (In project_tools_pg pages <-> In reporting_pg pages)
  /\ (In project_tools_pg pages ->
      User.rights user = Some 2 \/ User.rights user = Some 8
      \/ User.rights user = Some 9)
  /\ (forall p, In p pages ->
        p <> login_pg /\ p <> logout_pg /\ p <> intro_pg
        /\ p <> irl_ass_pg /\ p <> port_pg /\ p <> user_manual_pg).
Proof.
  unfold get_tools_n_settings.
  destruct (User.rights user) as [r|]; [|discriminate].
  destruct (r <? 2); [intro H; injection H as <-|
  destruct (Z.eqb_spec r 2); [intro H; injection H as <-|
  destruct (Z.eqb_spec r 6); [intro H; injection H as <-|
  destruct (Z.eqb_spec r 7); [intro H; injection H as <-|
  destruct (Z.eqb_spec r 8); [intro H; injection H as <-|
  destruct (Z.eqb_spec r 9); [intro H; injection H as <-|
  discriminate]]]]]]; subst; cbn [In];
    (split; [tauto|]); (split; [intuition discriminate|]);
    (split; [intuition discriminate|]);
    (split; [intuition (try discriminate; auto)|]);
    intros p Hp; repeat (destruct Hp as [<- | Hp]; [repeat split;
      discriminate|]); destruct Hp.
Qed.

Lemma get_tools_n_settings_access_witness :
  In user_settings_pg [project_tools_pg; reporting_pg; user_settings_pg]
  /\ (In admin_tools_pg [project_tools_pg; reporting_pg; user_settings_pg]
      \/ In sys_settings_pg [project_tools_pg; reporting_pg; user_settings_pg]
      -> User.rights MoreSample.bob = Some 9).
Proof.
  destruct (get_tools_n_settings_access MoreSample.bob
              [project_tools_pg; reporting_pg; user_settings_pg] eq_refl)
    as (H1 & H2 & _).
  split; assumption.
Defined.

(** ** Valuations *)

Module ValuationFacts.

Lemma sum_cons v vs : Query.sum (v :: vs) = Valuation.plus v (Query.sum vs).
Proof. destruct v as [x|]; cbn; now destruct (Query.sum vs). Qed.

Lemma plus_assoc a b c :
  Valuation.plus a (Valuation.plus b c)
  = Valuation.plus (Valuation.plus a b) c.
Proof.
  destruct a, b, c; cbn; try reflexivity. f_equal. lia.
Qed.

Lemma plus_comm a b : Valuation.plus a b = Valuation.plus b a.
Proof. destruct a, b; cbn; try reflexivity. f_equal. lia. Qed.

(** The sum over rows matching one of two conditions that exclude each
    other is the sum of the two sums. *)
Lemma sum_either (value : IRL.t -> option Z) (p q : IRL.t -> bool)
    (irl : list IRL.t) :
  (forall r, p r && q r = false) ->
  Query.sum (map value (filter (fun r => p r || q r) irl))
  = Valuation.plus (Query.sum (map value (filter p irl)))
      (Query.sum (map value (filter q irl))).
Proof.
  intro H. induction irl as [|a irl IH]; cbn [filter map]; [reflexivity|].
  specialize (H a).
  destruct (p a), (q a); try discriminate; cbn [orb map];
    rewrite ?sum_cons, IH.
  - apply plus_assoc.
  - rewrite !plus_assoc. f_equal. apply plus_comm.
  - reflexivity.
Qed.

Lemma at_levels_by_scale (value : IRL.t -> option Z)
    (crl trl brl iprl tmrl frl : option Z) (irl : list IRL.t) :
  Query.sum
    (map value (filter (Valuation.at_levels crl trl brl iprl tmrl frl) irl))
  = Valuation.plus
      (Valuation.plus
         (Valuation.plus
            (Valuation.plus
               (Valuation.plus (Valuation.scale_sum value "CRL" crl irl)
                  (Valuation.scale_sum value "TRL" trl irl))
               (Valuation.scale_sum value "BRL" brl irl))
            (Valuation.scale_sum value "IPRL" iprl irl))
         (Valuation.scale_sum value "TMRL" tmrl irl))
      (Valuation.scale_sum value "FRL" frl irl).
Proof.
  unfold Valuation.at_levels, Valuation.scale_sum.
  repeat match goal with
         | |- context [filter (fun r => @?p r || @?q r) irl] =>
             rewrite (sum_either value p q irl);
             [| intro r; destruct (IRL.IRLType r) as [s|];
                cbn [Null.eq_str Null.eqb andb orb]; [|reflexivity];
                repeat match goal with
                       | |- context [String.eqb s ?c] =>
                           destruct (String.eqb_spec s c); subst; cbn
                       end;
                rewrite ?andb_false_r; reflexivity]
         end.
  reflexivity.
Qed.

End ValuationFacts.

(** X21. Each of the four valuations is the sum, over the six scales, of
    the values the matrix holds for that scale at the assessment's level
    (or target level): the current and the target valuation read the same
    column, the license and the startup valuation the same levels. *)
Theorem valuations_by_scale (self : IRLAssessment.t) (irl : list IRL.t) :
  let by_scale value crl trl brl iprl tmrl frl :=
    Valuation.plus
      (Valuation.plus
         (Valuation.plus
            (Valuation.plus
               (Valuation.plus (Valuation.scale_sum value "CRL" crl irl)
                  (Valuation.scale_sum value "TRL" trl irl))
               (Valuation.scale_sum value "BRL" brl irl))
            (Valuation.scale_sum value "IPRL" iprl irl))
         (Valuation.scale_sum value "TMRL" tmrl irl))
      (Valuation.scale_sum value "FRL" frl irl) in
  Valuation.calc_license_value self irl
  = by_scale IRL.LicenseValue (IRLAssessment.crl self)
      (IRLAssessment.trl self) (IRLAssessment.brl self)
      (IRLAssessment.iprl self) (IRLAssessment.tmrl self)
      (IRLAssessment.frl self)
  /\ Valuation.calc_license_target_value self irl
     = by_scale IRL.LicenseValue (IRLAssessment.crl_target self)
         (IRLAssessment.trl_target self) (IRLAssessment.brl_target self)
         (IRLAssessment.iprl_target self) (IRLAssessment.tmrl_target self)
         (IRLAssessment.frl_target self)
  /\ Valuation.calc_startup_value self irl
     = by_scale IRL.StartupValue (IRLAssessment.crl self)
         (IRLAssessment.trl self) (IRLAssessment.brl self)
         (IRLAssessment.iprl self) (IRLAssessment.tmrl self)
         (IRLAssessment.frl self)
  /\ Valuation.calc_startup_target_value self irl
     = by_scale IRL.StartupValue (IRLAssessment.crl_target self)
         (IRLAssessment.trl_target self) (IRLAssessment.brl_target self)
         (IRLAssessment.iprl_target self) (IRLAssessment.tmrl_target self)
         (IRLAssessment.frl_target self).
Proof.
  cbv zeta.
  unfold Valuation.calc_license_value, Valuation.calc_license_target_value,
    Valuation.calc_startup_value, Valuation.calc_startup_target_value.
  repeat split; apply ValuationFacts.at_levels_by_scale.
Qed.

(** X22. An assessment without levels has no valuation: when none of
    its six levels is set (and every matrix row has a level), both
    [calc_license_value] and [calc_startup_value] return None, not 0. *)
Theorem unassessed_has_no_value (self : IRLAssessment.t)
    (irl : list IRL.t) :
  IRLAssessment.crl self = None -> IRLAssessment.trl self = None ->
  IRLAssessment.brl self = None -> IRLAssessment.iprl self = None ->
  IRLAssessment.tmrl self = None -> IRLAssessment.frl self = None ->
  (forall row, In row irl -> IRL.Level row <> None) ->
  Valuation.calc_license_value self irl = None
  /\ Valuation.calc_startup_value self irl = None.
Proof.
  intros Hc Ht Hb Hi Hm Hf Hlevel.
  unfold Valuation.calc_license_value, Valuation.calc_startup_value.
  rewrite Hc, Ht, Hb, Hi, Hm, Hf.
  assert (E : filter (Valuation.at_levels None None None None None None) irl
              = []).
  { induction irl as [|row irl IH]; cbn [filter]; [reflexivity|].
    assert (G : Valuation.at_levels None None None None None None row
                = false).
    { unfold Valuation.at_levels.
      assert (L : Null.eq_int (IRL.Level row) None = false).
      { apply NullFacts.eq_int_false. apply Hlevel. now left. }
      rewrite L, !andb_false_r. reflexivity. }
    rewrite G. apply IH. intros r Hr. apply Hlevel. now right. }
  rewrite E. split; reflexivity.
Qed.

Lemma unassessed_has_no_value_witness :
  let blank :=
    IRLAssessment.mk (Some 1) (Some 7) (Some "New"%string) (Some 1) None
      (Some "2025-03-07"%string) None None None None None None None
      None None None None None None None None None None None None
      None None None None None None None None None None None None
      (Some 0) (Some 1) in
  Valuation.calc_license_value blank MatrixSample.matrix = None
  /\ Valuation.calc_startup_value blank MatrixSample.matrix = None.
Proof.
  intro blank.
  apply (unassessed_has_no_value blank MatrixSample.matrix);
    try reflexivity.
  intros row Hrow.
  repeat (destruct Hrow as [<- | Hrow]; [discriminate|]). destruct Hrow.
Defined.

(** *** Editing the value matrix *)

Lemma update_license_values_invariant (P : list IRL.t -> Prop)
    (edited_rows : list (Z * list (string * Z))) :
  (forall row cells cell table,
     In (row, cells) edited_rows -> In cell cells -> P table ->
     P (map (fun r =>
               if Null.eq_int (IRL.Level r) (Some (row + 1))
                  && Null.eq_str (IRL.IRLType r) (Some (fst cell))
               then IRL.set_LicenseValue r (Some (snd cell)) else r)
          table)) ->
  forall irl, P irl -> P (update_license_values edited_rows irl).
Proof.
  unfold update_license_values.
  induction edited_rows as [|[row cells] rest IH]; intros Hstep irl Hirl;
    cbn [fold_left]; [exact Hirl|].
  apply IH.
  - intros row' cells' cell table Hin. apply Hstep. now right.
  - cbn [fst snd].
    assert (Hcells : forall cs table,
               (forall c, In c cs -> In c cells) -> P table ->
               P (fold_left
                    (fun table cell =>
                       map (fun r =>
                              if Null.eq_int (IRL.Level r) (Some (row + 1))
                                 && Null.eq_str (IRL.IRLType r)
                                      (Some (fst cell))
                              then IRL.set_LicenseValue r (Some (snd cell))
                              else r) table) cs table)).
    { induction cs as [|c cs IHc]; intros table Hsub Ht; cbn [fold_left];
        [exact Ht|].
      apply IHc; [intros c' Hc'; apply Hsub; now right|].
      apply (Hstep row cells c table); [now left | | exact Ht].
      apply Hsub. now left. }
    apply Hcells; [auto | exact Hirl].
Qed.

(** X23. [update_license_values] writes license values only: levels,
    scale names, texts and startup values of all rows stay as they are and
    no row is added or dropped; a row that no edit addresses (an edit of
    matrix row [i] addresses level [i + 1] of the edited scale) is
    untouched; and after the edit of a single cell every row at that level
    of that scale carries the new value. *)
Theorem update_license_values_cells
    (edited_rows : list (Z * list (string * Z))) (irl : list IRL.t) :
  map (fun r => (IRL.Level r, IRL.IRLType r, IRL.Description r,
                 IRL.Aspects r, IRL.StartupValue r))
    (update_license_values edited_rows irl)
  = map (fun r => (IRL.Level r, IRL.IRLType r, IRL.Description r,
                   IRL.Aspects r, IRL.StartupValue r)) irl
  /\ (forall r, In r irl ->
        (forall row cells cell,
           In (row, cells) edited_rows -> In cell cells ->
           IRL.Level r <> Some (row + 1)
           \/ IRL.IRLType r <> Some (fst cell)) ->
        In r (update_license_values edited_rows irl))
  /\ (forall i irl_type value r,
        edited_rows = [(i, [(irl_type, value)])] ->
        In r (update_license_values edited_rows irl) ->
        IRL.Level r = Some (i + 1) -> IRL.IRLType r = Some irl_type ->
        IRL.LicenseValue r = Some value).
Proof.
  split; [|split].
  - apply (update_license_values_invariant
             (fun t => map (fun r => (IRL.Level r, IRL.IRLType r,
                                      IRL.Description r, IRL.Aspects r,
                                      IRL.StartupValue r)) t
                       = map (fun r => (IRL.Level r, IRL.IRLType r,
                                        IRL.Description r, IRL.Aspects r,
                                        IRL.StartupValue r)) irl));
      [|reflexivity].
    intros row cells cell table _ _ <-. rewrite map_map. apply map_ext.
    intro r. now destruct (_ && _).
  - intros r Hr Hfree.
    apply (update_license_values_invariant (fun t => In r t));
      [|exact Hr].
    intros row cells cell table Hrow Hcell Ht. apply in_map_iff.
    exists r. split; [|exact Ht].
    destruct (Hfree row cells cell Hrow Hcell) as [H | H].
    + apply NullFacts.eq_int_false in H. now rewrite H.
    + apply NullFacts.eq_str_false in H. rewrite H. now rewrite andb_false_r.
  - intros i irl_type value r -> Hr Hl Ht.
    unfold update_license_values in Hr. cbn [fold_left fst snd] in Hr.
    apply in_map_iff in Hr. destruct Hr as (r0 & <- & _).
    destruct (Null.eq_int (IRL.Level r0) (Some (i + 1))
              && Null.eq_str (IRL.IRLType r0) (Some irl_type)) eqn:E;
      [reflexivity|].
    rewrite Hl, Ht, NullFacts.eq_int_refl, NullFacts.eq_str_refl in E.
    discriminate.
Qed.

(** X24. Editing a cell of the value matrix changes the valuation that
    reads it: after [update_license_values] for the single cell (row [i],
    scale CRL), an assessment whose CRL is [i + 1], with the matrix holding
    exactly one CRL row per level, has the new value as the CRL part of
    its license value, and its startup value is what it was. *)
Theorem update_license_values_then_calc (i value : Z)
    (self : IRLAssessment.t) (irl : list IRL.t) (cell : IRL.t) :
  IRLAssessment.crl self = Some (i + 1) ->
  filter (fun row => Null.eq_str (IRL.IRLType row) (Some "CRL"%string)
                     && Null.eq_int (IRL.Level row) (Some (i + 1))) irl
  = [cell] ->
  let irl' := update_license_values [(i, [("CRL"%string, value)])] irl in
  Valuation.scale_sum IRL.LicenseValue "CRL" (IRLAssessment.crl self) irl'
  = Some value
  /\ Valuation.calc_startup_value self irl'
     = Valuation.calc_startup_value self irl.
Proof.
  intros Hcrl Hone. cbv zeta.
  unfold update_license_values. cbn [fold_left fst snd].
  set (f := fun r : IRL.t =>
              if Null.eq_int (IRL.Level r) (Some (i + 1))
                 && Null.eq_str (IRL.IRLType r) (Some "CRL"%string)
              then IRL.set_LicenseValue r (Some value) else r).
  assert (Hkeep : forall r, IRL.Level (f r) = IRL.Level r
                            /\ IRL.IRLType (f r) = IRL.IRLType r
                            /\ IRL.StartupValue (f r) = IRL.StartupValue r).
  { intro r. unfold f. now destruct (_ && _). }
  assert (Hfilter : forall (p : IRL.t -> bool),
             (forall r, p (f r) = p r) ->
             filter p (map f irl) = map f (filter p irl)).
  { clear Hone. intros p Hp.
    induction irl as [|a l IH]; cbn [map filter]; [reflexivity|].
    rewrite Hp. destruct (p a); cbn [map]; now rewrite IH. }
  split.
  - unfold Valuation.scale_sum. rewrite Hcrl, Hfilter.
    + rewrite Hone. cbn [map]. unfold f.
      assert (Hc : In cell [cell]) by now left.
      rewrite <- Hone in Hc. apply filter_In in Hc. destruct Hc as (_ & Hc).
      apply andb_true_iff in Hc. destruct Hc as (Ht & Hl).
      now rewrite Hl, Ht.
    + intro r. destruct (Hkeep r) as (-> & -> & _). reflexivity.
  - unfold Valuation.calc_startup_value. rewrite Hfilter.
    + rewrite map_map. f_equal. apply map_ext. intro r. apply Hkeep.
    + intro r. unfold Valuation.at_levels.
      destruct (Hkeep r) as (-> & -> & _). reflexivity.
Qed.

Lemma update_license_values_then_calc_witness :
  let self :=
    Sample.assessment (Some 1) (Some 7) (Some 1) (Some "2024-01-31"%string)
      (Some 1) in
  Valuation.calc_license_value self MatrixSample.matrix = Some 26
  /\ Valuation.scale_sum IRL.LicenseValue "CRL" (IRLAssessment.crl self)
       (update_license_values [(2, [("CRL"%string, 500)])]
          MatrixSample.matrix)
     = Some 500
  /\ Valuation.calc_license_value self
       (update_license_values [(2, [("CRL"%string, 500)])]
          MatrixSample.matrix)
     = Some 525.
Proof.
  intro self.
  destruct (update_license_values_then_calc 2 500 self MatrixSample.matrix
              (MatrixSample.cell "CRL" 3 10 1) eq_refl eq_refl) as (H & _).
  split; [reflexivity|]. split; [exact H | reflexivity].
Defined.

(** ** Organisations *)

(** X25. [add_org] always stores one new active organisation under a new
    id, but the id it returns is that of the first organisation with the
    name: the new one when the name was unused, the older one when the name
    was already taken. *)
Theorem add_org_returns_first_of_name (org_name : string)
    (orgs : list Organisation.t) :
  exists z returned,
    add_org org_name orgs
    = Returns (returned,
               orgs ++ [Organisation.mk (Some z) (Some org_name) (Some 1)])
    /\ ~ In (Some z) (map Organisation.org_id orgs)
    /\ ((forall o, In o orgs -> Organisation.org_name o <> Some org_name) ->
        returned = Some z)
    /\ (forall old,
          Query.first
            (fun o => Null.eq_str (Organisation.org_name o) (Some org_name))
            orgs = Some old ->
          returned = Organisation.org_id old).
Proof.
  unfold add_org. rewrite MoreQueryFacts.add_unkeyed by reflexivity.
  set (z := Query.next_id (map pk orgs)).
  set (row := set_pk _ _).
  set (by_name := fun o => Null.eq_str (Organisation.org_name o)
                             (Some org_name)).
  exists z.
  destruct (Query.first by_name orgs) as [old|] eqn:E.
  - rewrite (MoreQueryFacts.first_app_old by_name orgs [row] old E).
    exists (Organisation.org_id old). split; [reflexivity|].
    split; [apply QueryFacts.next_id_fresh|]. split.
    + intro Hnone. apply QueryFacts.first_some in E.
      destruct E as (Hin & Hn). apply NullFacts.eq_str_spec in Hn.
      now apply Hnone in Hin.
    + intros old' H. now injection H as <-.
  - rewrite (QueryFacts.first_app_last by_name orgs row E)
      by apply NullFacts.eq_str_refl.
    exists (Some z). split; [reflexivity|].
    split; [apply QueryFacts.next_id_fresh|]. split; [reflexivity|].
    discriminate.
Qed.

Lemma add_org_returns_first_of_name_witness :
  let ntnu := Organisation.mk (Some 1) (Some "NTNU"%string) (Some 1) in
  (exists z,
     add_org "NTNU" [ntnu]
     = Returns (Some 1, [ntnu; Organisation.mk (Some z) (Some "NTNU"%string)
                                 (Some 1)])
     /\ z <> 1)
  /\ (exists z,
        add_org "KTH" [ntnu]
        = Returns (Some z, [ntnu; Organisation.mk (Some z)
                                    (Some "KTH"%string) (Some 1)])
        /\ z <> 1).
Proof.
  intro ntnu.
  destruct (add_org_returns_first_of_name "NTNU" [ntnu])
    as (z & returned & H & Hz & _ & Hold).
  destruct (add_org_returns_first_of_name "KTH" [ntnu])
    as (z' & returned' & H' & Hz' & Hnew & _).
  split.
  - exists z. rewrite (Hold ntnu eq_refl) in H. split; [exact H|].
    intros ->. apply Hz. now left.
  - exists z'. rewrite Hnew in H'.
    + split; [exact H'|]. intros ->. apply Hz'. now left.
    + intros o [<- | []]. discriminate.
Defined.

(** ** Instances of the properties above on sample data *)

Lemma has_password_guards_validate_user_witness :
  validate_user MoreSample.checkpw "bob" "x"
    [MoreSample.ada; MoreSample.bob]
  = Raises AttributeError
  /\ validate_user MoreSample.checkpw "eve" "x"
       [MoreSample.ada; MoreSample.bob]
     = Returns None
  /\ has_password "ada" [MoreSample.ada; MoreSample.bob] = Returns true.
Proof.
  destruct (has_password_guards_validate_user "bob"
              [MoreSample.ada; MoreSample.bob]) as (Hbob & _).
  destruct (has_password_guards_validate_user "eve"
              [MoreSample.ada; MoreSample.bob]) as (_ & Heve & _).
  destruct (has_password_guards_validate_user "ada"
              [MoreSample.ada; MoreSample.bob]) as (_ & _ & Hada).
  split; [apply Hbob; reflexivity|].
  split; [apply Heve; reflexivity|].
  apply (Hada MoreSample.checkpw "secret"%string MoreSample.ada).
  reflexivity.
Defined.

Lemma change_user_status_flags_named_witness :
  exists users',
    change_user_status ["bob"%string] false [MoreSample.ada; MoreSample.bob]
    = (true, users')
    /\ map User.username (get_users true None users')
       = [Some "ada"%string]
    /\ In MoreSample.ada users'.
Proof.
  destruct (change_user_status_flags_named ["bob"%string] false
              [MoreSample.ada; MoreSample.bob])
    as (users' & H & _ & _ & _ & Hkeep).
  exists users'. split; [exact H|]. injection H as <-.
  split; [reflexivity|]. now left.
Defined.

Lemma get_irl_ass_id_latest_witness :
  let old :=
    Sample.assessment (Some 1) (Some 7) (Some 1) (Some "2024-01-31"%string)
      (Some 1) in
  let new :=
    Sample.assessment (Some 2) (Some 7) (Some 1) (Some "2024-06-30"%string)
      (Some 1) in
  get_irl_ass_id 7 [new; old] = Item (Some 2)
  /\ get_irl_ass_id 9 [new; old] = IndexError.
Proof.
  intros old new.
  destruct (get_irl_ass_id_latest 9 [new; old]) as (H & _).
  split; [reflexivity|]. apply H. reflexivity.
Defined.

Lemma update_license_values_cells_witness :
  In (MatrixSample.cell "TRL" 4 30 3)
    (update_license_values [(2, [("CRL"%string, 500)])] MatrixSample.matrix)
  /\ In (MatrixSample.cell "CRL" 3 10 500)
       (update_license_values [(2, [("CRL"%string, 500)])]
          MatrixSample.matrix).
Proof.
  destruct (update_license_values_cells [(2, [("CRL"%string, 500)])]
              MatrixSample.matrix) as (_ & Hkeep & _).
  split.
  - apply Hkeep; [right; right; now left|].
    intros row cells cell [H | []] Hc. injection H as <- <-.
    destruct Hc as [<- | []]. right. discriminate.
  - now left.
Defined.
